(** * Image metadata highlights (sid.py): a shallow embedding

    The development follows the Python source function by function:
    [human_size], [ratio_to_float], [dms_to_decimal],
    [parse_exifread_tags], [parse_piexif] and [extract_one].

    Python values are a small inductive universe, Python floats are IEEE
    binary64 numbers in the Standard Library's executable specification
    ([spec_float] with 53 bits of precision), exceptions are an error monad,
    and dictionaries are finite maps. *)

From Stdlib Require Import ZArith Floats.SpecFloat Ascii String.
From stdpp Require Import gmap strings list fin_maps pretty.

Local Open Scope Z_scope.

(** ** Binary64 floats *)

Module F.

Definition prec : Z := 53.
Definition emax : Z := 1024.

Definition zero : spec_float := S754_zero false.

(** The nearest binary64 number to an integer, ties to even; an integer
    beyond the range becomes an infinity. *)
Definition of_Z (z : Z) : spec_float := binary_normalize prec emax z 0 false.

Definition add : spec_float → spec_float → spec_float := SFadd prec emax.
Definition div : spec_float → spec_float → spec_float := SFdiv prec emax.
Definition opp : spec_float → spec_float := SFopp.
Definition abs : spec_float → spec_float := SFabs.
Definition ltb : spec_float → spec_float → bool := SFltb.
Definition eqb : spec_float → spec_float → bool := SFeqb.

Definition is_zero (x : spec_float) : bool :=
  match x with S754_zero _ => true | _ => false end.

Definition is_infinite (x : spec_float) : bool :=
  match x with S754_infinity _ => true | _ => false end.

(** The sign bit; a NaN has none. *)
Definition signbit (x : spec_float) : bool :=
  match x with
  | S754_zero s | S754_infinity s | S754_finite s _ _ => s
  | S754_nan => false
  end.

Definition with_sign (s : bool) (x : spec_float) : spec_float :=
  if s then opp x else x.

(** [a / b] rounded to the nearest integer, ties to even ([0 ≤ a], [0 < b]). *)
Definition div_half_even (a b : Z) : Z :=
  let q := a / b in
  match (2 * (a mod b)) ?= b with
  | Lt => q
  | Gt => q + 1
  | Eq => if Z.even q then q else q + 1
  end.

(** The nearest binary64 number to the fraction [n / d] of two positive
    integers: the division algorithm rounds the exact quotient once. *)
Definition of_frac (n d : positive) : spec_float :=
  div (S754_finite false n 0) (S754_finite false d 0).

(** [|x| * 10^nd] rounded to an integer, ties to even, for the finite
    number of mantissa [m] and exponent [e]. *)
Definition scaled_units (nd : Z) (m : positive) (e : Z) : Z :=
  div_half_even (Z.pos m * 10 ^ nd * 2 ^ Z.max e 0) (2 ^ Z.max (- e) 0).

(** [round(x, nd)] of Python for [0 ≤ nd]: the exact value of [x] is
    rounded to [nd] decimals, ties to even, and the decimal obtained is
    read back as the nearest float. Zeros, infinities and NaN round to
    themselves; the sign of [x] is kept. *)
Definition round_digits (nd : Z) (x : spec_float) : spec_float :=
  match x with
  | S754_finite s m e =>
      match scaled_units nd m e with
      | Z.pos q => with_sign s (of_frac q (Z.to_pos (10 ^ nd)))
      | _ => S754_zero s
      end
  | _ => x
  end.

(** The text of the format specification [.1f]. *)
Definition format_1f (x : spec_float) : string :=
  match x with
  | S754_nan => "nan"
  | S754_infinity s => (if s then "-inf" else "inf")%string
  | S754_zero s => (if s then "-0.0" else "0.0")%string
  | S754_finite s m e =>
      let q := scaled_units 1 m e in
      ((if s then "-" else "") +:+ pretty (q / 10) +:+ "." +:+ pretty (q mod 10))%string
  end.

Definition f0_0 : spec_float := zero.
Definition f1_0 : spec_float := Eval vm_compute in of_Z 1.
Definition f60_0 : spec_float := Eval vm_compute in of_Z 60.
Definition f3600_0 : spec_float := Eval vm_compute in of_Z 3600.
Definition f1024_0 : spec_float := Eval vm_compute in of_Z 1024.

End F.

(** ** Exceptions

    Every exception the modelled code can meet derives from [Exception],
    so an [except Exception] clause handles each of them. *)

Inductive exn : Type :=
  | TypeError
  | ValueError
  | ZeroDivisionError
  | OverflowError
  | IndexError
  | KeyError
  | AttributeError
  | OSError
  | LibraryError (what : string).

Inductive exc (A : Type) : Type :=
  | Ok (a : A)
  | Raise (e : exn).

Arguments Ok {A} a.
Arguments Raise {A} e.

#[global] Instance exc_ret : MRet exc := λ A a, Ok a.

#[global] Instance exc_bind : MBind exc := λ A B f m,
  match m with
  | Ok a => f a
  | Raise e => Raise e
  end.

#[global] Instance exc_fmap : FMap exc := λ A B f m,
  match m with
  | Ok a => Ok (f a)
  | Raise e => Raise e
  end.

(** [try: body except Exception: handler]. *)
Definition try_except {A : Type} (body : exc A) (handler : exn → exc A) : exc A :=
  match body with
  | Ok a => Ok a
  | Raise e => handler e
  end.

Definition raises {A : Type} (m : exc A) : bool :=
  match m with
  | Ok _ => false
  | Raise _ => true
  end.

(** ** Python values

    Text ([VStr]) is kept in its UTF-8 encoding; an object ([VObj]) is
    its attribute table and supports no other protocol. *)

#[local] Set Warnings "-register-all".

Inductive value : Type :=
  | VNone
  | VBool (b : bool)
  | VInt (z : Z)
  | VFloat (x : spec_float)
  | VStr (s : string)
  | VBytes (b : list Byte.byte)
  | VTuple (items : list value)
  | VList (items : list value)
  | VDict (entries : list (string * value))
  | VObj (attrs : list (string * value)).

(** An exifread ratio: an object with the attributes [num] and [den]. *)
Definition Ratio (num den : Z) : value :=
  VObj [("num", VInt num); ("den", VInt den)].

Fixpoint assoc {A : Type} (k : string) (l : list (string * A)) : option A :=
  match l with
  | [] => None
  | (k', v) :: l' => if String.eqb k k' then Some v else assoc k l'
  end.

Definition is_none (v : value) : bool :=
  match v with
  | VNone => true
  | _ => false
  end.

(** Truth value testing. *)
Definition truthy (v : value) : bool :=
  match v with
  | VNone => false
  | VBool b => b
  | VInt z => negb (z =? 0)
  | VFloat x => negb (F.is_zero x)
  | VStr s => negb (String.eqb s "")
  | VBytes b => negb (bool_decide (b = []))
  | VTuple l | VList l => negb (bool_decide (length l = 0%nat))
  | VDict d => negb (bool_decide (length d = 0%nat))
  | VObj _ => true
  end.

(** [a or b]. *)
Definition py_or (a b : value) : value := if truthy a then a else b.

(** [v != 0]. *)
Definition ne_zero (v : value) : bool :=
  match v with
  | VBool b => b
  | VInt z => negb (z =? 0)
  | VFloat x => negb (F.eqb x F.zero)
  | _ => true
  end.

Definition hasattr (v : value) (name : string) : bool :=
  match v with
  | VObj attrs => bool_decide (is_Some (assoc name attrs))
  | _ => false
  end.

Definition getattr (v : value) (name : string) : exc value :=
  match v with
  | VObj attrs =>
      match assoc name attrs with
      | Some a => Ok a
      | None => Raise AttributeError
      end
  | _ => Raise AttributeError
  end.

(** [float(z)] for an integer. *)
Definition float_of_int (z : Z) : exc spec_float :=
  let x := F.of_Z z in
  if F.is_infinite x then Raise OverflowError else Ok x.

(** [a / b] on floats. *)
Definition float_truediv (a b : spec_float) : exc spec_float :=
  if F.is_zero b then Raise ZeroDivisionError else Ok (F.div a b).

(** *** Text *)

Definition nul : ascii := ascii_of_N 0.

Definition is_nul (c : ascii) : bool := Ascii.eqb c nul.

Fixpoint lstrip_nul (s : string) : string :=
  match s with
  | EmptyString => EmptyString
  | String c s' => if is_nul c then lstrip_nul s' else s
  end.

Fixpoint rstrip_nul (s : string) : string :=
  match s with
  | EmptyString => EmptyString
  | String c s' =>
      let r := rstrip_nul s' in
      if is_nul c && String.eqb r "" then EmptyString else String c r
  end.

(** [s.strip('\x00')]. *)
Definition strip_nul (s : string) : string := rstrip_nul (lstrip_nul s).

(** [s.startswith(p)]. *)
Definition startswith (s p : string) : bool := String.prefix p s.

Definition is_continuation (c : N) : bool := ((128 <=? c) && (c <? 192))%N.

(** The code points of a text, each in its encoding: a lead byte with the
    continuation bytes that follow it. *)
Fixpoint str_chars (s : string) : list string :=
  match s with
  | EmptyString => []
  | String c s' =>
      match str_chars s' with
      | String c' ch :: rest =>
          if is_continuation (N_of_ascii c') then String c (String c' ch) :: rest
          else String c EmptyString :: String c' ch :: rest
      | rest => String c EmptyString :: rest
      end
  end.

(** [seq[i]] for a non-negative literal index. *)
Definition getitem (v : value) (i : nat) : exc value :=
  match v with
  | VTuple l | VList l =>
      match l !! i with
      | Some x => Ok x
      | None => Raise IndexError
      end
  | VStr s =>
      match str_chars s !! i with
      | Some ch => Ok (VStr ch)
      | None => Raise IndexError
      end
  | VBytes b =>
      match b !! i with
      | Some x => Ok (VInt (Z.of_N (Byte.to_N x)))
      | None => Raise IndexError
      end
  | VDict _ => Raise KeyError
  | _ => Raise TypeError
  end.

(** *** Bytes *)

Definition code (b : Byte.byte) : N := Byte.to_N b.

Definition chr (b : Byte.byte) : string := String (ascii_of_byte b) EmptyString.

(** U+FFFD, the replacement character, in UTF-8. *)
Definition replacement : string :=
  String (ascii_of_N 239) (String (ascii_of_N 191) (String (ascii_of_N 189) EmptyString)).

(** A second byte that cannot follow the lead byte [c] of a three-byte
    sequence (overlong forms after E0, surrogates after ED). *)
Definition bad_second3 (c c1 : N) : bool :=
  (negb (is_continuation c1) || (if c1 <? 160 then c =? 224 else c =? 237))%N.

(** The same for a four-byte sequence (overlong after F0, beyond U+10FFFF
    after F4). *)
Definition bad_second4 (c c1 : N) : bool :=
  (negb (is_continuation c1) || (if c1 <? 144 then c =? 240 else c =? 244))%N.

(** [b.decode('utf-8', errors='replace')]: a well-formed sequence is kept,
    an invalid start byte, or the valid beginning of a sequence that is cut
    short or continued wrongly, becomes one replacement character and
    decoding resumes at the offending byte. *)
Fixpoint decode_replace (b : list Byte.byte) : string :=
  match b with
  | [] => EmptyString
  | b0 :: l1 =>
      let c := code b0 in
      if (c <? 128)%N then chr b0 +:+ decode_replace l1
      else if (c <? 194)%N then replacement +:+ decode_replace l1
      else if (c <? 224)%N then
        match l1 with
        | [] => replacement
        | b1 :: l2 =>
            if is_continuation (code b1) then chr b0 +:+ chr b1 +:+ decode_replace l2
            else replacement +:+ decode_replace l1
        end
      else if (c <? 240)%N then
        match l1 with
        | [] => replacement
        | b1 :: l2 =>
            if bad_second3 c (code b1) then replacement +:+ decode_replace l1
            else
              match l2 with
              | [] => replacement
              | b2 :: l3 =>
                  if is_continuation (code b2)
                  then chr b0 +:+ chr b1 +:+ chr b2 +:+ decode_replace l3
                  else replacement +:+ decode_replace l2
              end
        end
      else if (c <? 245)%N then
        match l1 with
        | [] => replacement
        | b1 :: l2 =>
            if bad_second4 c (code b1) then replacement +:+ decode_replace l1
            else
              match l2 with
              | [] => replacement
              | b2 :: l3 =>
                  if negb (is_continuation (code b2)) then replacement +:+ decode_replace l2
                  else
                    match l3 with
                    | [] => replacement
                    | b3 :: l4 =>
                        if is_continuation (code b3)
                        then chr b0 +:+ chr b1 +:+ chr b2 +:+ chr b3 +:+ decode_replace l4
                        else replacement +:+ decode_replace l3
                    end
              end
        end
      else replacement +:+ decode_replace l1
  end.

(** The codec call as the source makes it; with [errors='replace'] it has
    no failing case. *)
Definition bytes_decode (b : list Byte.byte) : exc string := Ok (decode_replace b).

Definition hex_digit (n : N) : string :=
  match List.nth_error
          ["0"; "1"; "2"; "3"; "4"; "5"; "6"; "7"; "8"; "9"; "a"; "b"; "c"; "d"; "e"; "f"]%string
          (N.to_nat n) with
  | Some d => d
  | None => EmptyString
  end.

Definition quote1 : Byte.byte := Byte.x27.
Definition quote2 : Byte.byte := Byte.x22.
Definition backslash : Byte.byte := Byte.x5c.

Definition repr_byte (q : Byte.byte) (b : Byte.byte) : string :=
  let c := code b in
  if Byte.eqb b q || Byte.eqb b backslash then chr backslash +:+ chr b
  else if (c =? 9)%N then chr backslash +:+ "t"
  else if (c =? 10)%N then chr backslash +:+ "n"
  else if (c =? 13)%N then chr backslash +:+ "r"
  else if ((c <? 32) || (127 <=? c))%N
       then chr backslash +:+ "x" +:+ hex_digit (c / 16) +:+ hex_digit (c mod 16)
  else chr b.

(** [repr(b)] of a bytes object: single quotes, unless the bytes hold a
    single quote and no double quote. *)
Definition bytes_repr (b : list Byte.byte) : string :=
  let q := if existsb (Byte.eqb quote1) b && negb (existsb (Byte.eqb quote2) b)
           then quote2 else quote1 in
  "b" +:+ chr q +:+ String.concat "" (map (repr_byte q) b) +:+ chr q.

(** *** Built-ins taken from the environment

    The interpreter's text routines over the whole of Unicode and the tag
    table of the structured reader are not part of the program; the
    development is parametric in them. *)

Class Builtins : Type := {
  (** [float(s)] for a text [s]; [None] stands for [ValueError]. *)
  float_of_text : string → option spec_float;
  (** [s.upper()]. *)
  str_upper : string → string;
  (** [str(v)], which is also how an f-string renders [v]. *)
  py_str : value → string;
  (** [piexif.TAGS[ifd][tag]['name']], when the table has the entry. *)
  tag_name : string → Z → option string
}.

Definition text_of_bytes (b : list Byte.byte) : string :=
  String.concat "" (map chr b).

(** The float of a real number; other operands are a [TypeError]. *)
Definition as_float (v : value) : exc spec_float :=
  match v with
  | VBool b => Ok (if b then F.f1_0 else F.f0_0)
  | VInt z => float_of_int z
  | VFloat x => Ok x
  | _ => Raise TypeError
  end.

(** [float(v)]. *)
Definition py_float `{Builtins} (v : value) : exc spec_float :=
  match v with
  | VStr s =>
      match float_of_text s with
      | Some x => Ok x
      | None => Raise ValueError
      end
  | VBytes b =>
      if forallb (λ c, (code c <? 128)%N) b then
        match float_of_text (text_of_bytes b) with
        | Some x => Ok x
        | None => Raise ValueError
        end
      else Raise ValueError
  | _ => as_float v
  end.

(** [v / y] for a float [y]. *)
Definition truediv_float (v : value) (y : spec_float) : exc spec_float :=
  x ← as_float v; float_truediv x y.

(** [v + y] for a float [y]. *)
Definition add_float (v : value) (y : spec_float) : exc spec_float :=
  x ← as_float v; Ok (F.add x y).

(** The exact comparison of an integer with a float. *)
Definition Z_lt_float (z : Z) (y : spec_float) : bool :=
  match y with
  | S754_nan => false
  | S754_infinity s => negb s
  | S754_zero _ => z <? 0
  | S754_finite s m e =>
      let n := if s then Z.neg m else Z.pos m in
      if 0 <=? e then z <? n * 2 ^ e else z * 2 ^ (- e) <? n
  end.

(** [v < y] for a float [y]. *)
Definition lt_float (v : value) (y : spec_float) : exc bool :=
  match v with
  | VBool b => Ok (Z_lt_float (if b then 1 else 0) y)
  | VInt z => Ok (Z_lt_float z y)
  | VFloat x => Ok (F.ltb x y)
  | _ => Raise TypeError
  end.

(** [f"{v:.1f}"]. *)
Definition format_1f (v : value) : exc string :=
  match v with
  | VBool _ | VInt _ | VFloat _ => F.format_1f <$> as_float v
  | VStr _ => Raise ValueError
  | _ => Raise TypeError
  end.

(** [abs(v)] and [-v]. *)
Definition py_abs (v : value) : exc value :=
  match v with
  | VBool b => Ok (VInt (if b then 1 else 0))
  | VInt z => Ok (VInt (Z.abs z))
  | VFloat x => Ok (VFloat (F.abs x))
  | _ => Raise TypeError
  end.

Definition py_neg (v : value) : exc value :=
  match v with
  | VBool b => Ok (VInt (if b then -1 else 0))
  | VInt z => Ok (VInt (- z))
  | VFloat x => Ok (VFloat (F.opp x))
  | _ => Raise TypeError
  end.

(** [round(v, 6)]: an integer is its own rounding. *)
Definition round6 (v : value) : exc value :=
  match v with
  | VBool b => Ok (VInt (if b then 1 else 0))
  | VInt z => Ok (VInt z)
  | VFloat x => Ok (VFloat (F.round_digits 6 x))
  | _ => Raise TypeError
  end.

Fixpoint foldlM {A B : Type} (f : B → A → exc B) (acc : B) (l : list A) : exc B :=
  match l with
  | [] => Ok acc
  | a :: l' => acc' ← f acc a; foldlM f acc' l'
  end.

(** ** The program *)

(** *** [human_size] *)

Fixpoint human_size_loop (units : list string) (n : value) : exc string :=
  match units with
  | [] => (λ s, s +:+ "PB") <$> format_1f n
  | unit :: units' =>
      below ← lt_float n F.f1024_0;
      if below : bool then (λ s, s +:+ unit) <$> format_1f n
      else n' ← truediv_float n F.f1024_0; human_size_loop units' (VFloat n')
  end.

Definition human_size (n : Z) : exc string :=
  human_size_loop ["B"; "KB"; "MB"; "GB"; "TB"]%string (VInt n).

(** *** [ratio_to_float] *)

Definition ratio_to_float `{Builtins} (r : value) : exc value :=
  try_except
    (if hasattr r "num" && hasattr r "den" then
       den ← getattr r "den";
       if ne_zero den then
         num ← getattr r "num";
         a ← py_float num;
         b ← py_float den;
         VFloat <$> float_truediv a b
       else Ok (VFloat F.f0_0)
     else
       match r with
       | VTuple [num; den] =>
           if ne_zero den then
             a ← py_float num;
             b ← py_float den;
             VFloat <$> float_truediv a b
           else Ok (VFloat F.f0_0)
       | _ => VFloat <$> py_float r
       end)
    (λ _, Ok VNone).

(** *** [dms_to_decimal] *)

Definition dms_to_decimal `{Builtins} (dms : value) : exc value :=
  try_except
    (d ← getitem dms 0 ≫= ratio_to_float;
     m ← getitem dms 1 ≫= ratio_to_float;
     s ← getitem dms 2 ≫= ratio_to_float;
     if is_none d || is_none m || is_none s then Ok VNone
     else
       m60 ← truediv_float m F.f60_0;
       dm ← add_float d m60;
       s3600 ← truediv_float s F.f3600_0;
       Ok (VFloat (F.add dm s3600)))
    (λ _, Ok VNone).

(** *** [parse_exifread_tags] *)

(** An entry of the flat reader's mapping: a tag with its printable form
    and its raw values, or some other object, of which only [str] is
    known and which has no [values] attribute. *)
Inductive tag : Type :=
  | IfdTag (printable : string) (values : value)
  | OtherTag (text : string).

Definition tag_str (t : tag) : string :=
  match t with
  | IfdTag printable _ => printable
  | OtherTag text => text
  end.

Definition tag_values (t : tag) : exc value :=
  match t with
  | IfdTag _ values => Ok values
  | OtherTag _ => Raise AttributeError
  end.

(** [tags[k]]. *)
Definition subscript (tags : gmap string tag) (k : string) : exc tag :=
  match tags !! k with
  | Some t => Ok t
  | None => Raise KeyError
  end.

(** The inner helper [get]: [str(tags[k]) if k in tags else None]. *)
Definition get (tags : gmap string tag) (k : string) : value :=
  match tags !! k with
  | Some t => VStr (tag_str t)
  | None => VNone
  end.

(** [str(tags.get(k, '')).upper()]. *)
Definition ref_of `{Builtins} (tags : gmap string tag) (k : string) : string :=
  str_upper (match tags !! k with
             | Some t => tag_str t
             | None => EmptyString
             end).

(** [-abs(v)] when the reference is not empty and starts with [h]. *)
Definition apply_ref (ref h : string) (v : value) : exc value :=
  if truthy (VStr ref) && startswith ref h then py_abs v ≫= py_neg else Ok v.

Definition base_fields (tags : gmap string tag) : gmap string value :=
  let out : gmap string value := ∅ in
  let out := <["make" := py_or (get tags "Image Make") (get tags "Make")]> out in
  let out := <["model" := py_or (get tags "Image Model") (get tags "Model")]> out in
  let out := <["datetime_original" :=
                 py_or (py_or (get tags "EXIF DateTimeOriginal")
                              (get tags "EXIF DateTimeDigitized"))
                       (get tags "Image DateTime")]> out in
  let out := <["software" := py_or (get tags "Image Software") (get tags "Software")]> out in
  <["artist" := py_or (py_or (get tags "Image Artist") (get tags "EXIF Artist"))
                       (get tags "Artist")]> out.

(** The body of the [try] block: the mapping [out] is written once, by
    the last statement, and only when both conversions gave a number. *)
Definition gps_block `{Builtins} (tags : gmap string tag) (out : gmap string value)
    : exc (gmap string value) :=
  lat_vals ← subscript tags "GPS GPSLatitude" ≫= tag_values;
  lon_vals ← subscript tags "GPS GPSLongitude" ≫= tag_values;
  let lat_ref := ref_of tags "GPS GPSLatitudeRef" in
  let lon_ref := ref_of tags "GPS GPSLongitudeRef" in
  lat ← dms_to_decimal lat_vals;
  lon ← dms_to_decimal lon_vals;
  if negb (is_none lat) && negb (is_none lon) then
    lat ← apply_ref lat_ref "S" lat;
    lon ← apply_ref lon_ref "W" lon;
    rlat ← round6 lat;
    rlon ← round6 lon;
    Ok (<["gps" := VDict [("lat", rlat); ("lon", rlon);
                          ("lat_ref", VStr lat_ref); ("lon_ref", VStr lon_ref)]]> out)
  else Ok out.

Definition parse_exifread_tags `{Builtins} (tags : gmap string tag)
    : exc (gmap string value) :=
  let out := base_fields tags in
  if bool_decide (is_Some (tags !! "GPS GPSLatitude"))
     && bool_decide (is_Some (tags !! "GPS GPSLongitude"))
  then try_except (gps_block tags out) (λ _, Ok out)
  else Ok out.

(** *** [parse_piexif] *)

(** A value of the structured reader's result: the tags of a directory in
    the order [items()] yields them, or an object that is no mapping (the
    thumbnail entry holds bytes or [None]). *)
Inductive ifd_entry : Type :=
  | IfdTags (items : list (Z * value))
  | IfdOther (v : value).

(** [ex.get(ifd, {}).items()]. *)
Definition ifd_items (ex : list (string * ifd_entry)) (ifd : string)
    : exc (list (Z * value)) :=
  match assoc ifd ex with
  | Some (IfdTags items) => Ok items
  | Some (IfdOther _) => Raise AttributeError
  | None => Ok []
  end.

(** The value stored for one tag. *)
Definition clean_value (val : value) : exc value :=
  match val with
  | VBytes b =>
      VStr <$> try_except (strip_nul <$> bytes_decode b) (λ _, Ok (bytes_repr b))
  | _ => Ok val
  end.

(** [piexif.TAGS.get(ifd, {}).get(tag, {}).get('name', str(tag))]. *)
Definition name_of `{Builtins} (ifd : string) (tag : Z) : string :=
  default (pretty tag) (tag_name ifd tag).

(** The inner function [clean]. *)
Definition clean `{Builtins} (ex : list (string * ifd_entry)) (ifd : string)
    : exc (gmap string value) :=
  items ← ifd_items ex ifd;
  foldlM (λ (out : gmap string value) '(tag, val),
            v ← clean_value val; Ok (<[name_of ifd tag := v]> out))
         ∅ items.

(** [load] is the outcome of [piexif.load(str(img_path))]. *)
Definition parse_piexif `{Builtins} (load : exc (list (string * ifd_entry)))
    : exc (gmap string (gmap string value)) :=
  match load with
  | Raise _ => Ok ∅
  | Ok ex =>
      foldlM (λ (acc : gmap string (gmap string value)) ifd,
                c ← clean ex ifd; Ok (<[ifd := c]> acc))
             ∅ (map fst ex)
  end.

(** *** [extract_one] *)

(** What the collaborators return for one path: the file system, the image
    container reader, the flat tag reader and the structured reader.
    [path_resolved] is the outcome of [str(path.resolve())], which raises
    on a path that cannot be resolved (a loop of symbolic links, a null
    character in the name). *)
Record source : Type := {
  path_name : string;
  path_resolved : exc string;
  stat_size : exc Z;
  image_info : exc (value * Z * Z);
  flat_tags : exc (gmap string tag);
  ifd_tree : exc (list (string * ifd_entry))
}.

(** The dictionary [result]; the three keys that the function adds only on
    some paths are optional fields, and an error message is kept as the
    exception it renders. *)
Record result : Type := {
  file : string;
  path : string;
  size_bytes : value;
  size_human : value;
  width : value;
  height : value;
  format : value;
  pil_error : option exn;
  exifread : gmap string value;
  piexif : gmap string (gmap string value);
  exifread_raw : option (gmap string string);
  exifread_error : option exn;
  piexif_error : option exn;
  highlights : gmap string value
}.

(** [d.get(k)]. *)
Definition dict_get (d : gmap string value) (k : string) : value :=
  default VNone (d !! k).

(** [tree.get(ifd, {})]. *)
Definition group (tree : gmap string (gmap string value)) (ifd : string)
    : gmap string value :=
  default ∅ (tree !! ifd).

(** [v[k]] for a text key. *)
Definition item (v : value) (k : string) : exc value :=
  match v with
  | VDict entries =>
      match assoc k entries with
      | Some x => Ok x
      | None => Raise KeyError
      end
  | _ => Raise TypeError
  end.

(** [sep.join(items)]. *)
Fixpoint str_join (sep : string) (items : list value) : exc string :=
  match items with
  | [] => Ok EmptyString
  | VStr s :: items' =>
      match items' with
      | [] => Ok s
      | _ => (λ r, s +:+ sep +:+ r) <$> str_join sep items'
      end
  | _ => Raise TypeError
  end.

Definition note_gps : string := "No GPS data found (or stripped by app).".
Definition note_author : string := "No author/artist metadata found.".
Definition note_device : string := "No device/make/model info found.".
Definition note_datetime : string := "No DateTimeOriginal found.".

(** The notes of the last part of the function, from the highlights built
    so far. *)
Definition confidence_notes (highlights : gmap string value) : list string :=
  let notes : list string := [] in
  let notes := if negb (truthy (dict_get highlights "gps"))
               then notes ++ [note_gps] else notes in
  let notes := if negb (truthy (dict_get highlights "author"))
               then notes ++ [note_author] else notes in
  let notes := if negb (truthy (dict_get highlights "device"))
               then notes ++ [note_device] else notes in
  if negb (truthy (dict_get highlights "datetime_original"))
  then notes ++ [note_datetime] else notes.

(** [if c: highlights[k] = v]. *)
Definition put_if (c : bool) (k : string) (v : value) (highlights : gmap string value)
    : gmap string value :=
  if c then <[k := v]> highlights else highlights.

(** The device: the make and the model that are there, joined by a space. *)
Definition add_device (make model : value) (highlights : gmap string value)
    : exc (gmap string value) :=
  if truthy make || truthy model
  then device ← str_join " " (List.filter truthy [make; model]);
       Ok (<["device" := VStr device]> highlights)
  else Ok highlights.

(** The date and time: the flat value, else the structured ones, decoded
    when they are bytes. *)
Definition resolve_datetime `{Builtins} (parsed : gmap string value)
    (tree : gmap string (gmap string value)) : exc value :=
  let dt := dict_get parsed "datetime_original" in
  if negb (truthy dt) then
    let dt := py_or (dict_get (group tree "0th") "DateTime")
                    (dict_get (group tree "Exif") "DateTimeOriginal") in
    match dt with
    | VBytes b => VStr <$> try_except (bytes_decode b) (λ _, Ok (py_str (VBytes b)))
    | _ => Ok dt
    end
  else Ok dt.

(** The GPS entry with its rendering as text. *)
Definition add_gps `{Builtins} (gps : value) (highlights : gmap string value)
    : exc (gmap string value) :=
  if truthy gps
  then lat ← item gps "lat";
       lon ← item gps "lon";
       let highlights :=
         <["gps_decimal" := VStr (py_str lat +:+ ", " +:+ py_str lon)]> highlights in
       Ok (<["gps" := gps]> highlights)
  else Ok highlights.

(** The highlights, from the flat result [parsed], the structured result
    [tree] and the basic facts already stored in the record. *)
Definition build_highlights `{Builtins} (parsed : gmap string value)
    (tree : gmap string (gmap string value)) (width height size_human : value)
    : exc (gmap string value) :=
  let highlights : gmap string value := ∅ in
  let make := py_or (dict_get parsed "make") (dict_get (group tree "0th") "Make") in
  let model := py_or (dict_get parsed "model") (dict_get (group tree "0th") "Model") in
  highlights ← add_device make model highlights;
  let artist := py_or (dict_get parsed "artist") (dict_get (group tree "0th") "Artist") in
  let highlights := put_if (truthy artist) "author" artist highlights in
  let software :=
    py_or (dict_get parsed "software") (dict_get (group tree "0th") "Software") in
  let highlights := put_if (truthy software) "software" software highlights in
  dt ← resolve_datetime parsed tree;
  let highlights := put_if (truthy dt) "datetime_original" dt highlights in
  let gps := py_or (dict_get parsed "gps") VNone in
  highlights ← add_gps gps highlights;
  let highlights :=
    put_if (truthy width && truthy height) "dimensions"
           (VStr (py_str width +:+ "x" +:+ py_str height)) highlights in
  let highlights := put_if (truthy size_human) "file_size" size_human highlights in
  let notes := confidence_notes highlights in
  Ok (<["notes" := VList (VStr <$> notes)]> highlights).

Definition extract_one `{Builtins} (src : source) : exc result :=
  resolved ← path_resolved src;
  let '(size_bytes, size_human) :=
    match stat_size src with
    | Ok n => (VInt n, match human_size n with
                       | Ok s => VStr s
                       | Raise _ => VNone
                       end)
    | Raise _ => (VNone, VNone)
    end in
  let '(format, width, height, pil_error) :=
    match image_info src with
    | Ok (fmt, w, h) => (fmt, VInt w, VInt h, None)
    | Raise e => (VNone, VNone, VNone, Some e)
    end in
  let '(exifread_raw, parsed, exifread_error) :=
    match flat_tags src with
    | Ok tags =>
        match parse_exifread_tags tags with
        | Ok parsed => (Some (tag_str <$> tags), parsed, None)
        | Raise e => (Some (tag_str <$> tags), ∅, Some e)
        end
    | Raise e => (None, ∅, Some e)
    end in
  let '(tree, piexif_error) :=
    match parse_piexif (ifd_tree src) with
    | Ok tree => (tree, None)
    | Raise e => (∅, Some e)
    end in
  highlights ← build_highlights parsed tree width height size_human;
  Ok {| file := path_name src; path := resolved;
        size_bytes := size_bytes; size_human := size_human;
        width := width; height := height; format := format;
        pil_error := pil_error;
        exifread := parsed; piexif := tree;
        exifread_raw := exifread_raw; exifread_error := exifread_error;
        piexif_error := piexif_error;
        highlights := highlights |}.

(** ** A concrete environment for examples

    It is exact on what the examples feed it: ASCII case mapping; [str] of
    text, integers, [None], booleans and bytes; floats in fixed notation
    with up to six decimals, which is the [repr] of the floats that
    [round(_, 6)] gives when their magnitude lies between 1e-4 and 1e16;
    unsigned decimal integer literals as floats; and the names of the
    tags the program looks up. Anything else is outside its domain. *)

Module Sample.

Definition upper_ascii (c : ascii) : ascii :=
  let n := N_of_ascii c in
  if ((97 <=? n) && (n <=? 122))%N then ascii_of_N (n - 32) else c.

Fixpoint upper (s : string) : string :=
  match s with
  | EmptyString => EmptyString
  | String c s' => String (upper_ascii c) (upper s')
  end.

Fixpoint digits_value (acc : Z) (s : string) : option Z :=
  match s with
  | EmptyString => Some acc
  | String c s' =>
      let n := N_of_ascii c in
      if ((48 <=? n) && (n <=? 57))%N
      then digits_value (10 * acc + Z.of_N (n - 48)) s'
      else None
  end.

Definition float_of_digits (s : string) : option spec_float :=
  match s with
  | EmptyString => None
  | _ => F.of_Z <$> digits_value 0 s
  end.

Fixpoint rstrip_zeros (s : string) : string :=
  match s with
  | EmptyString => EmptyString
  | String c s' =>
      let r := rstrip_zeros s' in
      if Ascii.eqb c "0" && String.eqb r "" then EmptyString else String c r
  end.

(** The decimals without the zeros that end them; one digit is kept. *)
Definition trim_zeros (s : string) : string :=
  match rstrip_zeros s with
  | EmptyString => "0"
  | r => r
  end.

Definition pad_left (w : nat) (s : string) : string :=
  String.concat "" (replicate (w - String.length s) "0"%string) +:+ s.

(** Fixed notation with up to six decimals. [str] of a float turns to the
    exponent notation below 1e-4 and from 1e16 on, which this does not
    follow: the examples stay inside that range. *)
Definition fixed6 (x : spec_float) : string :=
  match x with
  | S754_nan => "nan"
  | S754_infinity s => (if s then "-inf" else "inf")%string
  | S754_zero s => (if s then "-0.0" else "0.0")%string
  | S754_finite s m e =>
      let q := F.scaled_units 6 m e in
      ((if s then "-" else "") +:+ pretty (q / 1000000) +:+ "."
         +:+ trim_zeros (pad_left 6 (pretty (q mod 1000000))))%string
  end.

Definition str (v : value) : string :=
  match v with
  | VNone => "None"
  | VBool b => (if b then "True" else "False")%string
  | VInt z => pretty z
  | VFloat x => fixed6 x
  | VStr s => s
  | VBytes b => bytes_repr b
  | _ => EmptyString
  end.

Definition names (ifd : string) (tag : Z) : option string :=
  if String.eqb ifd "0th" then
    if tag =? 271 then Some "Make"%string
    else if tag =? 272 then Some "Model"%string
    else if tag =? 305 then Some "Software"%string
    else if tag =? 306 then Some "DateTime"%string
    else if tag =? 315 then Some "Artist"%string
    else None
  else if String.eqb ifd "Exif" then
    if tag =? 36867 then Some "DateTimeOriginal"%string else None
  else None.

Definition builtins : Builtins :=
  {| float_of_text := float_of_digits;
     str_upper := upper;
     py_str := str;
     tag_name := names |}.

End Sample.

(** ** Vocabulary of the statements *)

Definition is_number (v : value) : bool :=
  match v with
  | VBool _ | VInt _ | VFloat _ => true
  | _ => false
  end.

Definition float_or_none (v : value) : Prop := v = VNone ∨ ∃ x, v = VFloat x.

(** A numerator/denominator pair: a 2-tuple, or an object with the
    attributes [num] and [den]. *)
Inductive ratio_pair (num den : value) : value → Prop :=
  | pair_tuple : ratio_pair num den (VTuple [num; den])
  | pair_object (attrs : list (string * value)) :
      assoc "num" attrs = Some num → assoc "den" attrs = Some den →
      ratio_pair num den (VObj attrs).

(** [len(v)] of a sequence. *)
Definition seq_length (v : value) : option nat :=
  match v with
  | VTuple l | VList l => Some (length l)
  | VStr s => Some (length (str_chars s))
  | VBytes b => Some (length b)
  | _ => None
  end.

(** The coordinate after the hemisphere reference is applied: negated
    magnitude when the reference starts with [h], unchanged otherwise. *)
Definition signed_by (ref h : string) (x : spec_float) : spec_float :=
  if negb (String.eqb ref "") && startswith ref h then F.opp (F.abs x) else x.

(** A float with six decimals: a zero, or the float nearest to a whole
    number [q] of millionths, with a sign; the values that are no numbers
    (infinities, NaN) are set apart. *)
Definition six_decimals (x : spec_float) : Prop :=
  match x with
  | S754_zero _ | S754_infinity _ | S754_nan => True
  | S754_finite _ _ _ => ∃ s q, x = F.with_sign s (F.of_frac q 1000000)
  end.

Definition gps_entry (lat lon : spec_float) (lat_ref lon_ref : string) : value :=
  VDict [("lat", VFloat lat); ("lon", VFloat lon);
         ("lat_ref", VStr lat_ref); ("lon_ref", VStr lon_ref)].

(** The raw values of the tag stored under [k], when it is a tag. *)
Definition values_at (tags : gmap string tag) (k : string) : option value :=
  match tags !! k with
  | Some (IfdTag _ values) => Some values
  | _ => None
  end.

(** The GPS entry the flat extractor stores, if any: both coordinate tags
    are there and both conversions give a number. *)
Definition gps_of `{Builtins} (tags : gmap string tag) : option value :=
  match values_at tags "GPS GPSLatitude", values_at tags "GPS GPSLongitude" with
  | Some lat_vals, Some lon_vals =>
      match dms_to_decimal lat_vals, dms_to_decimal lon_vals with
      | Ok (VFloat x), Ok (VFloat y) =>
          let lat_ref := ref_of tags "GPS GPSLatitudeRef" in
          let lon_ref := ref_of tags "GPS GPSLongitudeRef" in
          Some (gps_entry (F.round_digits 6 (signed_by lat_ref "S" x))
                          (F.round_digits 6 (signed_by lon_ref "W" y))
                          lat_ref lon_ref)
      | _, _ => None
      end
  | _, _ => None
  end.

Definition gps_keys : list string :=
  ["GPS GPSLatitude"; "GPS GPSLongitude"; "GPS GPSLatitudeRef"; "GPS GPSLongitudeRef"]%string.

Definition plain_fields : list string :=
  ["make"; "model"; "datetime_original"; "software"; "artist"]%string.

(** The mapping without the GPS tags. *)
Definition without_gps (tags : gmap string tag) : gmap string tag :=
  foldr delete tags gps_keys.

(** The highlights of an outcome of [extract_one]; none when it raised. *)
Definition highlights_of (outcome : exc result) : gmap string value :=
  match outcome with
  | Ok r => highlights r
  | Raise _ => ∅
  end.

(** A highlight is absent when the mapping has no such key. *)
Definition absent (highlights : gmap string value) (k : string) : bool :=
  bool_decide (highlights !! k = None).

(** One warning for each of GPS, author, device and datetime that is
    absent, in that order. *)
Definition notes_of_absent (highlights : gmap string value) : list string :=
  (if absent highlights "gps" then [note_gps] else [])
  ++ (if absent highlights "author" then [note_author] else [])
  ++ (if absent highlights "device" then [note_device] else [])
  ++ (if absent highlights "datetime_original" then [note_datetime] else []).

Definition noted_keys : list string :=
  ["gps"; "author"; "device"; "datetime_original"]%string.

(** The author the reconciler settles on: the flat artist, else the
    structured one. *)
Definition author_of (parsed : gmap string value)
    (tree : gmap string (gmap string value)) : value :=
  py_or (dict_get parsed "artist") (dict_get (group tree "0th") "Artist").


Definition unit_names : list string := ["B"; "KB"; "MB"; "GB"; "TB"; "PB"]%string.


(** The number of times 1024 divides into a byte count before it falls
    below 1024, counted up to [cap]. *)
Fixpoint unit_index (cap : nat) (n : Z) : nat :=
  match cap with
  | O => O
  | S cap' => if n <? 1024 then O else S (unit_index cap' (n / 1024))
  end.

(** The size in exact arithmetic: the count over [1024 ^ k] rounded to one
    decimal, ties to even, with the [k]-th unit. *)
Definition human_size_exact (n : Z) : string :=
  let k := unit_index 5 n in
  let q := F.div_half_even (10 * n) (1024 ^ Z.of_nat k) in
  (pretty (q / 10) +:+ "." +:+ pretty (q mod 10))
    +:+ default EmptyString (unit_names !! k).

Fixpoint nuls (n : nat) : string :=
  match n with
  | O => EmptyString
  | S n' => String nul (nuls n')
  end.

Definition starts_with_nul (s : string) : bool :=
  match s with
  | String c _ => is_nul c
  | EmptyString => false
  end.

Fixpoint ends_with_nul (s : string) : bool :=
  match s with
  | EmptyString => false
  | String c EmptyString => is_nul c
  | String _ s' => ends_with_nul s'
  end.

(** The text as the specification words it: the permissive decoding with
    the trailing null characters stripped. *)
Definition decoded_trailing_stripped (b : list Byte.byte) : string :=
  rstrip_nul (decode_replace b).

(** ** Example inputs *)

Module Examples.

Definition gps_tag (d m s_num s_den : Z) : tag :=
  IfdTag "" (VList [Ratio d 1; Ratio m 1; Ratio s_num s_den]).

Definition text_tag (s : string) : tag := IfdTag s (VStr s).

(** Latitude 40° 26' 46.302" N, longitude 79° 56' 55.903" W. *)
Definition pittsburgh_tags : gmap string tag :=
  <["GPS GPSLatitude" := gps_tag 40 26 46302 1000]>
  (<["GPS GPSLatitudeRef" := text_tag "N"]>
  (<["GPS GPSLongitude" := gps_tag 79 56 55903 1000]>
  (<["GPS GPSLongitudeRef" := text_tag "W"]>
  (<["Image Make" := text_tag "Canon"]>
  (<["Image Artist" := text_tag "A"]> ∅))))).

(** A point on the equator and on the prime meridian, tagged S and W. *)
Definition origin_tags : gmap string tag :=
  <["GPS GPSLatitude" := gps_tag 0 0 0 1]>
  (<["GPS GPSLatitudeRef" := text_tag "S"]>
  (<["GPS GPSLongitude" := gps_tag 0 0 0 1]>
  (<["GPS GPSLongitudeRef" := text_tag "W"]> ∅))).

(** The latitude tag is not a tag object: reading its values fails. *)
Definition broken_gps_tags : gmap string tag :=
  <["GPS GPSLatitude" := OtherTag "junk"]>
  (<["GPS GPSLongitude" := gps_tag 79 56 55903 1000]>
  (<["Image Make" := text_tag "Canon"]> ∅)).

Definition zeroth_artist_B : list (string * ifd_entry) :=
  [("0th", IfdTags [(315, VBytes [Byte.x42])])].

(** The same directory next to a thumbnail entry that holds [None]. *)
Definition with_thumbnail : list (string * ifd_entry) :=
  [("0th", IfdTags [(315, VBytes [Byte.x42])]); ("thumbnail", IfdOther VNone)].

(** A directory whose make is the bytes 00 41: a null, then "A". *)
Definition zeroth_make_nul_A : list (string * ifd_entry) :=
  [("0th", IfdTags [(271, VBytes [Byte.x00; Byte.x41])])].

Definition source_of (tags : exc (gmap string tag))
    (tree : exc (list (string * ifd_entry))) : source :=
  {| path_name := "a.jpg"; path_resolved := Ok "/photos/a.jpg"%string;
     stat_size := Ok 1536; image_info := Ok (VStr "JPEG", 640, 480);
     flat_tags := tags; ifd_tree := tree |}.

Definition pittsburgh : source := source_of (Ok pittsburgh_tags) (Ok zeroth_artist_B).

Definition origin : source := source_of (Ok origin_tags) (Ok []).

(** Degrees stored as a signed ratio, -40, with the reference N. *)
Definition signed_degrees : source :=
  source_of (Ok (<["GPS GPSLatitude" := gps_tag (-40) 0 0 1]>
                   (<["GPS GPSLatitudeRef" := text_tag "N"]> origin_tags)))
            (Ok []).

Definition structured_only : source := source_of (Ok ∅) (Ok zeroth_artist_B).

(** A file on which every reader fails. *)
Definition unreadable : source :=
  {| path_name := "b.jpg"; path_resolved := Ok "/photos/b.jpg"%string;
     stat_size := Raise OSError; image_info := Raise OSError;
     flat_tags := Raise OSError; ifd_tree := Raise (LibraryError "no exif") |}.

End Examples.
(** ** The rest of the program *)

(** *** [safe_read_bytes]

    [read] is the outcome of [p.read_bytes()]. *)
Definition safe_read_bytes (read : exc (list Byte.byte)) : value :=
  match read with
  | Ok b => VBytes b
  | Raise _ => VNone
  end.

(** *** Output

    [print_summary] and [main] write lines and files. A run is what was
    written, in order, with the outcome; what was written before an
    exception stays written. A file is written in steps: [JsonOpen] and
    [CsvOpen] stand for a file created or emptied by [open(path, 'w')],
    [JsonDump] for a record dumped in full, [CsvHeader] and [CsvRow] for
    one line of the summary file. *)

Inductive event : Type :=
  | Stdout (line : string)
  | Stderr (line : string)
  | JsonOpen (path : string)
  | JsonDump (path : string) (res : result)
  | CsvOpen (path : string)
  | CsvHeader (path : string) (header : list string)
  | CsvRow (path : string) (row : list (string * value)).

Record io (A : Type) : Type := Run { trace : list event; outcome : exc A }.

Arguments Run {A} trace outcome.
Arguments trace {A} _.
Arguments outcome {A} _.

#[global] Instance io_ret : MRet io := λ A a, Run [] (Ok a).

#[global] Instance io_bind : MBind io := λ A B f m,
  match outcome m with
  | Ok a => Run (trace m ++ trace (f a)) (outcome (f a))
  | Raise e => Run (trace m) (Raise e)
  end.

(** An effect-free computation inside a run. *)
Definition lift {A : Type} (m : exc A) : io A := Run [] m.

(** [print(line)] and [print(line, file=sys.stderr)]. *)
Definition print (line : string) : io unit := Run [Stdout line] (Ok tt).

Definition print_err (line : string) : io unit := Run [Stderr line] (Ok tt).

(** [try: body except Exception as e: handler]. *)
Definition io_try {A : Type} (body : io A) (handler : exn → io A) : io A :=
  match outcome body with
  | Ok _ => body
  | Raise e => Run (trace body ++ trace (handler e)) (outcome (handler e))
  end.

(** [for a in l: body]. *)
Fixpoint for_each {A : Type} (l : list A) (body : A → io unit) : io unit :=
  match l with
  | [] => mret tt
  | a :: l' => _ ← body a; for_each l' body
  end.

(** One write, when [attempt] is its outcome: [done] is what it leaves
    when it succeeds. *)
Definition write (attempt : exc unit) (done : event) : io unit :=
  match attempt with
  | Ok _ => Run [done] (Ok tt)
  | Raise e => Run [] (Raise e)
  end.

(** [with open(path, 'w') as f: body]. The file is there, empty, as soon
    as it is opened; it is closed when the body ends, also by an exception,
    and an exception of the closing is the one that goes on. *)
Definition with_open {A : Type} (open : exc unit) (opened : event) (body : io A)
    (close : exc unit) : io A :=
  match open with
  | Raise e => Run [] (Raise e)
  | Ok _ =>
      Run (opened :: trace body)
          (match close with
           | Ok _ => outcome body
           | Raise e => Raise e
           end)
  end.

(** [str(e)] for an exception is the environment's. *)
Class Messages : Type := {
  str_exn : exn → string
}.

(** *** [print_summary] *)

(** [d[k]]. *)
Definition dict_item (d : gmap string value) (k : string) : exc value :=
  match d !! k with
  | Some v => Ok v
  | None => Raise KeyError
  end.

(** The items a [for] loop takes from a value. *)
Definition iterate (v : value) : exc (list value) :=
  match v with
  | VTuple l | VList l => Ok l
  | VStr s => Ok (VStr <$> str_chars s)
  | VBytes b => Ok ((λ x, VInt (Z.of_N (code x))) <$> b)
  | VDict entries => Ok ((λ e, VStr e.1) <$> entries)
  | _ => Raise TypeError
  end.

(** ["="*60]. *)
Definition rule : string := String.concat "" (replicate 60 "=").

(** [if h.get(test): print(f"{label}{h[key]}")]. *)
Definition print_if `{Builtins} (h : gmap string value) (test : string)
    (label key : string) : io unit :=
  if truthy (dict_get h test)
  then v ← lift (dict_item h key); print (label +:+ py_str v)
  else mret tt.

Definition print_summary `{Builtins} (item : result) : io unit :=
  let h := highlights item in
  _ ← print rule;
  _ ← print ("File: " +:+ file item);
  _ ← (if truthy (format item) then print (" Format: " +:+ py_str (format item))
       else mret tt);
  _ ← print_if h "dimensions" " Dimensions: " "dimensions";
  _ ← print_if h "file_size" " Size: " "file_size";
  _ ← print_if h "device" " Device: " "device";
  _ ← print_if h "author" " Author: " "author";
  _ ← print_if h "software" " Software: " "software";
  _ ← print_if h "datetime_original" " Taken: " "datetime_original";
  _ ← print_if h "gps" " GPS (decimal): " "gps_decimal";
  _ ← (if truthy (dict_get h "notes")
       then _ ← print " Notes:";
            notes ← lift (dict_item h "notes" ≫= iterate);
            for_each notes (λ n, print ("  - " +:+ py_str n))
       else mret tt);
  _ ← print rule;
  print "".

(** *** [main] *)

(** One positional argument with what the environment holds for it: the
    outcome of [p.exists()] (which raises on a name that the file system
    refuses, too long or not permitted), what the readers return for the
    path, the text of the sidecar path [p.with_name(p.name + ".meta.json")]
    (which is a [ValueError] for a path without a name), and the outcomes
    of opening the sidecar, of dumping the record into it and of closing
    it. *)
Record image : Type := {
  img_arg : string;
  img_exists : exc bool;
  img_source : source;
  img_sidecar : exc string;
  img_json_open : exc unit;
  img_json_dump : result → exc unit;
  img_json_close : exc unit
}.

(** The parsed command line: the images, [--json], [--csv] with the text of
    [Path(args.csv)], and the outcomes of opening the summary file, of
    writing the header, of writing one row and of closing the file. *)
Record arguments : Type := {
  images : list image;
  json : bool;
  csv : option string;
  csv_path : string;
  csv_open : exc unit;
  csv_header : exc unit;
  csv_row : list (string * value) → exc unit;
  csv_close : exc unit
}.

Definition fieldnames : list string :=
  ["file"; "path"; "format"; "width"; "height"; "file_size"; "device"; "author";
   "software"; "datetime_original"; "gps_decimal"].

(** The row of one record. *)
Definition row_of (r : result) : list (string * value) :=
  let h := highlights r in
  [("file", VStr (file r));
   ("path", VStr (path r));
   ("format", format r);
   ("width", width r);
   ("height", height r);
   ("file_size", dict_get h "file_size");
   ("device", dict_get h "device");
   ("author", dict_get h "author");
   ("software", dict_get h "software");
   ("datetime_original", dict_get h "datetime_original");
   ("gps_decimal", dict_get h "gps_decimal")].

(** The sidecar of one image, inside its [try]. *)
Definition write_sidecar `{Builtins} `{Messages} (im : image) (res : result)
    : io unit :=
  outp ← lift (img_sidecar im);
  io_try (_ ← with_open (img_json_open im) (JsonOpen outp)
                (write (img_json_dump im res) (JsonDump outp res))
                (img_json_close im);
          print ("Wrote JSON sidecar: " +:+ outp))
         (λ e, print_err ("Failed to write JSON for " +:+ path_name (img_source im)
                          +:+ ": " +:+ str_exn e)).

(** The loop over the images; [results] is the list built so far. *)
Fixpoint main_loop `{Builtins} `{Messages} (with_json : bool) (imgs : list image)
    (results : list result) : io (list result) :=
  match imgs with
  | [] => mret results
  | im :: imgs' =>
      found ← lift (img_exists im);
      if negb found
      then _ ← print_err ("Not found: " +:+ img_arg im);
           main_loop with_json imgs' results
      else res ← lift (extract_one (img_source im));
           let results := results ++ [res] in
           _ ← print_summary res;
           _ ← (if with_json then write_sidecar im res else mret tt);
           main_loop with_json imgs' results
  end.

(** The summary file, inside its [try]. *)
Definition write_csv `{Messages} (args : arguments) (results : list result) : io unit :=
  io_try (_ ← with_open (csv_open args) (CsvOpen (csv_path args))
                (_ ← write (csv_header args) (CsvHeader (csv_path args) fieldnames);
                 for_each results
                   (λ r, write (csv_row args (row_of r))
                               (CsvRow (csv_path args) (row_of r))))
                (csv_close args);
          print ("Wrote CSV summary: " +:+ csv_path args))
         (λ e, print_err ("Failed to write CSV: " +:+ str_exn e)).

Definition main `{Builtins} `{Messages} (args : arguments) : io unit :=
  results ← main_loop (json args) (images args) [];
  if truthy (from_option VStr VNone (csv args))
     && negb (bool_decide (results = []))
  then write_csv args results
  else mret tt.


(** ** Vocabulary of the further statements *)

(** The tag names each plain field is read from, in the order the flat
    extractor probes them. *)
Definition aliases : list (string * list string) :=
  [("make", ["Image Make"; "Make"]);
   ("model", ["Image Model"; "Model"]);
   ("datetime_original",
    ["EXIF DateTimeOriginal"; "EXIF DateTimeDigitized"; "Image DateTime"]);
   ("software", ["Image Software"; "Software"]);
   ("artist", ["Image Artist"; "EXIF Artist"; "Artist"])]%string.

(** The first of the keys whose text is there and not empty; when there is
    none, what the last key gives. *)
Fixpoint pick (tags : gmap string tag) (keys : list string) : value :=
  match keys with
  | [] => VNone
  | [k] => get tags k
  | k :: keys' => if truthy (get tags k) then get tags k else pick tags keys'
  end.

Definition is_text (v : value) : bool :=
  match v with
  | VStr _ => true
  | _ => false
  end.

Definition is_bytes (v : value) : bool :=
  match v with
  | VBytes _ => true
  | _ => false
  end.

(** A value that [' '.join] accepts or that the filter before it drops. *)
Definition text_or_falsy (v : value) : bool := is_text v || negb (truthy v).

(** The flat result and the structured tree as [extract_one] holds them:
    empty when the reader or the extractor failed. *)
Definition flat_of `{Builtins} (src : source) : gmap string value :=
  match flat_tags src with
  | Ok tags =>
      match parse_exifread_tags tags with
      | Ok parsed => parsed
      | Raise _ => ∅
      end
  | Raise _ => ∅
  end.

Definition structured_of `{Builtins} (src : source) : gmap string (gmap string value) :=
  match parse_piexif (ifd_tree src) with
  | Ok tree => tree
  | Raise _ => ∅
  end.

(** The make and the model the reconciler settles on. *)
Definition make_of (parsed : gmap string value)
    (tree : gmap string (gmap string value)) : value :=
  py_or (dict_get parsed "make") (dict_get (group tree "0th") "Make").

Definition model_of (parsed : gmap string value)
    (tree : gmap string (gmap string value)) : value :=
  py_or (dict_get parsed "model") (dict_get (group tree "0th") "Model").

Definition software_of (parsed : gmap string value)
    (tree : gmap string (gmap string value)) : value :=
  py_or (dict_get parsed "software") (dict_get (group tree "0th") "Software").

(** The text of a truthy text value, the empty text otherwise. *)
Definition text_of (v : value) : string :=
  match v with
  | VStr s => s
  | _ => EmptyString
  end.

Definition four_notes : value :=
  VList [VStr note_gps; VStr note_author; VStr note_device; VStr note_datetime].

(** The entry that the loaded tree holds under [ifd] is no mapping. *)
Definition not_a_mapping (ex : list (string * ifd_entry)) (ifd : string) : bool :=
  match assoc ifd ex with
  | Some (IfdOther _) => true
  | _ => false
  end.

Definition is_ascii (b : list Byte.byte) : bool := forallb (λ c, (code c <? 128)%N) b.

(** Bytes that are ASCII characters other than the null one. *)
Definition is_ascii_text (b : list Byte.byte) : bool :=
  forallb (λ c, (0 <? code c)%N && (code c <? 128)%N) b.

(** The date and time the reconciler settles on. *)
Definition datetime_of (parsed : gmap string value)
    (tree : gmap string (gmap string value)) : value :=
  py_or (dict_get parsed "datetime_original")
        (py_or (dict_get (group tree "0th") "DateTime")
               (dict_get (group tree "Exif") "DateTimeOriginal")).

(** The make and the model that are not empty, with a space between them
    when both are there. *)
Definition device_text (make model : string) : string :=
  if String.eqb make "" then model
  else if String.eqb model "" then make
  else make +:+ " " +:+ model.

(** The two coordinates of a GPS entry as one text. *)
Definition gps_text `{Builtins} (gps : value) : string :=
  match item gps "lat", item gps "lon" with
  | Ok lat, Ok lon => py_str lat +:+ ", " +:+ py_str lon
  | _, _ => EmptyString
  end.

Definition highlight_keys : list string :=
  ["device"; "author"; "software"; "datetime_original"; "gps_decimal"; "gps";
   "dimensions"; "file_size"; "notes"]%string.

Definition is_stdout (ev : event) : bool :=
  match ev with
  | Stdout _ => true
  | _ => false
  end.

Definition text_or_none (v : value) : bool :=
  match v with
  | VNone | VStr _ => true
  | _ => false
  end.

(** A run that ends well and writes to the standard output only. *)
Definition prints (m : io unit) : Prop :=
  outcome m = Ok tt ∧ forallb is_stdout (trace m) = true.

(** What concerns the summary file. *)
Definition is_csv (ev : event) : bool :=
  match ev with
  | CsvOpen _ | CsvHeader _ _ | CsvRow _ _ => true
  | _ => false
  end.

(** The image is there: [exists()] returned and said so. *)
Definition existing (im : image) : bool :=
  match img_exists im with
  | Ok found => found
  | Raise _ => false
  end.

(** The records of the images that exist, in the order of the command
    line. *)
Definition records_of `{Builtins} (imgs : list image) : list result :=
  omap (λ im, match extract_one (img_source im) with
              | Ok r => Some r
              | Raise _ => None
              end)
       (List.filter existing imgs).


(** The image can be processed to the end: its record is built and, when
    sidecars are asked for, the path of its sidecar can be named. *)
Definition processable `{Builtins} (with_json : bool) (im : image) : bool :=
  negb (raises (extract_one (img_source im)))
  && (negb with_json || negb (raises (img_sidecar im))).

(** The loop gets past the image: [exists()] returns, and the image is
    either not there or can be processed to the end. *)
Definition passes `{Builtins} (with_json : bool) (im : image) : bool :=
  match img_exists im with
  | Ok true => processable with_json im
  | Ok false => true
  | Raise _ => false
  end.



(** The line that reports one image as not found. *)
Definition not_found (im : image) : event := Stderr ("Not found: " +:+ img_arg im).

(** The sign that the reference gives to a zero coordinate: negative when
    the reference is not empty and starts with [h]. *)
Definition flipped (ref h : string) : bool :=
  negb (String.eqb ref "") && startswith ref h.

(** ** Further examples *)

Module Cases.

(** [str(e)] of an exception raised with a message is the message; the
    ones raised without one have the empty text. *)
Definition messages : Messages :=
  {| str_exn := λ e, match e with
                     | LibraryError what => what
                     | _ => EmptyString
                     end |}.

(** The first alias of the make is there but empty; the second holds the
    text. *)
Definition empty_image_make : gmap string tag :=
  <["Image Make" := Examples.text_tag ""]>
  (<["Make" := Examples.text_tag "Nikon"]> ∅).

(** Coordinates whose ratios all have the denominator zero. *)
Definition zero_denominator_tags : gmap string tag :=
  <["GPS GPSLatitude" := IfdTag "" (VList [Ratio 40 0; Ratio 26 0; Ratio 46 0])]>
  (<["GPS GPSLatitudeRef" := Examples.text_tag "S"]>
  (<["GPS GPSLongitude" := IfdTag "" (VList [Ratio 79 0; Ratio 56 0; Ratio 55 0])]> ∅)).

Definition c_string (s : string) : value := VBytes (list_byte_of_string s ++ [Byte.x00]).

(** A structured tree with the model and two dates, as null-terminated
    bytes. *)
Definition zeroth_model_eos : list (string * ifd_entry) :=
  [("0th", IfdTags [(272, c_string "EOS"); (306, c_string "2020:01:02 03:04:05")]);
   ("Exif", IfdTags [(36867, c_string "2019:12:31 23:59:59")])].

(** The make in the flat result, the model in the structured one. *)
Definition canon_eos : source :=
  Examples.source_of (Ok (<["Image Make" := Examples.text_tag "Canon"]> ∅))
                     (Ok zeroth_model_eos).

(** A structured make that is a number. *)
Definition numeric_make : source :=
  Examples.source_of (Ok ∅) (Ok [("0th", IfdTags [(271, VInt 5)])]).

(** The Pittsburgh tags next to a tree with a thumbnail entry. *)
Definition thumbnail_source : source :=
  Examples.source_of (Ok Examples.pittsburgh_tags) (Ok Examples.with_thumbnail).

(** A tree as the structured reader returns it for a file with a make:
    the five directories and the thumbnail entry, which holds [None]. *)
Definition loaded_tree : list (string * ifd_entry) :=
  [("0th", IfdTags [(271, VBytes (list_byte_of_string "Canon"))]); ("Exif", IfdTags []);
   ("GPS", IfdTags []); ("Interop", IfdTags []); ("1st", IfdTags []);
   ("thumbnail", IfdOther VNone)].

(** A path with a null character in its name: resolving it raises. *)
Definition unresolvable : source :=
  {| path_name := "b.jpg"; path_resolved := Raise ValueError;
     stat_size := Raise ValueError; image_info := Raise ValueError;
     flat_tags := Raise ValueError; ifd_tree := Raise ValueError |}.

Definition present (arg : string) (src : source) : image :=
  {| img_arg := arg; img_exists := Ok true; img_source := src;
     img_sidecar := Ok (arg +:+ ".meta.json");
     img_json_open := Ok tt; img_json_dump := λ _, Ok tt; img_json_close := Ok tt |}.

(** An image in a directory that cannot be written to. *)
Definition read_only (arg : string) (src : source) : image :=
  {| img_arg := arg; img_exists := Ok true; img_source := src;
     img_sidecar := Ok (arg +:+ ".meta.json");
     img_json_open := Raise OSError; img_json_dump := λ _, Ok tt;
     img_json_close := Ok tt |}.

Definition missing (arg : string) : image :=
  {| img_arg := arg; img_exists := Ok false; img_source := Examples.unreadable;
     img_sidecar := Ok (arg +:+ ".meta.json");
     img_json_open := Raise OSError; img_json_dump := λ _, Ok tt;
     img_json_close := Ok tt |}.

(** A name that the file system refuses: [exists()] raises. *)
Definition refused (arg : string) : image :=
  {| img_arg := arg; img_exists := Raise OSError; img_source := Examples.unreadable;
     img_sidecar := Ok (arg +:+ ".meta.json");
     img_json_open := Raise OSError; img_json_dump := λ _, Ok tt;
     img_json_close := Ok tt |}.

Definition run (imgs : list image) (with_json : bool) (csv_arg : option string)
    : arguments :=
  {| images := imgs; json := with_json; csv := csv_arg;
     csv_path := default EmptyString csv_arg;
     csv_open := Ok tt; csv_header := Ok tt; csv_row := λ _, Ok tt;
     csv_close := Ok tt |}.

Definition none_found : arguments :=
  run [missing "x.jpg"; missing "y.jpg"] true (Some "out.csv"%string).

Definition name_refused : arguments :=
  run [missing "x.jpg"; refused "z.jpg"; present "a.jpg" Examples.pittsburgh]
      true (Some "out.csv"%string).


(** A run on a disk that fills up: the second row cannot be written. *)
Definition disk_full : arguments :=
  {| images := [present "a.jpg" Examples.structured_only;
                present "b.jpg" Examples.unreadable];
     json := false; csv := Some "out.csv"%string;
     csv_path := "out.csv";
     csv_open := Ok tt; csv_header := Ok tt;
     csv_row := λ row, match assoc "file" row with
                       | Some (VStr name) =>
                           if String.eqb name "b.jpg" then Raise OSError else Ok tt
                       | _ => Ok tt
                       end;
     csv_close := Ok tt |}.

Definition aborted : arguments :=
  run [present "a.jpg" Examples.pittsburgh; present "c.jpg" numeric_make;
       present "d.jpg" Examples.origin]
      false (Some "out.csv"%string).

End Cases.

(** * Properties *)

(** ** Facts on binary64 rounding *)

Lemma digits2_pos_bounds (p : positive) :
  2 ^ (Z.pos (digits2_pos p) - 1) ≤ Z.pos p < 2 ^ Z.pos (digits2_pos p).
Proof.
  induction p as [p IH | p IH |]; cbn [digits2_pos].
  1, 2: rewrite Pos2Z.inj_succ;
    replace (Z.succ (Z.pos (digits2_pos p)) - 1)
      with (Z.succ (Z.pos (digits2_pos p) - 1)) by lia;
    rewrite !Z.pow_succ_r by lia; lia.
  simpl. lia.
Qed.

Lemma shr_1_m (r : shr_record) :
  0 ≤ shr_m r → shr_m (shr_1 r) = shr_m r / 2.
Proof.
  destruct r as [m r s]; cbn [shr_m]. intros Hm.
  destruct m as [| [p | p |] | p]; cbn [shr_1 shr_m]; try lia;
    Z.to_euclidean_division_equations; lia.
Qed.

Lemma iter_shr_1_m (p : positive) (r : shr_record) :
  0 ≤ shr_m r → shr_m (SpecFloat.iter_pos shr_1 p r) = shr_m r / 2 ^ Z.pos p.
Proof.
  revert r. induction p as [p IH | p IH |]; intros r Hr; cbn [SpecFloat.iter_pos].
  - assert (H1 : 0 ≤ shr_m (shr_1 r)) by (rewrite shr_1_m by done; apply Z.div_pos; lia).
    assert (H2 : 0 ≤ shr_m (SpecFloat.iter_pos shr_1 p (shr_1 r))).
    { rewrite IH by done. apply Z.div_pos; [done | ]. apply Z.pow_pos_nonneg; lia. }
    rewrite IH, IH, shr_1_m by done.
    rewrite !Z.div_div by (try apply Z.pow_pos_nonneg; lia).
    f_equal. replace (Z.pos p~1) with (1 + Z.pos p + Z.pos p) by lia.
    rewrite !Z.pow_add_r by lia. lia.
  - assert (H2 : 0 ≤ shr_m (SpecFloat.iter_pos shr_1 p r)).
    { rewrite IH by done. apply Z.div_pos; [done | ]. apply Z.pow_pos_nonneg; lia. }
    rewrite IH, IH by done.
    rewrite !Z.div_div by (try apply Z.pow_pos_nonneg; lia).
    f_equal. replace (Z.pos p~0) with (Z.pos p + Z.pos p) by lia.
    rewrite !Z.pow_add_r by lia. lia.
  - rewrite shr_1_m by done. reflexivity.
Qed.

Lemma shr_record_of_loc_m (m : Z) (l : location) : shr_m (shr_record_of_loc m l) = m.
Proof. destruct l as [| []]; reflexivity. Qed.

(** A positive mantissa at an exponent not below the least one keeps a
    positive mantissa when it is shifted to its format exponent. *)
Lemma shr_fexp_positive (m e : Z) (l : location) :
  0 < m → -1074 ≤ e →
  0 < shr_m (fst (shr_fexp F.prec F.emax m e l)) ∧ e ≤ snd (shr_fexp F.prec F.emax m e l).
Proof.
  intros Hm He. unfold shr_fexp, shr.
  destruct m as [| p | p]; try lia. cbn [Zdigits2].
  pose proof (digits2_pos_bounds p) as [Hlo _].
  set (d := Z.pos (digits2_pos p)) in *.
  assert (Hn : fexp F.prec F.emax (d + e) - e < d).
  { unfold fexp, emin, F.prec, F.emax. lia. }
  destruct (fexp F.prec F.emax (d + e) - e) as [| n | n] eqn:En; cbn [fst snd];
    rewrite ?shr_record_of_loc_m; try lia.
  split; [| lia].
  rewrite iter_shr_1_m by (rewrite shr_record_of_loc_m; lia).
  rewrite shr_record_of_loc_m.
  apply Z.div_str_pos. split; [apply Z.pow_pos_nonneg; lia |].
  etrans; [| exact Hlo]. apply Z.pow_le_mono_r; lia.
Qed.

Lemma round_nearest_even_ge (m : Z) (l : location) : m ≤ round_nearest_even m l.
Proof. unfold round_nearest_even. destruct l as [| []]; try destruct (Z.even m); lia. Qed.

Lemma binary_round_aux_nonzero (s : bool) (m e : Z) (l : location) :
  0 < m → -1074 ≤ e → F.is_zero (binary_round_aux F.prec F.emax s m e l) = false.
Proof.
  intros Hm He. unfold binary_round_aux.
  pose proof (shr_fexp_positive m e l Hm He) as [H1 H1e].
  destruct (shr_fexp F.prec F.emax m e l) as [mrs' e'] eqn:E1. cbn [fst snd] in *.
  pose proof (round_nearest_even_ge (shr_m mrs') (loc_of_shr_record mrs')) as Hr.
  pose proof (shr_fexp_positive
                (round_nearest_even (shr_m mrs') (loc_of_shr_record mrs')) e' loc_Exact)
    as [H2 _]; [lia | lia |].
  destruct (shr_fexp F.prec F.emax _ e' loc_Exact) as [mrs'' e''] eqn:E2. cbn [fst snd] in *.
  destruct (shr_m mrs''); try lia. destruct (_ <=? _); reflexivity.
Qed.

(** The sign of a rounded result is the sign asked for. *)
Lemma binary_round_aux_sign (s : bool) (m e : Z) (l : location) :
  let r := binary_round_aux F.prec F.emax s m e l in
  r = S754_nan ∨ F.signbit r = s ∧ r ≠ S754_nan.
Proof.
  unfold binary_round_aux.
  destruct (shr_fexp F.prec F.emax m e l) as [mrs' e'].
  destruct (shr_fexp F.prec F.emax _ e' loc_Exact) as [mrs'' e''].
  destruct (shr_m mrs''); [right | | left]; try done.
  destruct (_ <=? _); right; done.
Qed.

Lemma of_Z_nonzero (z : Z) : z ≠ 0 → F.is_zero (F.of_Z z) = false.
Proof.
  intros Hz. unfold F.of_Z, binary_normalize.
  destruct z as [| p | p]; [done | |]; unfold binary_round.
  all: destruct (shl_align p 0 _) as [mz ez] eqn:E; apply binary_round_aux_nonzero; [lia |].
  all: unfold shl_align in E; destruct (_ - 0) eqn:E'; inversion E; subst; try lia.
  all: unfold fexp, emin, F.prec, F.emax; lia.
Qed.

(** ** The error monad *)

Ltac exc_unfold :=
  unfold mbind, exc_bind, fmap, exc_fmap, mret, exc_ret, try_except in *.

Lemma try_none_total (body : exc value) :
  (∀ v, body = Ok v → float_or_none v) →
  ∃ v, try_except body (λ _, Ok VNone) = Ok v ∧ float_or_none v.
Proof.
  intros Hbody. destruct body as [v | e]; cbn.
  - eauto.
  - exists VNone. split; [done | by left].
Qed.

Lemma nonzero_number_float (den : value) (b : spec_float) :
  is_number den = true → ne_zero den = true → as_float den = Ok b →
  F.is_zero b = false.
Proof.
  destruct den as [| [] | z | x | | | | | |]; cbn; intros ? Hne Hb; simplify_eq; try done.
  - unfold float_of_int in Hb. destruct (F.is_infinite _); simplify_eq.
    apply of_Z_nonzero. intros ->. done.
  - by destruct b as [[] | | |].
Qed.

Section Conversions.
Context `{Builtins}.

Lemma py_float_number (v : value) : is_number v = true → py_float v = as_float v.
Proof. by destruct v. Qed.

(** [ratio_to_float] returns a float or [None] on every input. *)
Lemma ratio_to_float_total (r : value) :
  ∃ v, ratio_to_float r = Ok v ∧ float_or_none v.
Proof.
  apply try_none_total. intros v Hv.
  assert (Hf : ∀ m, VFloat <$> m = Ok v → float_or_none v).
  { intros [x | e] Hm; cbn in Hm; simplify_eq. right; eauto. }
  destruct (hasattr r "num" && hasattr r "den").
  - exc_unfold. repeat case_match; simplify_eq; right; eauto.
  - exc_unfold. repeat case_match; simplify_eq; right; eauto.
Qed.

Lemma ratio_to_float_ok (r : value) : ∃ v, ratio_to_float r = Ok v.
Proof. destruct (ratio_to_float_total r) as (v & Hv & _). eauto. Qed.

Lemma ratio_pair_body (num den pair : value) :
  ratio_pair num den pair →
  ratio_to_float pair =
    try_except
      (if ne_zero den then
         a ← py_float num; b ← py_float den; VFloat <$> float_truediv a b
       else Ok (VFloat F.f0_0))
      (λ _, Ok VNone).
Proof.
  intros [| attrs Hn Hd]; unfold ratio_to_float; cbn [hasattr andb getattr].
  - done.
  - rewrite Hn, Hd. rewrite !bool_decide_true by eauto. cbn. done.
Qed.

(** C1 (amended). For a numerator/denominator pair, given as a 2-tuple or
    as an object with the attributes [num] and [den]: when the denominator
    is a number other than zero and both parts convert to the floats [a]
    and [b], [ratio_to_float] returns the binary64 quotient [a / b]; when
    the denominator equals zero it returns [0.0], whatever the numerator;
    when a part does not convert it returns [None]. On every input [r] the
    function returns a float or [None]: it never raises. *)
Theorem ratio_to_float_quotient_or_zero (r num den pair : value) :
  ratio_pair num den pair →
  (∃ v, ratio_to_float r = Ok v ∧ float_or_none v)
  ∧ (ne_zero den = false → ratio_to_float pair = Ok (VFloat F.f0_0))
  ∧ (∀ a b, is_number den = true → ne_zero den = true →
       py_float num = Ok a → py_float den = Ok b →
       ratio_to_float pair = Ok (VFloat (F.div a b)))
  ∧ (ne_zero den = true → raises (py_float num) || raises (py_float den) = true →
       ratio_to_float pair = Ok VNone).
Proof.
  intros Hpair. rewrite (ratio_pair_body _ _ _ Hpair).
  split; [apply ratio_to_float_total |].
  split; [by intros -> |].
  split.
  - intros a b Hnum Hne Ha Hb. rewrite Hne, Ha, Hb. cbn.
    rewrite py_float_number in Hb by done.
    unfold float_truediv. by rewrite (nonzero_number_float den b).
  - intros -> Hr.
    destruct (py_float num) as [a | ?]; [| done].
    destruct (py_float den) as [b | ?]; [| done].
    done.
Qed.

(** C3. For a sequence whose first three items are [a], [b] and [c]:
    [dms_to_decimal] returns [None] as soon as the conversion of one of
    them gives [None], and otherwise, with [d], [m] and [s] their floats,
    it returns [d + m / 60.0 + s / 3600.0]; no hemisphere enters the
    result. *)
Theorem dms_to_decimal_components (dms a b c : value) :
  getitem dms 0 = Ok a → getitem dms 1 = Ok b → getitem dms 2 = Ok c →
  (ratio_to_float a = Ok VNone ∨ ratio_to_float b = Ok VNone
     ∨ ratio_to_float c = Ok VNone →
   dms_to_decimal dms = Ok VNone)
  ∧ (∀ d m s,
       ratio_to_float a = Ok (VFloat d) → ratio_to_float b = Ok (VFloat m) →
       ratio_to_float c = Ok (VFloat s) →
       dms_to_decimal dms =
         Ok (VFloat (F.add (F.add d (F.div m F.f60_0)) (F.div s F.f3600_0)))).
Proof.
  intros Ha Hb Hc. unfold dms_to_decimal. rewrite Ha, Hb, Hc. cbn.
  destruct (ratio_to_float_total a) as (va & -> & Hva).
  destruct (ratio_to_float_total b) as (vb & -> & Hvb).
  destruct (ratio_to_float_total c) as (vc & -> & Hvc). cbn.
  split.
  - intros [? | [? | ?]]; simplify_eq; cbn; rewrite ?orb_true_r; try done.
    all: by destruct (is_none va), (is_none vb).
  - intros d m s ???; simplify_eq. reflexivity.
Qed.

(** [dms_to_decimal] returns a float or [None] on every input. *)
Lemma dms_to_decimal_total (dms : value) :
  ∃ v, dms_to_decimal dms = Ok v ∧ float_or_none v.
Proof.
  apply try_none_total. intros v Hv.
  destruct (getitem dms 0) as [a |]; [| done].
  destruct (getitem dms 1) as [b |]; cbn in Hv.
  2: { destruct (ratio_to_float a); done. }
  destruct (getitem dms 2) as [c |]; cbn in Hv.
  2: { destruct (ratio_to_float a); [destruct (ratio_to_float b) |]; done. }
  destruct (ratio_to_float a) as [va |]; [| done].
  destruct (ratio_to_float b) as [vb |]; [| done].
  destruct (ratio_to_float c) as [vc |]; [| done]. cbn in Hv.
  destruct (is_none va || is_none vb || is_none vc); [simplify_eq; by left |].
  exc_unfold. repeat case_match; simplify_eq. right; eauto.
Qed.

(** C10. On a sequence with fewer than three items (a list, a tuple, a
    text or bytes, the empty one included) [dms_to_decimal] returns [None]:
    the item access that fails is inside the guarded block. On any input
    at all it returns a value and does not raise. *)
Theorem dms_to_decimal_short_sequence (dms any : value) (n : nat) :
  seq_length dms = Some n → (n < 3)%nat →
  dms_to_decimal dms = Ok VNone
  ∧ getitem dms n = Raise IndexError
  ∧ ∃ v, dms_to_decimal any = Ok v.
Proof.
  intros Hlen Hn.
  assert (Hidx : getitem dms n = Raise IndexError).
  { destruct dms; cbn in Hlen; simplify_eq; cbn.
    all: by rewrite lookup_ge_None_2. }
  split; [| split; [done |]].
  2: { destruct (dms_to_decimal_total any) as (v & Hv & _). eauto. }
  unfold dms_to_decimal.
  destruct n as [| [| [| n]]]; [| | | lia].
  - by rewrite Hidx.
  - rewrite Hidx. destruct (getitem dms 0) as [a |]; [| done]. cbn.
    destruct (ratio_to_float_ok a) as (va & ->). done.
  - rewrite Hidx. destruct (getitem dms 0) as [a |]; [| done]. cbn.
    destruct (ratio_to_float_ok a) as (va & ->). cbn.
    destruct (getitem dms 1) as [b |]; [| done]. cbn.
    destruct (ratio_to_float_ok b) as (vb & ->). done.
Qed.

End Conversions.

(** ** The flat extractor *)

Section Flat.
Context `{Builtins}.

Lemma base_fields_no_gps (tags : gmap string tag) : base_fields tags !! "gps" = None.
Proof. unfold base_fields. by rewrite !lookup_insert_ne, lookup_empty. Qed.

Lemma apply_ref_float (ref h : string) (x : spec_float) :
  apply_ref ref h (VFloat x) = Ok (VFloat (signed_by ref h x)).
Proof. unfold apply_ref, signed_by. cbn [truthy]. by destruct (_ && _). Qed.

(** The flat extractor in closed form: the five plain fields, and the GPS
    entry exactly when [gps_of] has one. It returns on every input. *)
Lemma parse_exifread_tags_eq (tags : gmap string tag) :
  parse_exifread_tags tags =
    Ok (match gps_of tags with
        | Some g => <["gps" := g]> (base_fields tags)
        | None => base_fields tags
        end).
Proof.
  unfold parse_exifread_tags, gps_of, values_at, gps_block, subscript.
  destruct (tags !! "GPS GPSLatitude") as [[plat vlat | ?] |] eqn:Elat; cbn;
    [| by destruct (bool_decide _) | done].
  destruct (tags !! "GPS GPSLongitude") as [[plon vlon | ?] |] eqn:Elon; cbn;
    [| done | done].
  destruct (dms_to_decimal_total vlat) as (lat & -> & [-> | [x ->]]);
    destruct (dms_to_decimal_total vlon) as (lon & -> & [-> | [y ->]]); cbn;
    try done.
  by rewrite !apply_ref_float.
Qed.

Lemma gps_of_values (tags : gmap string tag) (g : value) :
  gps_of tags = Some g →
  ∃ lat_vals lon_vals x y,
    values_at tags "GPS GPSLatitude" = Some lat_vals
    ∧ values_at tags "GPS GPSLongitude" = Some lon_vals
    ∧ dms_to_decimal lat_vals = Ok (VFloat x)
    ∧ dms_to_decimal lon_vals = Ok (VFloat y)
    ∧ g = gps_entry
            (F.round_digits 6 (signed_by (ref_of tags "GPS GPSLatitudeRef") "S" x))
            (F.round_digits 6 (signed_by (ref_of tags "GPS GPSLongitudeRef") "W" y))
            (ref_of tags "GPS GPSLatitudeRef") (ref_of tags "GPS GPSLongitudeRef").
Proof.
  unfold gps_of. intros Hg.
  destruct (values_at tags "GPS GPSLatitude") as [lat_vals |]; [| done].
  destruct (values_at tags "GPS GPSLongitude") as [lon_vals |]; [| done].
  destruct (dms_to_decimal lat_vals) as [[] |] eqn:Elat; try done.
  destruct (dms_to_decimal lon_vals) as [[] |] eqn:Elon; try done.
  simplify_eq. by eexists _, _, _, _.
Qed.

Lemma parsed_gps (tags : gmap string tag) (out : gmap string value) :
  parse_exifread_tags tags = Ok out → out !! "gps" = gps_of tags.
Proof.
  rewrite parse_exifread_tags_eq. intros [= <-].
  destruct (gps_of tags); [apply lookup_insert_eq | apply base_fields_no_gps].
Qed.

Lemma parsed_other (tags : gmap string tag) (out : gmap string value) (k : string) :
  parse_exifread_tags tags = Ok out → k ≠ "gps" → out !! k = base_fields tags !! k.
Proof.
  rewrite parse_exifread_tags_eq. intros [= <-] Hk.
  destruct (gps_of tags); [by rewrite lookup_insert_ne | done].
Qed.

(** C4. The flat extractor returns on every mapping. Its result has no GPS
    entry when the latitude tag or the longitude tag is missing, and none
    when the conversion of either coordinate gives [None]; an entry that is
    there holds both coordinates, each a float, with the two references:
    no entry has one coordinate only. *)
Theorem gps_needs_both_coordinates (tags : gmap string tag) :
  ∃ out, parse_exifread_tags tags = Ok out
  ∧ (tags !! "GPS GPSLatitude" = None ∨ tags !! "GPS GPSLongitude" = None →
     out !! "gps" = None)
  ∧ (∀ lat_vals lon_vals,
       values_at tags "GPS GPSLatitude" = Some lat_vals →
       values_at tags "GPS GPSLongitude" = Some lon_vals →
       dms_to_decimal lat_vals = Ok VNone ∨ dms_to_decimal lon_vals = Ok VNone →
       out !! "gps" = None)
  ∧ (∀ g, out !! "gps" = Some g →
       is_Some (tags !! "GPS GPSLatitude") ∧ is_Some (tags !! "GPS GPSLongitude")
       ∧ ∃ lat_vals lon_vals x y lat lon lat_ref lon_ref,
           values_at tags "GPS GPSLatitude" = Some lat_vals
           ∧ values_at tags "GPS GPSLongitude" = Some lon_vals
           ∧ dms_to_decimal lat_vals = Ok (VFloat x)
           ∧ dms_to_decimal lon_vals = Ok (VFloat y)
           ∧ g = gps_entry lat lon lat_ref lon_ref).
Proof.
  eexists. split; [apply parse_exifread_tags_eq |].
  set (out := match gps_of tags with Some g => _ | None => _ end).
  assert (Hout : out !! "gps" = gps_of tags)
    by (apply parsed_gps, parse_exifread_tags_eq).
  rewrite Hout. split; [| split].
  - unfold gps_of, values_at. intros [-> | ->]; [done |].
    by destruct (tags !! "GPS GPSLatitude") as [[] |].
  - unfold gps_of. intros lat_vals lon_vals -> -> [-> | ->]; [done |].
    by destruct (dms_to_decimal lat_vals) as [[] |].
  - intros g Hg.
    apply gps_of_values in Hg as (lat_vals & lon_vals & x & y & Hlat & Hlon & ? & ? & ->).
    split; [| split].
    + unfold values_at in Hlat. by destruct (tags !! "GPS GPSLatitude").
    + unfold values_at in Hlon. by destruct (tags !! "GPS GPSLongitude").
    + by eexists _, _, _, _, _, _, _, _.
Qed.

Lemma get_without_gps (tags : gmap string tag) (k : string) :
  k ∉ gps_keys → get (without_gps tags) k = get tags k.
Proof.
  intros Hk. unfold get, without_gps, gps_keys in *. cbn [foldr].
  rewrite !lookup_delete_ne; [done | | | |]; intros <-; apply Hk; set_solver.
Qed.

Lemma base_fields_without_gps (tags : gmap string tag) :
  base_fields (without_gps tags) = base_fields tags.
Proof.
  unfold base_fields. rewrite !get_without_gps; [done | ..].
  all: unfold gps_keys; rewrite !not_elem_of_cons; repeat split; try done.
  all: apply not_elem_of_nil.
Qed.

Lemma gps_of_without_gps (tags : gmap string tag) : gps_of (without_gps tags) = None.
Proof.
  unfold gps_of, values_at, without_gps, gps_keys. cbn [foldr].
  by rewrite lookup_delete_eq.
Qed.

(** C9. The flat extractor returns on every mapping, whatever happens in
    the GPS block: an exception raised there is swallowed and the result is
    the mapping of the plain fields, without a GPS entry. Each field other
    than the GPS entry, and so each of make, model, datetime_original,
    software and artist, has the value it has when the GPS tags are taken
    out of the mapping. *)
Theorem gps_failure_keeps_other_fields (tags : gmap string tag) :
  ∃ out out',
    parse_exifread_tags tags = Ok out
    ∧ parse_exifread_tags (without_gps tags) = Ok out'
    ∧ out' !! "gps" = None
    ∧ (∀ k, k ≠ "gps" → out !! k = out' !! k)
    ∧ Forall (λ k, out !! k = out' !! k) plain_fields
    ∧ (∀ e, is_Some (tags !! "GPS GPSLatitude") →
            is_Some (tags !! "GPS GPSLongitude") →
            gps_block tags (base_fields tags) = Raise e → out = out').
Proof.
  destruct (parse_exifread_tags tags) as [out |] eqn:Hout;
    [| by rewrite parse_exifread_tags_eq in Hout].
  exists out, (base_fields tags).
  assert (Hout' : parse_exifread_tags (without_gps tags) = Ok (base_fields tags)).
  { by rewrite parse_exifread_tags_eq, gps_of_without_gps, base_fields_without_gps. }
  assert (Hother : ∀ k, k ≠ "gps" → out !! k = base_fields tags !! k)
    by (intros k; by apply parsed_other).
  split; [done |]. split; [done |].
  split; [apply base_fields_no_gps |]. split; [done |]. split.
  - unfold plain_fields. repeat constructor; by apply Hother.
  - intros e Hlat Hlon He. unfold parse_exifread_tags in Hout.
    rewrite !bool_decide_true in Hout by done. cbn in Hout.
    rewrite He in Hout. cbn in Hout. by simplify_eq.
Qed.

End Flat.

(** ** The highlight reconciler *)

Lemma lookup_put_if_ne (c : bool) (k k' : string) (v : value) (m : gmap string value) :
  k ≠ k' → put_if c k v m !! k' = m !! k'.
Proof. intros Hk. unfold put_if. destruct c; [by rewrite lookup_insert_ne | done]. Qed.

Lemma lookup_put_if_eq (c : bool) (k : string) (v : value) (m : gmap string value) :
  put_if c k v m !! k = if c then Some v else m !! k.
Proof. unfold put_if. destruct c; [by rewrite lookup_insert_eq | done]. Qed.

Lemma truthy_append (s r : string) :
  truthy (VStr s) = true → truthy (VStr (s +:+ r)) = true.
Proof. by destruct s. Qed.

Lemma add_device_lookup (make model : value) (hl0 hl : gmap string value) :
  add_device make model hl0 = Ok hl →
  (∀ k, k ≠ "device" → hl !! k = hl0 !! k)
  ∧ (hl !! "device" = hl0 !! "device"
     ∨ ∃ s, hl !! "device" = Some (VStr s) ∧ truthy (VStr s) = true).
Proof.
  unfold add_device. destruct (truthy make || truthy model) eqn:Hc.
  2: { intros [= ->]. split; [done | by left]. }
  destruct (str_join _ _) as [device |] eqn:Hj; [| done]. cbn. intros [= <-].
  split; [intros k Hk; by rewrite lookup_insert_ne |].
  right. exists device. split; [apply lookup_insert_eq |].
  cbn [List.filter] in Hj.
  destruct (truthy make) eqn:Hmake, (truthy model) eqn:Hmodel; try done.
  - destruct make as [| | | | s1 | | | | |]; try done.
    destruct model as [| | | | s2 | | | | |]; try done.
    cbn in Hj. simplify_eq. by apply truthy_append.
  - destruct make as [| | | | s1 | | | | |]; try done.
    cbn in Hj. by simplify_eq.
  - destruct model as [| | | | s2 | | | | |]; try done.
    cbn in Hj. by simplify_eq.
Qed.

Section Reconciler.
Context `{Builtins}.

Lemma add_gps_lookup (gps : value) (hl0 hl : gmap string value) :
  add_gps gps hl0 = Ok hl →
  hl !! "gps" = (if truthy gps then Some gps else hl0 !! "gps")
  ∧ (∀ k, k ≠ "gps" → k ≠ "gps_decimal" → hl !! k = hl0 !! k).
Proof.
  unfold add_gps. destruct (truthy gps).
  2: { by intros [= ->]. }
  destruct (item gps "lat") as [lat |]; [| done].
  destruct (item gps "lon") as [lon |]; [| done]. cbn. intros [= <-].
  split; [apply lookup_insert_eq |].
  intros k ??. by rewrite !lookup_insert_ne.
Qed.

Lemma confidence_notes_ext (hl hl' : gmap string value) :
  (∀ k, k ≠ "notes" → hl !! k = hl' !! k) →
  confidence_notes hl = confidence_notes hl'.
Proof.
  intros Hk. unfold confidence_notes, dict_get. by rewrite !Hk.
Qed.


Lemma confidence_notes_absent (hl : gmap string value) :
  (∀ k v, k ∈ noted_keys → hl !! k = Some v → truthy v = true) →
  confidence_notes hl = notes_of_absent hl.
Proof.
  intros Htrue.
  assert (Hk : ∀ k, k ∈ noted_keys → negb (truthy (dict_get hl k)) = absent hl k).
  { intros k Hin. unfold dict_get, absent.
    destruct (hl !! k) as [v |] eqn:Ek; cbn.
    - by rewrite (Htrue k v Hin Ek).
    - done. }
  unfold confidence_notes, notes_of_absent.
  rewrite !Hk by (unfold noted_keys; rewrite !elem_of_cons; tauto).
  by destruct (absent hl "gps"), (absent hl "author"), (absent hl "device"),
    (absent hl "datetime_original").
Qed.

Lemma notes_of_absent_insert_notes (hl : gmap string value) (v : value) :
  notes_of_absent (<["notes" := v]> hl) = notes_of_absent hl.
Proof. unfold notes_of_absent, absent. by rewrite !lookup_insert_ne. Qed.

(** What the highlights hold once they are built. *)
Lemma build_highlights_lookup (parsed : gmap string value)
    (tree : gmap string (gmap string value)) (w h sh : value)
    (hl : gmap string value) :
  build_highlights parsed tree w h sh = Ok hl →
  hl !! "author" =
    (if truthy (author_of parsed tree) then Some (author_of parsed tree) else None)
  ∧ hl !! "gps" =
      (if truthy (dict_get parsed "gps") then parsed !! "gps" else None)
  ∧ (∀ k v, k ∈ noted_keys → hl !! k = Some v → truthy v = true)
  ∧ hl !! "notes" = Some (VList (VStr <$> notes_of_absent hl)).
Proof.
  unfold build_highlights. intros Hb.
  destruct (add_device _ _ ∅) as [hl1 |] eqn:Hdev; [| done]. cbn in Hb.
  destruct (resolve_datetime parsed tree) as [dt |] eqn:Hdt; [| done]. cbn in Hb.
  fold (author_of parsed tree) in Hb.
  set (software := py_or (dict_get parsed "software") _) in Hb.
  destruct (add_gps _ _) as [hl2 |] eqn:Hgps; [| done]. cbn in Hb.
  apply add_device_lookup in Hdev as [Hdev_other Hdev].
  apply add_gps_lookup in Hgps as [Hgps Hgps_other].
  set (hl3 := put_if (truthy sh) _ _ _) in Hb.
  assert (Hauthor : hl3 !! "author" =
            if truthy (author_of parsed tree) then Some (author_of parsed tree) else None).
  { unfold hl3. rewrite !lookup_put_if_ne, Hgps_other, !lookup_put_if_ne by done.
    rewrite lookup_put_if_eq, Hdev_other by done. by rewrite lookup_empty. }
  assert (Hg : hl3 !! "gps" =
            if truthy (dict_get parsed "gps") then parsed !! "gps" else None).
  { unfold hl3. rewrite !lookup_put_if_ne, Hgps by done.
    unfold py_or, dict_get. destruct (parsed !! "gps") as [g |] eqn:Eg; cbn.
    - destruct (truthy g) eqn:Et; [by rewrite Et |]. cbn.
      rewrite !lookup_put_if_ne, Hdev_other by done. apply lookup_empty.
    - rewrite !lookup_put_if_ne, Hdev_other by done. apply lookup_empty. }
  assert (Hdevice : hl3 !! "device" = hl1 !! "device").
  { unfold hl3. by rewrite !lookup_put_if_ne, Hgps_other, !lookup_put_if_ne by done. }
  assert (Hdate : hl3 !! "datetime_original" = if truthy dt then Some dt else None).
  { unfold hl3. rewrite !lookup_put_if_ne, Hgps_other by done.
    rewrite lookup_put_if_eq, !lookup_put_if_ne, Hdev_other by done.
    by rewrite lookup_empty. }
  assert (Htrue : ∀ k v, k ∈ noted_keys → hl3 !! k = Some v → truthy v = true).
  { intros k v Hin Hv. unfold noted_keys in Hin.
    rewrite !elem_of_cons, elem_of_nil in Hin.
    destruct Hin as [-> | [-> | [-> | [-> | []]]]].
    - rewrite Hg in Hv. unfold dict_get in Hv.
      destruct (parsed !! "gps") as [g |]; cbn in Hv; [| done].
      destruct (truthy g) eqn:Et; by simplify_eq.
    - rewrite Hauthor in Hv. destruct (truthy (author_of parsed tree)) eqn:Et; by simplify_eq.
    - rewrite Hdevice in Hv. destruct Hdev as [Hd | (s & Hd & Hs)].
      + by rewrite Hd, lookup_empty in Hv.
      + rewrite Hd in Hv. by simplify_eq.
    - rewrite Hdate in Hv. destruct (truthy dt) eqn:Et; by simplify_eq. }
  injection Hb as <-.
  assert (Hsame : ∀ k, k ≠ "notes" →
            <["notes" := VList (VStr <$> confidence_notes hl3)]> hl3 !! k = hl3 !! k)
    by (intros k Hk; by rewrite lookup_insert_ne).
  rewrite !Hsame by done. split; [done |]. split; [done |]. split.
  - intros k v Hin. rewrite Hsame; [by apply Htrue |].
    intros ->. unfold noted_keys in Hin.
    rewrite !elem_of_cons, elem_of_nil in Hin.
    by destruct Hin as [? | [? | [? | [? | []]]]].
  - rewrite lookup_insert_eq, notes_of_absent_insert_notes.
    by rewrite (confidence_notes_absent hl3 Htrue).
Qed.

(** The record that [extract_one] returns carries the highlights built
    from its own flat and structured results. *)
Lemma extract_one_highlights (src : source) (r : result) :
  extract_one src = Ok r →
  build_highlights (exifread r) (piexif r) (width r) (height r) (size_human r)
    = Ok (highlights r).
Proof.
  unfold extract_one. intros Hr.
  destruct (path_resolved src) as [resolved |]; [cbn in Hr | done].
  repeat case_match; simplify_eq; cbn in Hr.
  all: match type of Hr with
       | build_highlights ?p ?t ?w ?h ?s ≫= _ = _ =>
           destruct (build_highlights p t w h s) eqn:Hb; cbn in Hr; by simplify_eq
       end.
Qed.

Lemma extract_one_exifread (src : source) (r : result) :
  extract_one src = Ok r →
  exifread r = ∅
  ∨ ∃ tags, flat_tags src = Ok tags ∧ parse_exifread_tags tags = Ok (exifread r).
Proof.
  unfold extract_one. intros Hr.
  destruct (path_resolved src) as [resolved |]; [cbn in Hr | done].
  destruct (flat_tags src) as [tags |] eqn:Etags.
  - destruct (parse_exifread_tags tags) as [parsed |] eqn:Eparsed.
    + right. exists tags. split; [done |].
      repeat case_match; simplify_eq; cbn in Hr.
      all: match type of Hr with
           | ?b ≫= _ = _ => destruct b; cbn in Hr; by simplify_eq
           end.
    + by rewrite parse_exifread_tags_eq in Eparsed.
  - left. repeat case_match; simplify_eq; cbn in Hr.
    all: match type of Hr with
         | ?b ≫= _ = _ => destruct b; cbn in Hr; by simplify_eq
         end.
Qed.

(** C5. In the record that [extract_one] returns, a flat artist that is a
    text other than the empty one is the author, whatever the structured
    reader holds; when the flat artist is missing (or empty) and the
    structured [0th.Artist] is such a text, that text is the author. With
    flat "A" and structured "B" the author is "A"; with no flat artist and
    structured "B" it is "B". *)
Theorem author_prefers_flat_artist (src : source) (r : result) (a b : string) :
  extract_one src = Ok r →
  (dict_get (exifread r) "artist" = VStr a → a ≠ EmptyString →
   highlights r !! "author" = Some (VStr a))
  ∧ (truthy (dict_get (exifread r) "artist") = false →
     dict_get (group (piexif r) "0th") "Artist" = VStr b → b ≠ EmptyString →
     highlights r !! "author" = Some (VStr b)).
Proof.
  intros Hr. apply extract_one_highlights, build_highlights_lookup in Hr as (Hauthor & _).
  rewrite Hauthor. unfold author_of, py_or. split.
  - intros -> Ha. cbn. by destruct a.
  - intros -> -> Hb. cbn. by destruct b.
Qed.

(** C6. The notes of the record are one fixed warning for each of GPS,
    author, device and datetime that is absent from the highlights, in
    that order; when all four are absent they are the four warnings, GPS
    first, then author, device and datetime. *)
Theorem notes_follow_missing_fields (src : source) (r : result) :
  extract_one src = Ok r →
  highlights r !! "notes" = Some (VList (VStr <$> notes_of_absent (highlights r)))
  ∧ (Forall (λ k, highlights r !! k = None) noted_keys →
     highlights r !! "notes" =
       Some (VList [VStr note_gps; VStr note_author; VStr note_device;
                    VStr note_datetime])).
Proof.
  intros Hr.
  apply extract_one_highlights, build_highlights_lookup in Hr as (_ & _ & _ & Hnotes).
  split; [done |]. intros Hall. rewrite Hnotes.
  unfold noted_keys in Hall. rewrite !Forall_cons in Hall.
  destruct Hall as (Hg & Ha & Hd & Ht & _).
  unfold notes_of_absent, absent. by rewrite Hg, Ha, Hd, Ht.
Qed.

End Reconciler.

(** ** Sign of a rounded coordinate *)

Lemma of_frac_sign (q d : positive) :
  F.of_frac q d = S754_nan ∨ F.signbit (F.of_frac q d) = false ∧ F.of_frac q d ≠ S754_nan.
Proof.
  unfold F.of_frac, F.div, SFdiv.
  destruct (SFdiv_core_binary _ _ _ _ _ _) as [[mz ez] lz].
  apply (binary_round_aux_sign false).
Qed.

Lemma round_digits_sign (nd : Z) (x : spec_float) :
  F.round_digits nd x = S754_nan ∨ F.signbit (F.round_digits nd x) = F.signbit x.
Proof.
  destruct x as [s | s | | s m e]; [by right | by right | by left |].
  unfold F.round_digits.
  destruct (F.scaled_units nd m e) as [| q | q]; [by right | | by right].
  unfold F.with_sign.
  destruct (of_frac_sign q (Z.to_pos (10 ^ nd))) as [Hnan | [Hs Hn]].
  - left. rewrite Hnan. by destruct s.
  - right. destruct (F.of_frac q _) as [s' | s' | | s' m' e']; cbn in *; subst;
      by destruct s.
Qed.

(** The result of [round(x, 6)] has six decimals. *)
Lemma round_digits_six_decimals (x : spec_float) : six_decimals (F.round_digits 6 x).
Proof.
  destruct x as [s | s | | s m e]; try done.
  unfold F.round_digits.
  destruct (F.scaled_units 6 m e) as [| q | q]; try done.
  destruct (F.with_sign s _) eqn:E; try done. cbn. by exists s, q.
Qed.

Lemma ltb_zero_signed (y : spec_float) :
  y = S754_nan ∨ F.signbit y = true → F.ltb F.zero y = false.
Proof. intros [-> | Hs]; [done |]. destruct y; cbn in Hs; by subst. Qed.

(** A coordinate whose reference names the negative hemisphere is never
    positive once rounded. *)
Lemma round_neg_abs_not_positive (x : spec_float) :
  F.ltb F.zero (F.round_digits 6 (F.opp (F.abs x))) = false.
Proof.
  apply ltb_zero_signed.
  destruct (round_digits_sign 6 (F.opp (F.abs x))) as [? | Hs]; [by left |].
  destruct x; cbn in *; auto.
Qed.

Lemma signed_by_starts (ref : string) (c : ascii) (x : spec_float) :
  signed_by ref (String c EmptyString) x =
    if startswith ref (String c EmptyString) then F.opp (F.abs x) else x.
Proof. unfold signed_by, startswith. by destruct ref. Qed.

Section Signs.
Context `{Builtins}.

(** C2 (amended). For every record with a GPS highlight, the entry comes
    from the flat extractor: it holds the two references in upper case and
    the two coordinates, each being [round(v, 6)] of a float, that is the
    float nearest to a whole number of millionths. When the
    latitude reference starts with "S" the latitude is the rounding of
    [-abs(d)], [d] being the decimal degrees read from the tag, and so is
    never positive; otherwise it is the rounding of [d] itself, with the
    sign [d] has. The same holds for the longitude and "W". A zero keeps
    its place: a latitude of zero with the reference "S" is a (negative)
    zero, which is not below zero. *)
Theorem gps_highlight_sign_and_rounding (src : source) (r : result) (g : value) :
  extract_one src = Ok r → highlights r !! "gps" = Some g →
  ∃ tags lat_vals lon_vals x y,
    flat_tags src = Ok tags
    ∧ values_at tags "GPS GPSLatitude" = Some lat_vals
    ∧ values_at tags "GPS GPSLongitude" = Some lon_vals
    ∧ dms_to_decimal lat_vals = Ok (VFloat x)
    ∧ dms_to_decimal lon_vals = Ok (VFloat y)
    ∧ let lat_ref := ref_of tags "GPS GPSLatitudeRef" in
      let lon_ref := ref_of tags "GPS GPSLongitudeRef" in
      let lat := F.round_digits 6 (if startswith lat_ref "S" then F.opp (F.abs x) else x) in
      let lon := F.round_digits 6 (if startswith lon_ref "W" then F.opp (F.abs y) else y) in
      g = gps_entry lat lon lat_ref lon_ref
      ∧ six_decimals lat ∧ six_decimals lon
      ∧ (startswith lat_ref "S" = true → F.ltb F.zero lat = false)
      ∧ (startswith lon_ref "W" = true → F.ltb F.zero lon = false).
Proof.
  intros Hr Hg.
  pose proof (extract_one_highlights _ _ Hr) as Hb.
  apply build_highlights_lookup in Hb as (_ & Hgps & _).
  rewrite Hgps in Hg. destruct (truthy _); [| done].
  destruct (extract_one_exifread _ _ Hr) as [Hempty | (tags & Htags & Hparsed)].
  { by rewrite Hempty, lookup_empty in Hg. }
  rewrite (parsed_gps _ _ Hparsed) in Hg.
  apply gps_of_values in Hg as (lat_vals & lon_vals & x & y & Hlat & Hlon & Hx & Hy & ->).
  exists tags, lat_vals, lon_vals, x, y.
  rewrite !signed_by_starts. cbv zeta.
  do 6 (split; [done |]). split; [apply round_digits_six_decimals |].
  split; [apply round_digits_six_decimals |]. split.
  - intros ->. apply round_neg_abs_not_positive.
  - intros ->. apply round_neg_abs_not_positive.
Qed.

End Signs.

(** ** [human_size] *)

Lemma Z_lt_float_1024 (n : Z) : Z_lt_float n F.f1024_0 = (n <? 1024).
Proof.
  unfold Z_lt_float, F.f1024_0.
  change (0 <=? -42) with false. cbv iota.
  change (2 ^ (- (-42))) with 4398046511104.
  destruct (Z.ltb_spec n 1024), (Z.ltb_spec (n * 4398046511104) 4503599627370496); lia.
Qed.

Lemma human_size_loop_float (units : list string) (y : spec_float) :
  human_size_loop units (VFloat y) =
    match units with
    | [] => Ok (F.format_1f y +:+ "PB")
    | unit :: units' =>
        if F.ltb y F.f1024_0 then Ok (F.format_1f y +:+ unit)
        else human_size_loop units' (VFloat (F.div y F.f1024_0))
    end.
Proof. destruct units as [| unit units']; [done |]. cbn. by destruct (F.ltb _ _). Qed.

Lemma human_size_first (n : Z) (x : spec_float) :
  float_of_int n = Ok x →
  human_size n =
    if n <? 1024 then Ok (F.format_1f x +:+ "B")
    else human_size_loop ["KB"; "MB"; "GB"; "TB"]%string (VFloat (F.div x F.f1024_0)).
Proof.
  intros Hx. unfold human_size. cbn [human_size_loop lt_float].
  rewrite Z_lt_float_1024. unfold truediv_float, format_1f, as_float.
  rewrite Hx. unfold mbind, exc_bind, fmap, exc_fmap.
  by destruct (n <? 1024).
Qed.

(** *** Exact sizes *)

Lemma iter_xO_value (p k : positive) :
  Z.pos (Pos.iter xO p k) = Z.pos p * 2 ^ Z.pos k.
Proof.
  induction k as [| k IH] using Pos.peano_ind.
  - cbn. lia.
  - rewrite Pos.iter_succ, Pos2Z.inj_xO, IH, Pos2Z.inj_succ, Z.pow_succ_r by lia. lia.
Qed.

Lemma iter_xO_digits (p k : positive) :
  digits2_pos (Pos.iter xO p k) = (digits2_pos p + k)%positive.
Proof.
  induction k as [| k IH] using Pos.peano_ind.
  - cbn. lia.
  - rewrite Pos.iter_succ. cbn [digits2_pos]. rewrite IH. lia.
Qed.

(** A mantissa of 53 bits at an exponent of the format is not changed by
    rounding. *)
Lemma binary_round_aux_exact (s : bool) (m : positive) (e : Z) :
  digits2_pos m = 53%positive → -1074 ≤ e ≤ 971 →
  binary_round_aux F.prec F.emax s (Z.pos m) e loc_Exact = S754_finite s m e.
Proof.
  intros Hd He. unfold binary_round_aux.
  assert (Hshift : shr_fexp F.prec F.emax (Z.pos m) e loc_Exact
                   = ({| shr_m := Z.pos m; shr_r := false; shr_s := false |}, e)).
  { unfold shr_fexp, shr. cbn [Zdigits2]. rewrite Hd.
    replace (fexp F.prec F.emax (53 + e) - e) with 0; [done |].
    unfold fexp, emin, F.prec, F.emax. lia. }
  rewrite Hshift. cbn [shr_m loc_of_shr_record round_nearest_even].
  rewrite Hshift. cbn [shr_m].
  unfold F.emax, F.prec. destruct (Z.leb_spec e (1024 - 53)); [done | lia].
Qed.

Lemma of_Z_exact (p : positive) :
  (digits2_pos p ≤ 53)%positive →
  ∃ m, F.of_Z (Z.pos p) = S754_finite false m (Z.pos (digits2_pos p) - 53)
       ∧ digits2_pos m = 53%positive
       ∧ Z.pos m = Z.pos p * 2 ^ (53 - Z.pos (digits2_pos p)).
Proof.
  intros Hd. unfold F.of_Z, binary_normalize, binary_round.
  set (d := digits2_pos p) in *.
  assert (Hfexp : fexp F.prec F.emax (Z.pos d + 0) = Z.pos d - 53).
  { unfold fexp, emin, F.prec, F.emax. lia. }
  rewrite Hfexp. unfold shl_align.
  destruct (Z.pos d - 53 - 0) as [| k | k] eqn:Ek; [| lia |].
  - exists p. assert (d = 53%positive) as Hd53 by lia.
    rewrite binary_round_aux_exact by (fold d; lia).
    fold d. rewrite Hd53. repeat split; try done. cbn. lia.
  - exists (Pos.iter xO p k).
    assert (Hdig : digits2_pos (Pos.iter xO p k) = 53%positive).
    { rewrite iter_xO_digits. fold d. lia. }
    rewrite binary_round_aux_exact by (try done; lia).
    repeat split; try done.
    rewrite iter_xO_value. f_equal. f_equal. lia.
Qed.

(** Dividing a normal number by 1024.0 lowers its exponent by ten. *)
Lemma div_1024_exact (m : positive) (e : Z) :
  digits2_pos m = 53%positive → -1063 ≤ e ≤ 981 →
  F.div (S754_finite false m e) F.f1024_0 = S754_finite false m (e - 10).
Proof.
  intros Hd He. unfold F.div, F.f1024_0, SFdiv, SFdiv_core_binary.
  cbn [Zdigits2]. rewrite Hd.
  change (digits2_pos 4503599627370496) with 53%positive.
  assert (He' : Z.min (fexp F.prec F.emax (53 + e - (53 + -42))) (e - -42) = e - 11).
  { unfold fexp, emin, F.prec, F.emax. lia. }
  rewrite He'. replace (e - -42 - (e - 11)) with 53 by lia.
  assert (Hdiv : Z.div_eucl (Z.shiftl (Z.pos m) 53) 4503599627370496
                 = (Z.pos m~0, 0)).
  { rewrite Z.shiftl_mul_pow2 by lia.
    pose proof (Z_div_mod (Z.pos m * 2 ^ 53) 4503599627370496 eq_refl) as Hdm.
    destruct (Z.div_eucl _ _) as [q r]. destruct Hdm as [Heq Hr].
    change (2 ^ 53) with 9007199254740992 in Heq.
    f_equal; lia. }
  rewrite Hdiv. cbn [xorb].
  change (new_location 4503599627370496 0) with loc_Exact.
  unfold binary_round_aux.
  assert (Hshift : shr_fexp F.prec F.emax (Z.pos m~0) (e - 11) loc_Exact
                   = ({| shr_m := Z.pos m; shr_r := false; shr_s := false |}, e - 10)).
  { unfold shr_fexp, shr. cbn [Zdigits2 digits2_pos]. rewrite Hd.
    replace (fexp F.prec F.emax (Z.pos (Pos.succ 53) + (e - 11)) - (e - 11)) with 1.
    - cbn. f_equal. lia.
    - unfold fexp, emin, F.prec, F.emax. lia. }
  rewrite Hshift. cbn [shr_m loc_of_shr_record round_nearest_even].
  assert (Hshift' : shr_fexp F.prec F.emax (Z.pos m) (e - 10) loc_Exact
                    = ({| shr_m := Z.pos m; shr_r := false; shr_s := false |}, e - 10)).
  { unfold shr_fexp, shr. cbn [Zdigits2]. rewrite Hd.
    replace (fexp F.prec F.emax (53 + (e - 10)) - (e - 10)) with 0; [done |].
    unfold fexp, emin, F.prec, F.emax. lia. }
  rewrite Hshift'. cbn [shr_m].
  unfold F.emax, F.prec. destruct (Z.leb_spec (e - 10) (1024 - 53)); [done | lia].
Qed.


Lemma ltb_1024_normal (m : positive) (e : Z) :
  digits2_pos m = 53%positive →
  F.ltb (S754_finite false m e) F.f1024_0 = (e <? -42).
Proof.
  intros Hd.
  unfold F.ltb, SFltb, F.f1024_0, SFcompare.
  destruct (Z.compare_spec e (-42)) as [-> | Hlt | Hgt].
  - pose proof (digits2_pos_bounds m) as [Hlo _].
    rewrite Hd in Hlo.
    change (2 ^ (53 - 1)) with 4503599627370496 in Hlo.
    rewrite Pos.compare_cont_spec.
    cbn [Pos.switch_Eq].
    destruct (Pos.compare_spec m 4503599627370496) as [| Hm |].
    + done.
    + apply Pos2Z.pos_lt_pos in Hm. lia.
    + done.
  - symmetry.
    by apply Z.ltb_lt.
  - symmetry.
    apply Z.ltb_ge.
    lia.
Qed.

Lemma digits2_pos_le (p : positive) (j : Z) :
  0 ≤ j → (Z.pos (digits2_pos p) ≤ j ↔ Z.pos p < 2 ^ j).
Proof.
  intros Hj. pose proof (digits2_pos_bounds p) as [Hlo Hhi]. split.
  - intros Hd. eapply Z.lt_le_trans; [exact Hhi |]. apply Z.pow_le_mono_r; lia.
  - intros Hp. destruct (Z.le_gt_cases (Z.pos (digits2_pos p)) j) as [| Hgt]; [done |].
    assert (2 ^ j ≤ 2 ^ (Z.pos (digits2_pos p) - 1)) by (apply Z.pow_le_mono_r; lia).
    lia.
Qed.

Lemma div_half_even_cancel (a b c : Z) :
  0 < b → 0 < c → F.div_half_even (a * c) (b * c) = F.div_half_even a b.
Proof.
  intros Hb Hc. unfold F.div_half_even.
  rewrite Z.div_mul_cancel_r, Z.mul_mod_distr_r by lia.
  replace (2 * (a mod b * c)) with (2 * (a mod b) * c) by lia.
  destruct (Z.compare_spec (2 * (a mod b) * c) (b * c)),
    (Z.compare_spec (2 * (a mod b)) b); try done; nia.
Qed.

Lemma human_size_loop_normal (units : list string) (m : positive) (e : Z) :
  digits2_pos m = 53%positive → -1063 ≤ e ≤ 981 →
  human_size_loop units (VFloat (S754_finite false m e)) =
    match units with
    | [] => Ok (F.format_1f (S754_finite false m e) +:+ "PB")
    | unit :: units' =>
        if e <? -42 then Ok (F.format_1f (S754_finite false m e) +:+ unit)
        else human_size_loop units' (VFloat (S754_finite false m (e - 10)))
    end.
Proof.
  intros Hd He. rewrite human_size_loop_float. destruct units as [| unit units']; [done |].
  by rewrite ltb_1024_normal, div_1024_exact.
Qed.

(** The text of a normal number that holds [p / 1024 ^ k] exactly. *)
Lemma format_1f_normal (m p : positive) (d k : Z) :
  Z.pos m = Z.pos p * 2 ^ (53 - d) → 1 ≤ d ≤ 53 → 0 ≤ k →
  F.format_1f (S754_finite false m (d - 53 - 10 * k)) =
    let q := F.div_half_even (10 * Z.pos p) (1024 ^ k) in
    pretty (q / 10) +:+ "." +:+ pretty (q mod 10).
Proof.
  intros Hm Hd Hk. unfold F.format_1f, F.scaled_units. cbv zeta.
  rewrite Z.max_r, Z.max_l by lia.
  replace (- (d - 53 - 10 * k)) with (10 * k + (53 - d)) by lia.
  rewrite Z.pow_add_r, Z.pow_mul_r by lia.
  change (2 ^ 10) with 1024. change (10 ^ 1) with 10. rewrite Hm.
  replace (Z.pos p * 2 ^ (53 - d) * 10 * 2 ^ 0) with (10 * Z.pos p * 2 ^ (53 - d)) by lia.
  rewrite div_half_even_cancel; [done | |]; apply Z.pow_pos_nonneg; lia.
Qed.

Lemma exponent_below (p : positive) (k : Z) :
  0 ≤ k →
  (Z.pos (digits2_pos p) - 53 - 10 * k <? -42) = (Z.pos p <? 1024 ^ (k + 1)).
Proof.
  intros Hk.
  pose proof (digits2_pos_le p (10 * (k + 1)) ltac:(lia)) as Hiff.
  rewrite Z.pow_mul_r in Hiff by lia. change (2 ^ 10) with 1024 in Hiff.
  destruct (Z.ltb_spec (Z.pos (digits2_pos p) - 53 - 10 * k) (-42)),
    (Z.ltb_spec (Z.pos p) (1024 ^ (k + 1))); try done.
  - assert (Z.pos (digits2_pos p) ≤ 10 * (k + 1)) as Hle by lia.
    apply Hiff in Hle. lia.
  - assert (Z.pos (digits2_pos p) ≤ 10 * (k + 1)) by (apply Hiff; lia). lia.
Qed.

Lemma unit_index_thresholds (n : Z) :
  unit_index 5 n =
    if n <? 1024 then 0%nat
    else if n <? 1048576 then 1%nat
    else if n <? 1073741824 then 2%nat
    else if n <? 1099511627776 then 3%nat
    else if n <? 1125899906842624 then 4%nat
    else 5%nat.
Proof.
  unfold unit_index.
  repeat match goal with
         | |- context [?a <? ?b] => destruct (Z.ltb_spec a b)
         end; try done; exfalso; Z.to_euclidean_division_equations; lia.
Qed.

(** For a byte count below 2^53, [human_size] is the exact quotient of the
    count by the power of 1024 of its unit, rounded to one decimal. *)
Lemma human_size_is_exact (n : Z) :
  0 ≤ n < 2 ^ 53 → human_size n = Ok (human_size_exact n).
Proof.
  intros [Hn0 Hn]. destruct n as [| p |]; [by vm_compute | | lia].
  assert (Hd : (digits2_pos p ≤ 53)%positive).
  { apply (digits2_pos_le p 53) in Hn; [| lia]. exact Hn. }
  destruct (of_Z_exact p Hd) as (m & Hx & Hdm & Hm).
  pose proof (digits2_pos_bounds p) as _.
  set (d := Z.pos (digits2_pos p)) in *.
  assert (Hd' : 1 ≤ d ≤ 53) by (unfold d; lia).
  assert (Hfloat : float_of_int (Z.pos p) = Ok (S754_finite false m (d - 53))).
  { unfold float_of_int. by rewrite Hx. }
  rewrite (human_size_first _ _ Hfloat).
  rewrite div_1024_exact by (try done; lia).
  rewrite !human_size_loop_normal by (try done; lia).
  replace (d - 53) with (d - 53 - 10 * 0) at 1 by lia.
  replace (d - 53 - 10 - 10 - 10 - 10 - 10) with (d - 53 - 10 * 5) by lia.
  replace (d - 53 - 10 - 10 - 10 - 10) with (d - 53 - 10 * 4) by lia.
  replace (d - 53 - 10 - 10 - 10) with (d - 53 - 10 * 3) by lia.
  replace (d - 53 - 10 - 10) with (d - 53 - 10 * 2) by lia.
  replace (d - 53 - 10) with (d - 53 - 10 * 1) by lia.
  rewrite !(format_1f_normal m p d) by (try done; lia).
  unfold d. rewrite !exponent_below by lia. cbv zeta.
  change (1024 ^ (1 + 1)) with 1048576. change (1024 ^ (2 + 1)) with 1073741824.
  change (1024 ^ (3 + 1)) with 1099511627776.
  change (1024 ^ (4 + 1)) with 1125899906842624.
  unfold human_size_exact. rewrite unit_index_thresholds.
  repeat match goal with
         | |- context [?a <? ?b] => destruct (Z.ltb_spec a b)
         end; done.
Qed.


(** ** The structured extractor *)

Lemma lstrip_nul_spec (s : string) :
  ∃ i, s = nuls i +:+ lstrip_nul s ∧ starts_with_nul (lstrip_nul s) = false.
Proof.
  induction s as [| c s (i & Hs & Hstart)]; [by exists 0%nat |]. cbn.
  destruct (is_nul c) eqn:Ec.
  - exists (S i). split; [| done]. apply Ascii.eqb_eq in Ec.
    change (nuls (S i) +:+ lstrip_nul s) with (String nul (nuls i +:+ lstrip_nul s)).
    by f_equal.
  - exists 0%nat. split; [done | exact Ec].
Qed.

Lemma string_eqb_empty (s : string) : String.eqb s "" = true ↔ s = EmptyString.
Proof. by destruct s. Qed.

Lemma rstrip_nul_spec (s : string) :
  ∃ j, s = rstrip_nul s +:+ nuls j
       ∧ ends_with_nul (rstrip_nul s) = false
       ∧ (starts_with_nul s = false → starts_with_nul (rstrip_nul s) = false).
Proof.
  induction s as [| c s (j & Hs & Hend & Hstart)]; [by exists 0%nat |]. cbn.
  destruct (is_nul c && String.eqb (rstrip_nul s) "") eqn:Ec.
  - apply andb_true_iff in Ec as [Ec Hr]. apply string_eqb_empty in Hr.
    exists (S j). rewrite Hr in Hs. cbn in Hs. subst s.
    apply Ascii.eqb_eq in Ec. rewrite Ec. cbn. repeat split; done.
  - exists j. split; [| split].
    + change (String c s = String c (rstrip_nul s +:+ nuls j)). by f_equal.
    + cbn [ends_with_nul]. destruct (rstrip_nul s) as [| c' r] eqn:Er; [| done].
      cbn in Ec. by rewrite andb_true_r in Ec.
    + done.
Qed.

(** [strip('\x00')] takes the null characters off both ends, and nothing
    else. *)
Lemma strip_nul_spec (s : string) :
  ∃ i j, s = nuls i +:+ strip_nul s +:+ nuls j
         ∧ starts_with_nul (strip_nul s) = false
         ∧ ends_with_nul (strip_nul s) = false.
Proof.
  destruct (lstrip_nul_spec s) as (i & Hi & Hstart).
  destruct (rstrip_nul_spec (lstrip_nul s)) as (j & Hj & Hend & Hkeep).
  exists i, j. unfold strip_nul. rewrite <- Hj. auto.
Qed.

Lemma clean_value_ok (val : value) :
  clean_value val =
    Ok (match val with
        | VBytes b => VStr (strip_nul (decode_replace b))
        | _ => val
        end).
Proof. by destruct val. Qed.

Lemma foldlM_insert_keep {A V : Type} (f : A → string) (g : A → exc V)
    (acc out : gmap string V) (l : list A) (k : string) :
  foldlM (λ (m : gmap string V) a, v ← g a; Ok (<[f a := v]> m)) acc l = Ok out →
  k ∉ f <$> l → out !! k = acc !! k.
Proof.
  revert acc. induction l as [| a l IH]; intros acc Hfold Hk; cbn in *.
  - by simplify_eq.
  - destruct (g a) as [v |]; [| done]. cbn in Hfold.
    rewrite not_elem_of_cons in Hk. destruct Hk as [Hne Hk].
    rewrite (IH _ Hfold Hk). by rewrite lookup_insert_ne.
Qed.

Lemma foldlM_insert_lookup {A V : Type} (f : A → string) (g : A → exc V)
    (acc out : gmap string V) (l : list A) (k : string) :
  foldlM (λ (m : gmap string V) a, v ← g a; Ok (<[f a := v]> m)) acc l = Ok out →
  k ∈ f <$> l →
  ∃ a v, a ∈ l ∧ f a = k ∧ g a = Ok v ∧ out !! k = Some v.
Proof.
  revert acc. induction l as [| a0 l IH]; intros acc Hfold Hin; cbn in *.
  - by apply elem_of_nil in Hin.
  - destruct (g a0) as [v |] eqn:Eg; [| done]. cbn in Hfold.
    destruct (decide (k ∈ f <$> l)) as [Hl | Hl].
    + destruct (IH _ Hfold Hl) as (a & v' & Ha & ? & ? & ?).
      exists a, v'. repeat split; try done. by right.
    + apply elem_of_cons in Hin as [-> | ?]; [| done].
      exists a0, v. repeat split; try done; [by left |].
      rewrite (foldlM_insert_keep _ _ _ _ _ _ Hfold Hl). apply lookup_insert_eq.
Qed.

Lemma foldlM_ext {A B : Type} (f g : B → A → exc B) (acc : B) (l : list A) :
  (∀ b a, f b a = g b a) → foldlM f acc l = foldlM g acc l.
Proof.
  intros Hfg. revert acc. induction l as [| a l IH]; intros acc; cbn; [done |].
  rewrite Hfg. destruct (g acc a); cbn; [apply IH | done].
Qed.

Lemma assoc_elem_of {A : Type} (k : string) (l : list (string * A)) (v : A) :
  assoc k l = Some v → k ∈ l.*1.
Proof.
  induction l as [| [k' v'] l IH]; cbn; [done |].
  destruct (String.eqb_spec k k') as [-> | Hne]; [left | right; auto].
Qed.

Section Structured.
Context `{Builtins}.

Lemma clean_lookup (ex : list (string * ifd_entry)) (ifd : string)
    (items : list (Z * value)) (out : gmap string value) (tag : Z) (val : value) :
  clean ex ifd = Ok out → assoc ifd ex = Some (IfdTags items) →
  (tag, val) ∈ items →
  (∀ tag' val', (tag', val') ∈ items → name_of ifd tag' = name_of ifd tag → val' = val) →
  clean_value val = Ok (default VNone (out !! name_of ifd tag))
  ∧ is_Some (out !! name_of ifd tag).
Proof.
  unfold clean, ifd_items. intros Hclean Hifd Hin Hsame.
  rewrite Hifd in Hclean. cbn in Hclean.
  rewrite (foldlM_ext _ (λ (m : gmap string value) (a : Z * value),
                           v ← clean_value a.2; Ok (<[name_of ifd a.1 := v]> m)))
    in Hclean by (by intros ? []).
  apply (foldlM_insert_lookup (λ a : Z * value, name_of ifd a.1)
           (λ a : Z * value, clean_value a.2) _ _ _ (name_of ifd tag)) in Hclean
    as ([tag' val'] & v & Hin' & Hname & Hv & Hout).
  - cbn in *. rewrite (Hsame _ _ Hin' Hname) in Hv. rewrite Hout. split; [done | eauto].
  - apply list_elem_of_fmap. by exists (tag, val).
Qed.

End Structured.

(** ** The statements on examples *)

(** C1, the claim as written fails: with a zero denominator the converter
    returns [0.0], which is not [None], for a tuple and for an object
    alike; and a pair of integers whose denominator is not zero but has no
    float gives [None], not a quotient. *)
Lemma ratio_to_float_zero_denominator :
  ratio_to_float (H := Sample.builtins) (VTuple [VInt 1; VInt 0]) = Ok (VFloat F.f0_0)
  ∧ ratio_to_float (H := Sample.builtins) (Ratio 1 0) = Ok (VFloat F.f0_0)
  ∧ VFloat F.f0_0 ≠ VNone
  ∧ ratio_to_float (H := Sample.builtins) (VTuple [VInt 1; VInt (2 ^ 1024)]) = Ok VNone.
Proof. split; [| split; [| split]]; [reflexivity | reflexivity | discriminate |].
  vm_compute. reflexivity.
Qed.

Lemma ratio_to_float_quotient_or_zero_witness :
  ratio_pair (VInt 1) (VInt 2) (Ratio 1 2)
  ∧ ratio_to_float (H := Sample.builtins) (Ratio 1 2)
      = Ok (VFloat (F.div (F.of_Z 1) (F.of_Z 2)))
  ∧ ratio_to_float (H := Sample.builtins) (Ratio 1 0) = Ok (VFloat F.f0_0)
  ∧ ratio_to_float (H := Sample.builtins) (Ratio 1 (2 ^ 1024)) = Ok VNone.
Proof.
  assert (Hp : ∀ n d, ratio_pair (VInt n) (VInt d) (Ratio n d))
    by (intros; by apply pair_object).
  split; [apply Hp |]. split; [| split].
  - destruct (ratio_to_float_quotient_or_zero (H := Sample.builtins)
                VNone (VInt 1) (VInt 2) (Ratio 1 2) (Hp 1 2)) as (_ & _ & Hq & _).
    by apply Hq.
  - destruct (ratio_to_float_quotient_or_zero (H := Sample.builtins)
                VNone (VInt 1) (VInt 0) (Ratio 1 0) (Hp 1 0)) as (_ & Hz & _).
    by apply Hz.
  - destruct (ratio_to_float_quotient_or_zero (H := Sample.builtins)
                VNone (VInt 1) (VInt (2 ^ 1024)) (Ratio 1 (2 ^ 1024)) (Hp 1 _))
      as (_ & _ & _ & Hn).
    by apply Hn.
Defined.

Lemma dms_to_decimal_components_witness :
  let dms := VList [Ratio 40 1; Ratio 26 1; Ratio 46302 1000] in
  getitem dms 0 = Ok (Ratio 40 1) ∧ getitem dms 1 = Ok (Ratio 26 1)
  ∧ getitem dms 2 = Ok (Ratio 46302 1000)
  ∧ dms_to_decimal (H := Sample.builtins) dms
      = Ok (VFloat (S754_finite false 5692295897829825 (-47)))
  ∧ dms_to_decimal (H := Sample.builtins) (VList [Ratio 40 1; VNone; Ratio 0 1])
      = Ok VNone.
Proof.
  cbv zeta. do 3 (split; [reflexivity |]). split.
  - destruct (dms_to_decimal_components (H := Sample.builtins)
                (VList [Ratio 40 1; Ratio 26 1; Ratio 46302 1000])
                (Ratio 40 1) (Ratio 26 1) (Ratio 46302 1000)
                eq_refl eq_refl eq_refl) as [_ Hsum].
    by rewrite (Hsum _ _ _ eq_refl eq_refl eq_refl).
  - destruct (dms_to_decimal_components (H := Sample.builtins)
                (VList [Ratio 40 1; VNone; Ratio 0 1])
                (Ratio 40 1) VNone (Ratio 0 1)
                eq_refl eq_refl eq_refl) as [Hnone _].
    apply Hnone. right. by left.
Defined.

Lemma dms_to_decimal_short_sequence_witness :
  let dms := VList [Ratio 40 1; Ratio 26 1] in
  seq_length dms = Some 2%nat ∧ (2 < 3)%nat
  ∧ dms_to_decimal (H := Sample.builtins) dms = Ok VNone
  ∧ dms_to_decimal (H := Sample.builtins) (VTuple []) = Ok VNone
  ∧ dms_to_decimal (H := Sample.builtins) (VStr "12") = Ok VNone.
Proof.
  cbv zeta. split; [reflexivity |]. split; [lia |]. split; [| split].
  - apply (dms_to_decimal_short_sequence (H := Sample.builtins)
             (VList [Ratio 40 1; Ratio 26 1]) VNone 2); [reflexivity | lia].
  - apply (dms_to_decimal_short_sequence (H := Sample.builtins)
             (VTuple []) VNone 0); [reflexivity | lia].
  - apply (dms_to_decimal_short_sequence (H := Sample.builtins)
             (VStr "12") VNone 2); [reflexivity | lia].
Defined.

(** C2, the claim as written fails in both directions. A latitude of zero
    with the reference "S" is stored as a zero, which is not below zero
    (and so for the longitude and "W"); and a latitude read from negative
    degrees with the reference "N" is stored negative. *)
Lemma gps_sign_not_equivalent_to_reference :
  (raises (extract_one (H := Sample.builtins) Examples.origin) = false
   ∧ highlights_of (extract_one (H := Sample.builtins) Examples.origin) !! "gps"
       = Some (gps_entry (S754_zero true) (S754_zero true) "S" "W")
   ∧ F.ltb (S754_zero true) F.zero = false)
  ∧ (raises (extract_one (H := Sample.builtins) Examples.signed_degrees) = false
     ∧ highlights_of (extract_one (H := Sample.builtins) Examples.signed_degrees) !! "gps"
         = Some (gps_entry (S754_finite true 5629499534213120 (-47)) (S754_zero true)
                           "N" "W")
     ∧ F.ltb (S754_finite true 5629499534213120 (-47)) F.zero = true).
Proof.
  split; (split; [vm_compute; reflexivity |]); (split; [vm_compute; reflexivity |]);
    reflexivity.
Qed.

Lemma gps_highlight_sign_and_rounding_witness :
  let src := Examples.pittsburgh in
  let g := gps_entry (S754_finite false 5692295897829826 (-47))
                     (S754_finite true 5625901017373363 (-46)) "N" "W" in
  raises (extract_one (H := Sample.builtins) src) = false
  ∧ highlights_of (extract_one (H := Sample.builtins) src) !! "gps" = Some g
  ∧ ∃ tags lat_vals lon_vals x y,
      flat_tags src = Ok tags
      ∧ values_at tags "GPS GPSLatitude" = Some lat_vals
      ∧ values_at tags "GPS GPSLongitude" = Some lon_vals
      ∧ dms_to_decimal (H := Sample.builtins) lat_vals = Ok (VFloat x)
      ∧ dms_to_decimal (H := Sample.builtins) lon_vals = Ok (VFloat y)
      ∧ let lat_ref := ref_of (H := Sample.builtins) tags "GPS GPSLatitudeRef" in
        let lon_ref := ref_of (H := Sample.builtins) tags "GPS GPSLongitudeRef" in
        let lat :=
          F.round_digits 6 (if startswith lat_ref "S" then F.opp (F.abs x) else x) in
        let lon :=
          F.round_digits 6 (if startswith lon_ref "W" then F.opp (F.abs y) else y) in
        g = gps_entry lat lon lat_ref lon_ref
        ∧ six_decimals lat ∧ six_decimals lon
        ∧ (startswith lat_ref "S" = true → F.ltb F.zero lat = false)
        ∧ (startswith lon_ref "W" = true → F.ltb F.zero lon = false).
Proof.
  intros src g.
  assert (Hok : raises (extract_one (H := Sample.builtins) src) = false)
    by (vm_compute; reflexivity).
  assert (Hg : highlights_of (extract_one (H := Sample.builtins) src) !! "gps" = Some g)
    by (vm_compute; reflexivity).
  split; [exact Hok |]. split; [exact Hg |].
  destruct (extract_one (H := Sample.builtins) src) as [r |] eqn:Hr; [| discriminate Hok].
  exact (gps_highlight_sign_and_rounding (H := Sample.builtins) src r g Hr Hg).
Defined.

Lemma author_prefers_flat_artist_witness :
  (raises (extract_one (H := Sample.builtins) Examples.pittsburgh) = false
   ∧ highlights_of (extract_one (H := Sample.builtins) Examples.pittsburgh) !! "author"
       = Some (VStr "A"))
  ∧ (raises (extract_one (H := Sample.builtins) Examples.structured_only) = false
     ∧ highlights_of (extract_one (H := Sample.builtins) Examples.structured_only)
         !! "author" = Some (VStr "B")).
Proof.
  split.
  - split; [vm_compute; reflexivity |].
    assert (Hflat : match extract_one (H := Sample.builtins) Examples.pittsburgh with
                    | Ok r => dict_get (exifread r) "artist" = VStr "A"
                    | Raise _ => False
                    end) by (vm_compute; reflexivity).
    destruct (extract_one (H := Sample.builtins) Examples.pittsburgh) as [r |] eqn:Hr;
      [| done].
    destruct (author_prefers_flat_artist (H := Sample.builtins)
                Examples.pittsburgh r "A" "B" Hr) as [Hauthor _].
    by apply Hauthor.
  - split; [vm_compute; reflexivity |].
    assert (Hstructured :
              match extract_one (H := Sample.builtins) Examples.structured_only with
              | Ok r => truthy (dict_get (exifread r) "artist") = false
                        ∧ dict_get (group (piexif r) "0th") "Artist" = VStr "B"
              | Raise _ => False
              end) by (vm_compute; split; reflexivity).
    destruct (extract_one (H := Sample.builtins) Examples.structured_only) as [r |] eqn:Hr;
      [| done].
    destruct Hstructured as [Hnone Hb].
    destruct (author_prefers_flat_artist (H := Sample.builtins)
                Examples.structured_only r "A" "B" Hr) as [_ Hauthor].
    by apply Hauthor.
Defined.

Lemma notes_follow_missing_fields_witness :
  raises (extract_one (H := Sample.builtins) Examples.unreadable) = false
  ∧ Forall (λ k, highlights_of (extract_one (H := Sample.builtins) Examples.unreadable)
                   !! k = None) noted_keys
  ∧ highlights_of (extract_one (H := Sample.builtins) Examples.unreadable) !! "notes"
      = Some (VList [VStr note_gps; VStr note_author; VStr note_device;
                     VStr note_datetime]).
Proof.
  split; [vm_compute; reflexivity |].
  assert (Hall : Forall (λ k, highlights_of
                                (extract_one (H := Sample.builtins) Examples.unreadable)
                                !! k = None) noted_keys)
    by (repeat constructor; vm_compute; reflexivity).
  split; [exact Hall |].
  destruct (extract_one (H := Sample.builtins) Examples.unreadable) as [r |] eqn:Hr;
    [| by vm_compute in Hr].
  destruct (notes_follow_missing_fields (H := Sample.builtins) Examples.unreadable r Hr)
    as [_ Hfour].
  exact (Hfour Hall).
Defined.



(** The bytes 00 41 are stored as "A", without the null character that
    leads them, while the decoding with only the trailing null characters
    stripped keeps it. *)
Example leading_null_is_stripped :
  (λ tree, group tree "0th" !! "Make")
    <$> parse_piexif (H := Sample.builtins) (Ok Examples.zeroth_make_nul_A)
    = Ok (Some (VStr "A"))
  ∧ clean_value (VBytes [Byte.x00; Byte.x41]) = Ok (VStr "A")
  ∧ decoded_trailing_stripped [Byte.x00; Byte.x41] = String nul "A"
  ∧ VStr "A" ≠ VStr (decoded_trailing_stripped [Byte.x00; Byte.x41]).
Proof.
  split; [vm_compute; reflexivity |]. split; [reflexivity |]. split; [reflexivity |].
  discriminate.
Qed.

(** The flat extractor on the Pittsburgh tags: both coordinates, rounded
    to six decimals, the longitude negated by its reference. *)
Example flat_gps_of_pittsburgh :
  (.!! "gps") <$> parse_exifread_tags (H := Sample.builtins) Examples.pittsburgh_tags
    = Ok (Some (gps_entry (S754_finite false 5692295897829826 (-47))
                          (S754_finite true 5625901017373363 (-46)) "N" "W")).
Proof. vm_compute. reflexivity. Qed.

Example record_of_pittsburgh :
  (λ r, (highlights r !! "gps_decimal", highlights r !! "device",
         highlights r !! "file_size", highlights r !! "dimensions"))
    <$> extract_one (H := Sample.builtins) Examples.pittsburgh
    = Ok (Some (VStr "40.446195, -79.948862"), Some (VStr "Canon"),
          Some (VStr "1.5KB"), Some (VStr "640x480")).
Proof. vm_compute. reflexivity. Qed.

(** An exception in the GPS block: the latitude entry has no values. It
    is swallowed, and the make is the one of the mapping without GPS
    tags. *)
Example broken_gps_is_swallowed :
  gps_block (H := Sample.builtins) Examples.broken_gps_tags
    (base_fields Examples.broken_gps_tags) = Raise AttributeError
  ∧ (λ out, (out !! "gps", out !! "make"))
      <$> parse_exifread_tags (H := Sample.builtins) Examples.broken_gps_tags
      = Ok (None, Some (VStr "Canon"))
  ∧ (λ out, (out !! "gps", out !! "make"))
      <$> parse_exifread_tags (H := Sample.builtins)
            (without_gps Examples.broken_gps_tags)
      = Ok (None, Some (VStr "Canon")).
Proof. repeat split; vm_compute; reflexivity. Qed.

(** A tree with an entry that is no mapping, as the structured reader
    gives for the thumbnail: the inner [clean] raises past [parse_piexif],
    and [extract_one] records the error and keeps an empty tree, so the
    structured artist does not reach the highlights. *)
Example thumbnail_entry_raises :
  parse_piexif (H := Sample.builtins) (Ok Examples.with_thumbnail) = Raise AttributeError
  ∧ (λ r, (piexif_error r, piexif r, highlights r !! "author"))
      <$> extract_one (H := Sample.builtins)
            (Examples.source_of (Ok ∅) (Ok Examples.with_thumbnail))
      = Ok (Some AttributeError, ∅, None).
Proof. split; vm_compute; reflexivity. Qed.

(** Decoding replaces what is not UTF-8 and keeps what is. *)
Example decode_replace_examples :
  decode_replace [Byte.x41; Byte.xe2; Byte.x82; Byte.xac]
    = String "A" (String (ascii_of_N 226) (String (ascii_of_N 130)
        (String (ascii_of_N 172) EmptyString)))
  ∧ decode_replace [Byte.xe2; Byte.x82] = replacement
  ∧ decode_replace [Byte.xff; Byte.x41] = replacement +:+ "A".
Proof. repeat split. Qed.

(** * Further properties *)

(** ** The flat extractor *)

Lemma py_or_assoc (a b c : value) : py_or (py_or a b) c = py_or a (py_or b c).
Proof. unfold py_or. destruct (truthy a) eqn:Ea; [by rewrite Ea |]. done. Qed.

Lemma pick_first_nonempty (tags : gmap string tag) (pre post : list string)
    (k : string) (t : tag) :
  Forall (λ k', truthy (get tags k') = false) pre →
  tags !! k = Some t → tag_str t ≠ EmptyString →
  pick tags (pre ++ k :: post) = VStr (tag_str t).
Proof.
  intros Hpre Hk Ht.
  assert (Hget : get tags k = VStr (tag_str t)) by (unfold get; by rewrite Hk).
  assert (Htrue : truthy (get tags k) = true).
  { rewrite Hget. cbn. by destruct (tag_str t). }
  induction Hpre as [| k' pre Hk' Hpre IH]; cbn [app pick].
  - rewrite Htrue, Hget. by destruct post.
  - rewrite Hk'. rewrite IH. by destruct (pre ++ k :: post) eqn:E; [destruct pre |].
Qed.

Lemma pick_all_absent (tags : gmap string tag) (keys : list string) :
  Forall (λ k, tags !! k = None) keys → pick tags keys = VNone.
Proof.
  induction 1 as [| k keys Hk Hkeys IH]; [done |]. cbn [pick].
  assert (Hget : get tags k = VNone) by (unfold get; by rewrite Hk).
  rewrite Hget, IH. by destruct keys.
Qed.

Section FlatFields.
Context `{Builtins}.

Lemma base_fields_pick (tags : gmap string tag) (field : string) (keys : list string) :
  (field, keys) ∈ aliases → base_fields tags !! field = Some (pick tags keys).
Proof.
  unfold aliases. rewrite !elem_of_cons, elem_of_nil.
  intros [? | [? | [? | [? | [? | []]]]]]; simplify_eq; unfold base_fields.
  all: rewrite ?lookup_insert_ne by done; rewrite lookup_insert_eq; cbn [pick].
  all: by rewrite ?py_or_assoc.
Qed.

(** X1. Each plain field of the flat result is read from its aliases in
    order, and an alias counts only when its text is not empty: the first
    alias that is there with a text other than the empty one gives the
    field, whatever the later aliases hold; when no alias is in the mapping
    the field is there with the value [None]. *)
Theorem flat_field_first_nonempty_alias (tags : gmap string tag) (field : string)
    (pre post : list string) (k : string) (t : tag) :
  (field, pre ++ k :: post) ∈ aliases →
  Forall (λ k', truthy (get tags k') = false) pre →
  tags !! k = Some t → tag_str t ≠ EmptyString →
  ∃ out, parse_exifread_tags tags = Ok out
         ∧ out !! field = Some (VStr (tag_str t))
         ∧ (∀ tags' out' keys, (field, keys) ∈ aliases →
              Forall (λ k', tags' !! k' = None) keys →
              parse_exifread_tags tags' = Ok out' → out' !! field = Some VNone).
Proof.
  intros Hfield Hpre Hk Ht. eexists. split; [apply parse_exifread_tags_eq |].
  assert (Hne : field ≠ "gps").
  { intros ->. unfold aliases in Hfield.
    rewrite !elem_of_cons, elem_of_nil in Hfield.
    destruct Hfield as [? | [? | [? | [? | [? | []]]]]]; simplify_eq. }
  split.
  - rewrite (parsed_other tags _ field (parse_exifread_tags_eq tags) Hne).
    rewrite (base_fields_pick _ _ _ Hfield). f_equal.
    by apply pick_first_nonempty.
  - intros tags' out' keys Hkeys Habsent Hout'.
    rewrite (parsed_other tags' _ field Hout' Hne).
    rewrite (base_fields_pick _ _ _ Hkeys). f_equal. by apply pick_all_absent.
Qed.

End FlatFields.

Section FlatGps.
Context `{Builtins}.

Lemma gps_of_agree (tags1 tags2 : gmap string tag) :
  Forall (λ k, tags1 !! k = tags2 !! k) gps_keys → gps_of tags1 = gps_of tags2.
Proof.
  unfold gps_keys. rewrite !Forall_cons. intros (Hlat & Hlon & Hlatref & Hlonref & _).
  unfold gps_of, values_at, ref_of. by rewrite Hlat, Hlon, Hlatref, Hlonref.
Qed.

(** X2. The GPS entry of the flat result depends on the four GPS tags only:
    two mappings that agree on them give the same entry, or both none,
    whatever else they hold. *)
Theorem gps_entry_reads_gps_tags_only (tags1 tags2 : gmap string tag) :
  Forall (λ k, tags1 !! k = tags2 !! k) gps_keys →
  ∃ out1 out2,
    parse_exifread_tags tags1 = Ok out1 ∧ parse_exifread_tags tags2 = Ok out2
    ∧ out1 !! "gps" = out2 !! "gps".
Proof.
  intros Hagree. eexists _, _.
  split; [apply parse_exifread_tags_eq |]. split; [apply parse_exifread_tags_eq |].
  rewrite (parsed_gps tags1 _ (parse_exifread_tags_eq tags1)).
  rewrite (parsed_gps tags2 _ (parse_exifread_tags_eq tags2)).
  by apply gps_of_agree.
Qed.

Lemma ratio_zero_denominator (n : Z) : ratio_to_float (Ratio n 0) = Ok (VFloat F.f0_0).
Proof. done. Qed.

Lemma dms_zero_denominators (a b c : Z) :
  dms_to_decimal (VList [Ratio a 0; Ratio b 0; Ratio c 0]) = Ok (VFloat F.zero).
Proof. done. Qed.

(** X3. Ratios with a zero denominator do not make the GPS entry go away:
    each counts as [0.0]. When the three components of the latitude and of
    the longitude all have a zero denominator, the flat result has a GPS
    entry whose two coordinates are zeros: the latitude is the negative
    zero when its reference is not empty and starts with S and the positive
    zero otherwise, and likewise the longitude with W. *)
Theorem zero_denominators_give_zero_coordinates (tags : gmap string tag)
    (a b c a' b' c' : Z) :
  values_at tags "GPS GPSLatitude" = Some (VList [Ratio a 0; Ratio b 0; Ratio c 0]) →
  values_at tags "GPS GPSLongitude" = Some (VList [Ratio a' 0; Ratio b' 0; Ratio c' 0]) →
  ∃ out,
    parse_exifread_tags tags = Ok out
    ∧ out !! "gps" =
        Some (gps_entry
                (S754_zero (flipped (ref_of tags "GPS GPSLatitudeRef") "S"))
                (S754_zero (flipped (ref_of tags "GPS GPSLongitudeRef") "W"))
                (ref_of tags "GPS GPSLatitudeRef")
                (ref_of tags "GPS GPSLongitudeRef")).
Proof.
  intros Hlat Hlon.
  exists (<["gps" := gps_entry
                      (F.round_digits 6 (signed_by (ref_of tags "GPS GPSLatitudeRef") "S" F.zero))
                      (F.round_digits 6 (signed_by (ref_of tags "GPS GPSLongitudeRef") "W" F.zero))
                      (ref_of tags "GPS GPSLatitudeRef")
                      (ref_of tags "GPS GPSLongitudeRef")]> (base_fields tags)).
  split.
  - rewrite parse_exifread_tags_eq. unfold gps_of. rewrite Hlat, Hlon.
    by rewrite !dms_zero_denominators.
  - rewrite lookup_insert_eq. unfold signed_by, flipped.
    by destruct (_ && _), (_ && _).
Qed.

End FlatGps.

(** ** The structured extractor, further *)

Lemma foldlM_insert_outcome {A V : Type} (f : A → string) (g : A → exc V)
    (acc : gmap string V) (l : list A) :
  match foldlM (λ (m : gmap string V) a, v ← g a; Ok (<[f a := v]> m)) acc l with
  | Ok out =>
      Forall (λ a, ∃ v, g a = Ok v) l
      ∧ ∀ k, is_Some (out !! k) ↔ k ∈ f <$> l ∨ is_Some (acc !! k)
  | Raise e => ∃ a, a ∈ l ∧ g a = Raise e
  end.
Proof.
  revert acc. induction l as [| a l IH]; intros acc; cbn.
  - split; [done |]. intros k. rewrite elem_of_nil. tauto.
  - destruct (g a) as [v | e] eqn:Eg; cbn.
    + specialize (IH (<[f a := v]> acc)).
      destruct (foldlM _ _ l) as [out | e].
      * destruct IH as [Hall Hdom]. split; [constructor; eauto |].
        intros k. rewrite Hdom, elem_of_cons, lookup_insert_is_Some.
        destruct (decide (f a = k)) as [<- | Hne]; [tauto |].
        assert (k ≠ f a) by congruence. tauto.
      * destruct IH as (a' & Hin & Ha'). exists a'. split; [by right | done].
    + exists a. split; [by left | done].
Qed.

Section StructuredTree.
Context `{Builtins}.

Lemma clean_fold (ex : list (string * ifd_entry)) (ifd : string) :
  clean ex ifd =
    items ← ifd_items ex ifd;
    foldlM (λ (m : gmap string value) (a : Z * value),
              v ← clean_value a.2; Ok (<[name_of ifd a.1 := v]> m)) ∅ items.
Proof.
  unfold clean. destruct (ifd_items ex ifd) as [items |]; cbn; [| done].
  apply foldlM_ext. by intros ? [].
Qed.

Lemma clean_outcome (ex : list (string * ifd_entry)) (ifd : string) :
  match clean ex ifd with
  | Ok _ => not_a_mapping ex ifd = false
  | Raise e => e = AttributeError ∧ not_a_mapping ex ifd = true
  end.
Proof.
  rewrite clean_fold. unfold ifd_items, not_a_mapping.
  destruct (assoc ifd ex) as [[items | v] |]; cbn; try done.
  pose proof (foldlM_insert_outcome (λ a : Z * value, name_of ifd a.1)
                (λ a : Z * value, clean_value a.2) ∅ items) as Hout.
  destruct (foldlM _ _ items) as [out | e]; [done |].
  destruct Hout as (a & _ & Ha). by rewrite clean_value_ok in Ha.
Qed.

(** X4. When the structured reader returns a tree, [parse_piexif] raises
    exactly when one of the entries of the tree is not a mapping, and then
    with an [AttributeError]; otherwise it returns a tree with the same
    keys as the loaded one. *)
Theorem parse_piexif_raises_on_non_mapping (ex : list (string * ifd_entry)) :
  match parse_piexif (Ok ex) with
  | Ok tree =>
      (∀ ifd, ifd ∈ ex.*1 → not_a_mapping ex ifd = false)
      ∧ ∀ ifd, is_Some (tree !! ifd) ↔ ifd ∈ ex.*1
  | Raise e =>
      e = AttributeError ∧ ∃ ifd, ifd ∈ ex.*1 ∧ not_a_mapping ex ifd = true
  end.
Proof.
  unfold parse_piexif.
  pose proof (foldlM_insert_outcome (λ a : string, a) (clean ex) ∅ (map fst ex)) as Hout.
  destruct (foldlM _ _ (map fst ex)) as [tree | e].
  - destruct Hout as [Hall Hdom]. split.
    + intros ifd Hin. rewrite Forall_forall in Hall.
      destruct (Hall ifd Hin) as [d Hd].
      pose proof (clean_outcome ex ifd) as Hc. by rewrite Hd in Hc.
    + intros ifd. rewrite Hdom, list_fmap_id, lookup_empty.
      split; [intros [? | [? [=]]]; done | by left].
  - destruct Hout as (ifd & Hin & Hraise).
    pose proof (clean_outcome ex ifd) as Hc. rewrite Hraise in Hc.
    destruct Hc as [-> Hc]. split; [done |]. by exists ifd.
Qed.

Lemma parse_piexif_group (load : exc (list (string * ifd_entry)))
    (tree : gmap string (gmap string value)) (ifd : string) (d : gmap string value) :
  parse_piexif load = Ok tree → tree !! ifd = Some d →
  ∃ ex, load = Ok ex ∧ clean ex ifd = Ok d.
Proof.
  destruct load as [ex | e]; cbn.
  2: { intros [= <-]. by rewrite lookup_empty. }
  intros Htree Hd. exists ex. split; [done |].
  destruct (decide (ifd ∈ (λ a : string, a) <$> map fst ex)) as [Hin | Hnot].
  - apply (foldlM_insert_lookup (λ a : string, a) (clean ex) _ _ _ ifd) in Htree
      as (a & d' & _ & -> & Hclean & Hd'); [| done]. congruence.
  - rewrite (foldlM_insert_keep _ _ _ _ _ _ Htree Hnot), lookup_empty in Hd. done.
Qed.

Lemma clean_item (ex : list (string * ifd_entry)) (ifd : string)
    (d : gmap string value) (name : string) (v : value) :
  clean ex ifd = Ok d → d !! name = Some v →
  ∃ items tag val,
    assoc ifd ex = Some (IfdTags items) ∧ (tag, val) ∈ items
    ∧ name_of ifd tag = name ∧ clean_value val = Ok v.
Proof.
  rewrite clean_fold. unfold ifd_items.
  destruct (assoc ifd ex) as [[items | other] |] eqn:Hifd; cbn; [| done |].
  2: { intros [= <-]. by rewrite lookup_empty. }
  intros Hfold Hv.
  destruct (decide (name ∈ (λ a : Z * value, name_of ifd a.1) <$> items)) as [Hin | Hnot].
  - apply (foldlM_insert_lookup (λ a : Z * value, name_of ifd a.1)
             (λ a : Z * value, clean_value a.2) _ _ _ name) in Hfold
      as ([tag val] & v' & Hmem & Hname & Hclean & Hv'); [| done].
    cbn in Hname, Hclean. exists items, tag, val.
    split; [done |]. split; [done |]. split; [done |]. congruence.
  - rewrite (foldlM_insert_keep _ _ _ _ _ _ Hfold Hnot), lookup_empty in Hv. done.
Qed.

Lemma tree_no_bytes (load : exc (list (string * ifd_entry)))
    (tree : gmap string (gmap string value)) (ifd name : string) :
  parse_piexif load = Ok tree → is_bytes (dict_get (group tree ifd) name) = false.
Proof.
  intros Htree. unfold group, dict_get.
  destruct (tree !! ifd) as [d |] eqn:Hd; cbn; [| by rewrite lookup_empty].
  destruct (d !! name) as [v |] eqn:Hv; cbn; [| done].
  destruct (parse_piexif_group _ _ _ _ Htree Hd) as (ex & _ & Hclean).
  destruct (clean_item _ _ _ _ _ Hclean Hv) as (items & tag & val & _ & _ & _ & Hval).
  rewrite clean_value_ok in Hval. destruct val; by simplify_eq.
Qed.

(** X5. No value of the tree that [parse_piexif] returns is a bytes
    object. Every value stored in a directory of the tree under a name
    comes from an item of that directory in the loaded tree, one whose tag
    has that name: it is the text that the item's bytes were decoded to, or
    the item's value itself when that was not bytes. *)
Theorem cleaned_tree_holds_no_bytes (load : exc (list (string * ifd_entry)))
    (tree : gmap string (gmap string value)) (ifd name : string)
    (d : gmap string value) (v : value) :
  parse_piexif load = Ok tree → tree !! ifd = Some d → d !! name = Some v →
  is_bytes v = false
  ∧ ∃ ex items tag val,
      load = Ok ex ∧ assoc ifd ex = Some (IfdTags items) ∧ (tag, val) ∈ items
      ∧ name_of ifd tag = name
      ∧ v = match val with
            | VBytes b => VStr (strip_nul (decode_replace b))
            | _ => val
            end.
Proof.
  intros Htree Hd Hv.
  destruct (parse_piexif_group _ _ _ _ Htree Hd) as (ex & -> & Hclean).
  destruct (clean_item _ _ _ _ _ Hclean Hv) as (items & tag & val & Hifd & Hin & Hname & Hval).
  rewrite clean_value_ok in Hval. injection Hval as <-.
  split; [by destruct val |]. by exists ex, items, tag, val.
Qed.

(** X20. What is stored for a bytes value is its permissive decoding
    without the null characters at either end, the leading ones as well as
    the trailing ones: the decoding is some nulls, the stored text, some
    nulls, and the stored text neither starts nor ends with a null. The
    decoding has no failing case, so the literal form of the bytes is never
    what is stored. *)
Theorem cleaning_strips_nulls_at_both_ends (b : list Byte.byte) :
  clean_value (VBytes b) = Ok (VStr (strip_nul (decode_replace b)))
  ∧ ∃ i j, decode_replace b = nuls i +:+ strip_nul (decode_replace b) +:+ nuls j
           ∧ starts_with_nul (strip_nul (decode_replace b)) = false
           ∧ ends_with_nul (strip_nul (decode_replace b)) = false.
Proof. split; [done |]. apply strip_nul_spec. Qed.

Lemma parse_piexif_non_mapping (ex : list (string * ifd_entry)) (ifd : string) :
  ifd ∈ ex.*1 → not_a_mapping ex ifd = true →
  parse_piexif (Ok ex) = Raise AttributeError.
Proof.
  intros Hin Hnot. unfold parse_piexif.
  pose proof (foldlM_insert_outcome (λ a : string, a) (clean ex) ∅ (map fst ex)) as Hout.
  destruct (foldlM _ _ (map fst ex)) as [tree | e].
  - destruct Hout as [Hall _]. rewrite Forall_forall in Hall.
    destruct (Hall ifd Hin) as [d Hd].
    pose proof (clean_outcome ex ifd) as Hc. rewrite Hd in Hc. congruence.
  - destruct Hout as (ifd' & _ & Hr).
    pose proof (clean_outcome ex ifd') as Hc. rewrite Hr in Hc. by destruct Hc as [-> _].
Qed.

(** C8 (a defect of the code). The tree that the structured reader returns
    holds, next to the directories, a [thumbnail] entry whose value is
    bytes or [None], no mapping. On every tree with such an entry the inner
    [clean] raises an [AttributeError] that [parse_piexif] does not handle:
    no tree is returned and no bytes value is decoded or stored, where the
    function's own docstring promises a cleaned dict. Only a failure of the
    reader itself gives the empty tree. *)
Theorem structured_extractor_raises_on_thumbnail (ex : list (string * ifd_entry))
    (v : value) (e : exn) :
  assoc "thumbnail" ex = Some (IfdOther v) →
  parse_piexif (Ok ex) = Raise AttributeError
  ∧ parse_piexif (Raise e) = Ok ∅.
Proof.
  intros Hthumb. split; [| done].
  apply (parse_piexif_non_mapping ex "thumbnail").
  - by apply assoc_elem_of in Hthumb.
  - unfold not_a_mapping. by rewrite Hthumb.
Qed.

Lemma decode_ascii (b : list Byte.byte) :
  is_ascii b = true → decode_replace b = text_of_bytes b.
Proof.
  unfold is_ascii, text_of_bytes. induction b as [| c b IH]; [done |].
  cbn [forallb decode_replace map]. rewrite andb_true_iff. intros [Hc Hb].
  rewrite Hc, (IH Hb). by destruct b.
Qed.

End StructuredTree.

Lemma rstrip_nuls (k : nat) : rstrip_nul (nuls k) = EmptyString.
Proof. induction k as [| k IH]; cbn; [done |]. by rewrite IH. Qed.

Lemma rstrip_append_nuls (s : string) (k : nat) :
  rstrip_nul (s +:+ nuls k) = rstrip_nul s.
Proof.
  induction s as [| c s IH]; [apply rstrip_nuls |].
  change (String c s +:+ nuls k) with (String c (s +:+ nuls k)).
  cbn [rstrip_nul]. by rewrite IH.
Qed.

Lemma text_of_bytes_cons (c : Byte.byte) (b : list Byte.byte) :
  text_of_bytes (c :: b) = String (ascii_of_byte c) (text_of_bytes b).
Proof. unfold text_of_bytes. by destruct b. Qed.

Lemma ascii_text_head (c : Byte.byte) (b : list Byte.byte) :
  is_ascii_text (c :: b) = true →
  is_nul (ascii_of_byte c) = false ∧ is_ascii_text b = true.
Proof.
  unfold is_ascii_text. cbn [forallb]. rewrite !andb_true_iff. intros [[Hc _] Hb].
  split; [| done]. unfold is_nul, nul. apply Ascii.eqb_neq. intros Heq.
  apply (f_equal byte_of_ascii) in Heq. rewrite byte_of_ascii_of_byte in Heq.
  by subst c.
Qed.

Lemma rstrip_ascii_text (b : list Byte.byte) :
  is_ascii_text b = true → rstrip_nul (text_of_bytes b) = text_of_bytes b.
Proof.
  induction b as [| c b IH]; [done |]. intros Hb.
  apply ascii_text_head in Hb as [Hnul Hb].
  rewrite text_of_bytes_cons. cbn [rstrip_nul]. by rewrite Hnul, (IH Hb).
Qed.

Lemma text_of_bytes_app (b b' : list Byte.byte) :
  text_of_bytes (b ++ b') = text_of_bytes b +:+ text_of_bytes b'.
Proof.
  induction b as [| c b IH]; [done |].
  change ((c :: b) ++ b') with (c :: (b ++ b')).
  by rewrite !text_of_bytes_cons, IH.
Qed.

Lemma text_of_nul_bytes (k : nat) : text_of_bytes (replicate k Byte.x00) = nuls k.
Proof.
  induction k as [| k IH]; [done |].
  change (replicate (S k) Byte.x00) with ([Byte.x00] ++ replicate k Byte.x00).
  by rewrite text_of_bytes_app, IH.
Qed.

(** X6. A bytes value made of ASCII characters and closed by any number of
    null bytes, the way EXIF stores text, is kept in the cleaned tree as
    the text of those characters, without the nulls. *)
Theorem null_terminated_ascii_is_its_text (b : list Byte.byte) (k : nat) :
  is_ascii_text b = true →
  clean_value (VBytes (b ++ replicate k Byte.x00)) = Ok (VStr (text_of_bytes b)).
Proof.
  intros Hb. rewrite clean_value_ok. do 2 f_equal.
  rewrite decode_ascii.
  2: { unfold is_ascii. rewrite forallb_app. apply andb_true_iff. split.
       - unfold is_ascii_text in Hb. rewrite forallb_forall in Hb |- *.
         intros c Hc. specialize (Hb c Hc). by apply andb_true_iff in Hb as [_ ?].
       - clear. induction k as [| k IH]; [done | exact IH]. }
  rewrite text_of_bytes_app, text_of_nul_bytes. unfold strip_nul.
  destruct b as [| c b].
  - change (text_of_bytes [] +:+ nuls k) with (nuls k).
    replace (lstrip_nul (nuls k)) with EmptyString; [done |].
    clear. induction k as [| k IH]; [done | exact IH].
  - destruct (ascii_text_head _ _ Hb) as [Hnul _].
    rewrite text_of_bytes_cons at 1.
    change (String ?a ?s +:+ ?t) with (String a (s +:+ t)).
    cbn [lstrip_nul]. rewrite Hnul.
    change (String ?a (?s +:+ ?t)) with (String a s +:+ t).
    rewrite <- text_of_bytes_cons, rstrip_append_nuls.
    by apply rstrip_ascii_text.
Qed.

(** ** The record of one image, further *)

Lemma add_device_outcome (make model : value) (hl : gmap string value) :
  add_device make model hl =
    if text_or_falsy make && text_or_falsy model
    then Ok (put_if (truthy make || truthy model) "device"
               (VStr (device_text (text_of make) (text_of model))) hl)
    else Raise TypeError.
Proof.
  unfold add_device, text_or_falsy, put_if, device_text. cbn [List.filter].
  destruct (truthy make) eqn:Hmake, (truthy model) eqn:Hmodel; cbn [orb negb].
  - destruct make as [| | | | s1 | | | | |]; try done.
    destruct model as [| | | | s2 | | | | |]; try done.
    cbn in Hmake, Hmodel |- *.
    destruct (String.eqb s1 ""); [done |]. by destruct (String.eqb s2 "").
  - rewrite orb_true_r, andb_true_r.
    destruct make as [| | | | s1 | | | | |]; try done.
    cbn in Hmake |- *. destruct (String.eqb s1 ""); [done |].
    destruct model as [| | | | s2 | | | | |]; try done.
    cbn in Hmodel |- *. by destruct (String.eqb s2 "").
  - rewrite orb_true_r.
    destruct model as [| | | | s2 | | | | |]; try done.
    destruct make as [| | | | s1 | | | | |]; try done.
    cbn in Hmake |- *. by destruct (String.eqb s1 "").
  - by rewrite !orb_true_r.
Qed.

Lemma py_or_left (a b : value) : truthy a = true → py_or a b = a.
Proof. unfold py_or. by intros ->. Qed.

Lemma py_or_right (a b : value) : truthy a = false → py_or a b = b.
Proof. unfold py_or. by intros ->. Qed.

Section Record.
Context `{Builtins}.

Lemma resolve_datetime_outcome (parsed : gmap string value)
    (tree : gmap string (gmap string value)) :
  (∀ ifd name, is_bytes (dict_get (group tree ifd) name) = false) →
  resolve_datetime parsed tree = Ok (datetime_of parsed tree).
Proof.
  intros Hbytes. unfold resolve_datetime, datetime_of.
  destruct (truthy (dict_get parsed "datetime_original")) eqn:Ht; cbn [negb].
  { by rewrite py_or_left. }
  rewrite (py_or_right (dict_get parsed "datetime_original")) by done.
  assert (Hb : is_bytes (py_or (dict_get (group tree "0th") "DateTime")
                               (dict_get (group tree "Exif") "DateTimeOriginal")) = false).
  { unfold py_or.
    destruct (truthy (dict_get (group tree "0th") "DateTime")); apply Hbytes. }
  by destruct (py_or _ _).
Qed.

Lemma add_gps_outcome (gps : value) (hl : gmap string value) :
  (truthy gps = true → ∃ lat lon, item gps "lat" = Ok lat ∧ item gps "lon" = Ok lon) →
  add_gps gps hl =
    Ok (put_if (truthy gps) "gps" gps
          (put_if (truthy gps) "gps_decimal" (VStr (gps_text gps)) hl)).
Proof.
  intros Hitems. unfold add_gps, gps_text, put_if.
  destruct (truthy gps); [| done].
  destruct (Hitems eq_refl) as (lat & lon & -> & ->). done.
Qed.

(** The highlights, key by key. *)
Lemma build_highlights_fields (parsed : gmap string value)
    (tree : gmap string (gmap string value)) (w h sh : value) :
  (∀ ifd name, is_bytes (dict_get (group tree ifd) name) = false) →
  (truthy (dict_get parsed "gps") = true →
   ∃ lat lon, item (dict_get parsed "gps") "lat" = Ok lat
              ∧ item (dict_get parsed "gps") "lon" = Ok lon) →
  if text_or_falsy (make_of parsed tree) && text_or_falsy (model_of parsed tree)
  then ∃ hl,
    build_highlights parsed tree w h sh = Ok hl
    ∧ hl !! "device" =
        (if truthy (make_of parsed tree) || truthy (model_of parsed tree)
         then Some (VStr (device_text (text_of (make_of parsed tree))
                                      (text_of (model_of parsed tree))))
         else None)
    ∧ hl !! "author" =
        (if truthy (author_of parsed tree) then Some (author_of parsed tree) else None)
    ∧ hl !! "software" =
        (if truthy (software_of parsed tree) then Some (software_of parsed tree)
         else None)
    ∧ hl !! "datetime_original" =
        (if truthy (datetime_of parsed tree) then Some (datetime_of parsed tree)
         else None)
    ∧ hl !! "gps_decimal" =
        (if truthy (dict_get parsed "gps")
         then Some (VStr (gps_text (dict_get parsed "gps"))) else None)
    ∧ hl !! "gps" =
        (if truthy (dict_get parsed "gps") then Some (dict_get parsed "gps") else None)
    ∧ hl !! "dimensions" =
        (if truthy w && truthy h then Some (VStr (py_str w +:+ "x" +:+ py_str h))
         else None)
    ∧ hl !! "file_size" = (if truthy sh then Some sh else None)
    ∧ (∃ notes, hl !! "notes" = Some (VList (VStr <$> notes)))
    ∧ (∀ k, is_Some (hl !! k) → k ∈ highlight_keys)
  else build_highlights parsed tree w h sh = Raise TypeError.
Proof.
  intros Hbytes Hgps. unfold build_highlights.
  fold (make_of parsed tree) (model_of parsed tree) (author_of parsed tree)
       (software_of parsed tree).
  rewrite add_device_outcome.
  destruct (text_or_falsy (make_of parsed tree) && text_or_falsy (model_of parsed tree));
    [| done].
  cbn [mbind exc_bind]. rewrite (resolve_datetime_outcome _ _ Hbytes).
  cbn [mbind exc_bind].
  assert (Hg : py_or (dict_get parsed "gps") VNone = dict_get parsed "gps"
               ∨ (truthy (dict_get parsed "gps") = false
                  ∧ py_or (dict_get parsed "gps") VNone = VNone)).
  { unfold py_or. destruct (truthy (dict_get parsed "gps")); auto. }
  set (gps := py_or (dict_get parsed "gps") VNone) in *.
  assert (Htg : truthy gps = truthy (dict_get parsed "gps")).
  { destruct Hg as [-> | [-> ->]]; done. }
  rewrite add_gps_outcome.
  2: { intros Ht. rewrite Htg in Ht. destruct Hg as [-> | [Hf _]]; [auto | congruence]. }
  cbn [mbind exc_bind]. eexists. split; [reflexivity |].
  rewrite Htg.
  assert (Hgv : truthy (dict_get parsed "gps") = true → gps = dict_get parsed "gps").
  { intros Ht. destruct Hg as [-> | [Hf _]]; [done | congruence]. }
  repeat split.
  - rewrite lookup_insert_ne, !lookup_put_if_ne, lookup_put_if_eq by done.
    by rewrite lookup_empty.
  - rewrite lookup_insert_ne, !lookup_put_if_ne, lookup_put_if_eq by done.
    by rewrite !lookup_put_if_ne, lookup_empty by done.
  - rewrite lookup_insert_ne, !lookup_put_if_ne, lookup_put_if_eq by done.
    by rewrite !lookup_put_if_ne, lookup_empty by done.
  - rewrite lookup_insert_ne, !lookup_put_if_ne, lookup_put_if_eq by done.
    by rewrite !lookup_put_if_ne, lookup_empty by done.
  - rewrite lookup_insert_ne, !lookup_put_if_ne, lookup_put_if_eq by done.
    destruct (truthy (dict_get parsed "gps")) eqn:Ht; [by rewrite Hgv |].
    by rewrite !lookup_put_if_ne, lookup_empty by done.
  - rewrite lookup_insert_ne, !lookup_put_if_ne, lookup_put_if_eq by done.
    destruct (truthy (dict_get parsed "gps")) eqn:Ht; [by rewrite Hgv |].
    by rewrite !lookup_put_if_ne, lookup_empty by done.
  - rewrite lookup_insert_ne, !lookup_put_if_ne, lookup_put_if_eq by done.
    by rewrite !lookup_put_if_ne, lookup_empty by done.
  - rewrite lookup_insert_ne, lookup_put_if_eq by done.
    by rewrite !lookup_put_if_ne, lookup_empty by done.
  - eexists. apply lookup_insert_eq.
  - intros k Hk. unfold highlight_keys. rewrite !elem_of_cons.
    destruct (decide (k = "notes")) as [-> | ?]; [tauto |].
    destruct (decide (k = "file_size")) as [-> | ?]; [tauto |].
    destruct (decide (k = "dimensions")) as [-> | ?]; [tauto |].
    destruct (decide (k = "gps")) as [-> | ?]; [tauto |].
    destruct (decide (k = "gps_decimal")) as [-> | ?]; [tauto |].
    destruct (decide (k = "datetime_original")) as [-> | ?]; [tauto |].
    destruct (decide (k = "software")) as [-> | ?]; [tauto |].
    destruct (decide (k = "author")) as [-> | ?]; [tauto |].
    destruct (decide (k = "device")) as [-> | ?]; [tauto |].
    rewrite lookup_insert_ne, !lookup_put_if_ne, lookup_empty in Hk by done.
    by destruct Hk.
Qed.

End Record.

Lemma get_text_or_none (tags : gmap string tag) (k : string) :
  text_or_none (get tags k) = true.
Proof. unfold get. by destruct (tags !! k). Qed.

Lemma py_or_text_or_none (a b : value) :
  text_or_none a = true → text_or_none b = true → text_or_none (py_or a b) = true.
Proof. unfold py_or. by destruct (truthy a). Qed.

Lemma base_fields_text_or_none (tags : gmap string tag) (k : string) :
  text_or_none (dict_get (base_fields tags) k) = true.
Proof.
  unfold dict_get, base_fields.
  destruct (decide (k = "artist")) as [-> | ?];
    [rewrite lookup_insert_eq | rewrite lookup_insert_ne by done].
  { cbn. repeat apply py_or_text_or_none; apply get_text_or_none. }
  destruct (decide (k = "software")) as [-> | ?];
    [rewrite lookup_insert_eq | rewrite lookup_insert_ne by done].
  { cbn. repeat apply py_or_text_or_none; apply get_text_or_none. }
  destruct (decide (k = "datetime_original")) as [-> | ?];
    [rewrite lookup_insert_eq | rewrite lookup_insert_ne by done].
  { cbn. repeat apply py_or_text_or_none; apply get_text_or_none. }
  destruct (decide (k = "model")) as [-> | ?];
    [rewrite lookup_insert_eq | rewrite lookup_insert_ne by done].
  { cbn. repeat apply py_or_text_or_none; apply get_text_or_none. }
  destruct (decide (k = "make")) as [-> | ?];
    [rewrite lookup_insert_eq | rewrite lookup_insert_ne by done].
  { cbn. repeat apply py_or_text_or_none; apply get_text_or_none. }
  by rewrite lookup_empty.
Qed.

Lemma text_or_none_falsy (v : value) : text_or_none v = true → text_or_falsy v = true.
Proof. by destruct v. Qed.

Lemma text_or_none_not_bytes (v : value) : text_or_none v = true → is_bytes v = false.
Proof. by destruct v. Qed.

Section RecordOfSource.
Context `{Builtins}.

Lemma flat_of_cases (src : source) :
  flat_of src = ∅
  ∨ ∃ tags, flat_tags src = Ok tags ∧ parse_exifread_tags tags = Ok (flat_of src).
Proof.
  unfold flat_of. destruct (flat_tags src) as [tags |]; [| by left].
  right. exists tags. split; [done |].
  by destruct (parse_exifread_tags tags) eqn:E; [| rewrite parse_exifread_tags_eq in E].
Qed.

Lemma flat_of_text (src : source) (k : string) :
  k ≠ "gps" → text_or_none (dict_get (flat_of src) k) = true.
Proof.
  intros Hk. destruct (flat_of_cases src) as [-> | (tags & _ & Hp)].
  - unfold dict_get. by rewrite lookup_empty.
  - unfold dict_get. rewrite (parsed_other _ _ _ Hp Hk).
    apply base_fields_text_or_none.
Qed.

Lemma flat_of_gps (src : source) :
  flat_of src !! "gps" = None
  ∨ ∃ x y lat_ref lon_ref, flat_of src !! "gps" = Some (gps_entry x y lat_ref lon_ref).
Proof.
  destruct (flat_of_cases src) as [-> | (tags & _ & Hp)]; [by left |].
  rewrite (parsed_gps _ _ Hp).
  destruct (gps_of tags) as [g |] eqn:Eg; [right | by left].
  apply gps_of_values in Eg as (? & ? & x & y & _ & _ & _ & _ & ->). eauto.
Qed.

Lemma flat_of_gps_items (src : source) :
  truthy (dict_get (flat_of src) "gps") = true →
  ∃ lat lon, item (dict_get (flat_of src) "gps") "lat" = Ok lat
             ∧ item (dict_get (flat_of src) "gps") "lon" = Ok lon.
Proof.
  unfold dict_get.
  destruct (flat_of_gps src) as [-> | (x & y & r1 & r2 & ->)]; [done |].
  intros _. by eexists _, _.
Qed.

Lemma structured_of_no_bytes (src : source) (ifd name : string) :
  is_bytes (dict_get (group (structured_of src) ifd) name) = false.
Proof.
  unfold structured_of.
  destruct (parse_piexif (ifd_tree src)) as [tree |] eqn:Etree.
  - by apply (tree_no_bytes (ifd_tree src)).
  - unfold group, dict_get. by rewrite !lookup_empty.
Qed.

(** The record in terms of its parts. *)
Lemma extract_one_cases (src : source) :
  match extract_one src with
  | Ok r =>
      file r = path_name src ∧ path_resolved src = Ok (path r)
      ∧ exifread r = flat_of src ∧ piexif r = structured_of src
      ∧ text_or_none (size_human r) = true
      ∧ exifread_error r = match flat_tags src with
                           | Ok _ => None
                           | Raise e => Some e
                           end
      ∧ exifread_raw r = match flat_tags src with
                         | Ok tags => Some (tag_str <$> tags)
                         | Raise _ => None
                         end
      ∧ piexif_error r = match parse_piexif (ifd_tree src) with
                         | Ok _ => None
                         | Raise e => Some e
                         end
      ∧ build_highlights (flat_of src) (structured_of src)
          (width r) (height r) (size_human r) = Ok (highlights r)
  | Raise e =>
      path_resolved src = Raise e
      ∨ (raises (path_resolved src) = false
         ∧ ∃ w h sh, build_highlights (flat_of src) (structured_of src) w h sh = Raise e)
  end.
Proof.
  unfold extract_one, flat_of, structured_of.
  destruct (path_resolved src) as [resolved |]; [cbn [mbind exc_bind] | by left].
  destruct (stat_size src) as [n |]; [destruct (human_size n) |].
  all: destruct (image_info src) as [[[fmt w] h] |].
  all: destruct (flat_tags src) as [tags |];
    [destruct (parse_exifread_tags tags) eqn:Ep;
       [| by rewrite parse_exifread_tags_eq in Ep] |].
  all: destruct (parse_piexif (ifd_tree src)).
  all: match goal with
       | |- context [build_highlights ?p ?t ?w ?h ?s] =>
           destruct (build_highlights p t w h s) eqn:Hb; cbn;
             [by rewrite ?Hb | right; eauto]
       end.
Qed.

Lemma extract_one_fields (src : source) :
  match path_resolved src with
  | Raise e => extract_one src = Raise e
  | Ok _ =>
      if text_or_falsy (make_of (flat_of src) (structured_of src))
         && text_or_falsy (model_of (flat_of src) (structured_of src))
      then ∃ r, extract_one src = Ok r
      else extract_one src = Raise TypeError
  end.
Proof.
  pose proof (extract_one_cases src) as Hcases.
  destruct (path_resolved src) as [resolved | e0] eqn:Hres.
  2: { unfold extract_one. by rewrite Hres. }
  assert (Hbuild : ∀ w h sh,
            if text_or_falsy (make_of (flat_of src) (structured_of src))
               && text_or_falsy (model_of (flat_of src) (structured_of src))
            then ∃ hl, build_highlights (flat_of src) (structured_of src) w h sh = Ok hl
            else build_highlights (flat_of src) (structured_of src) w h sh
                 = Raise TypeError).
  { intros w h sh.
    pose proof (build_highlights_fields (flat_of src) (structured_of src) w h sh
                  (structured_of_no_bytes src) (flat_of_gps_items src)) as Hf.
    destruct (text_or_falsy _ && text_or_falsy _); [| done].
    destruct Hf as (hl & Hhl & _). eauto. }
  destruct (text_or_falsy _ && text_or_falsy _) eqn:Hjoin.
  - destruct (extract_one src) as [r | e]; [eauto |].
    destruct Hcases as [[=] | (_ & w & h & sh & Hb)].
    destruct (Hbuild w h sh) as [hl Hhl]. congruence.
  - destruct (extract_one src) as [r | e].
    + destruct Hcases as (_ & _ & _ & _ & _ & _ & _ & _ & Hb).
      specialize (Hbuild (width r) (height r) (size_human r)). congruence.
    + destruct Hcases as [[=] | (_ & w & h & sh & Hb)].
      specialize (Hbuild w h sh). congruence.
Qed.

Lemma extract_one_joinable (src : source) (r : result) :
  extract_one src = Ok r →
  text_or_falsy (make_of (flat_of src) (structured_of src))
  && text_or_falsy (model_of (flat_of src) (structured_of src)) = true.
Proof.
  intros Hr. pose proof (extract_one_fields src) as Hf.
  destruct (path_resolved src); [| congruence].
  destruct (text_or_falsy _ && text_or_falsy _); [done | congruence].
Qed.

(** X7. [extract_one] raises in two cases only. Either the path cannot be
    resolved: the exception of the resolution goes on, before any reader
    is asked. Or the make or the model it settles on is a value of the
    structured tree that is neither a text nor falsy (the flat one being
    absent or empty), so that the device cannot be joined: a [TypeError].
    In every other case it returns a record; so it does whenever the path
    resolves and the structured result is empty, as it is when the reader
    fails or returns a tree with an entry that is no mapping. *)
Theorem extract_one_raises_in_two_cases (src : source) :
  match extract_one src with
  | Ok r =>
      path_resolved src = Ok (path r)
      ∧ text_or_falsy (make_of (exifread r) (piexif r)) = true
      ∧ text_or_falsy (model_of (exifread r) (piexif r)) = true
  | Raise e =>
      path_resolved src = Raise e
      ∨ (raises (path_resolved src) = false ∧ e = TypeError
         ∧ ((truthy (dict_get (flat_of src) "make") = false
             ∧ text_or_falsy (dict_get (group (structured_of src) "0th") "Make") = false)
            ∨ (truthy (dict_get (flat_of src) "model") = false
               ∧ text_or_falsy (dict_get (group (structured_of src) "0th") "Model")
                 = false)))
  end
  ∧ (raises (path_resolved src) = false → structured_of src = ∅ →
     raises (extract_one src) = false).
Proof.
  pose proof (extract_one_fields src) as Hf.
  pose proof (extract_one_cases src) as Hc.
  assert (Hflat : ∀ k, k ≠ "gps" → text_or_falsy (dict_get (flat_of src) k) = true).
  { intros k Hk. by apply text_or_none_falsy, flat_of_text. }
  split.
  - destruct (path_resolved src) as [resolved | e0] eqn:Hres.
    2: { rewrite Hf. by left. }
    destruct (text_or_falsy (make_of _ _)) eqn:Hmake;
      [destruct (text_or_falsy (model_of _ _)) eqn:Hmodel |]; cbn [andb] in Hf.
    + destruct Hf as [r Hr]. rewrite Hr in Hc |- *.
      destruct Hc as (_ & Hpath & -> & -> & _). done.
    + rewrite Hf. right. split; [done |]. split; [done |]. right.
      unfold model_of, py_or in Hmodel.
      destruct (truthy (dict_get (flat_of src) "model")) eqn:Ht; [| done].
      by rewrite Hflat in Hmodel.
    + rewrite Hf. right. split; [done |]. split; [done |]. left.
      unfold make_of, py_or in Hmake.
      destruct (truthy (dict_get (flat_of src) "make")) eqn:Ht; [| done].
      by rewrite Hflat in Hmake.
  - intros Hres Hempty. destruct (path_resolved src) as [resolved |]; [| done].
    rewrite Hempty in Hf.
    assert (Hjoin : text_or_falsy (make_of (flat_of src) ∅)
                    && text_or_falsy (model_of (flat_of src) ∅) = true).
    { assert (Hone : ∀ k name, k ≠ "gps" →
                text_or_falsy (py_or (dict_get (flat_of src) k)
                                     (dict_get (group ∅ "0th") name)) = true).
      { intros k name Hk. unfold py_or.
        destruct (truthy (dict_get (flat_of src) k)); [by apply Hflat |].
        unfold group. rewrite lookup_empty. cbn [default].
        unfold dict_get. by rewrite lookup_empty. }
      unfold make_of, model_of. by rewrite !Hone. }
    rewrite Hjoin in Hf. destruct Hf as [r ->]. done.
Qed.

(** X8. The device of a record is the make and the model the reconciler
    settles on (the flat one, else the one of the structured [0th]
    directory), with one space between them when both are there, and the
    one that is there alone otherwise; when neither is there the record has
    no device. *)
Theorem device_joins_make_and_model (src : source) (r : result) :
  extract_one src = Ok r →
  highlights r !! "device" =
    if truthy (make_of (exifread r) (piexif r))
       || truthy (model_of (exifread r) (piexif r))
    then Some (VStr (device_text (text_of (make_of (exifread r) (piexif r)))
                                 (text_of (model_of (exifread r) (piexif r)))))
    else None.
Proof.
  intros Hr. pose proof (extract_one_cases src) as Hc.
  pose proof (extract_one_joinable src r Hr) as Hf. rewrite Hr in Hc.
  destruct Hc as (_ & _ & -> & -> & _ & _ & _ & _ & Hb).
  pose proof (build_highlights_fields (flat_of src) (structured_of src)
                (width r) (height r) (size_human r)
                (structured_of_no_bytes src) (flat_of_gps_items src)) as Hfields.
  rewrite Hf in Hfields.
  destruct Hfields as (hl & Hhl & Hdevice & _). congruence.
Qed.

(** X9. The date and time of a record is the flat one when that is a text
    other than the empty one; else the [DateTime] of the structured [0th]
    directory when that is truthy; else the [DateTimeOriginal] of the
    structured [Exif] directory. The value found is never a bytes object:
    the tree was cleaned before, so the decoding in [extract_one] has
    nothing to decode. *)
Theorem datetime_resolution_order (src : source) (r : result) :
  extract_one src = Ok r →
  highlights r !! "datetime_original" =
    (if truthy (datetime_of (exifread r) (piexif r))
     then Some (datetime_of (exifread r) (piexif r)) else None)
  ∧ is_bytes (datetime_of (exifread r) (piexif r)) = false.
Proof.
  intros Hr. pose proof (extract_one_cases src) as Hc.
  pose proof (extract_one_joinable src r Hr) as Hf. rewrite Hr in Hc.
  destruct Hc as (_ & _ & -> & -> & _ & _ & _ & _ & Hb).
  pose proof (build_highlights_fields (flat_of src) (structured_of src)
                (width r) (height r) (size_human r)
                (structured_of_no_bytes src) (flat_of_gps_items src)) as Hfields.
  rewrite Hf in Hfields.
  destruct Hfields as (hl & Hhl & _ & _ & _ & Hdate & _). split; [congruence |].
  unfold datetime_of, py_or.
  destruct (truthy (dict_get (flat_of src) "datetime_original")).
  - apply text_or_none_not_bytes, flat_of_text. done.
  - destruct (truthy (dict_get (group (structured_of src) "0th") "DateTime"));
      apply structured_of_no_bytes.
Qed.

Lemma empty_sides_join (tree : gmap string (gmap string value)) :
  text_or_falsy (make_of ∅ ∅) && text_or_falsy (model_of ∅ ∅) = true.
Proof. done. Qed.

(** X10. A file on which the flat reader and the structured reader both
    fail still gives a record, unless its path cannot be resolved, in which
    case the exception of the resolution goes on. In the record both
    results are empty, the failure of the flat reader is kept as
    [exifread_error], that of the structured reader leaves no trace, and
    the highlights hold the four notes and nothing else but the dimensions
    and the file size, when those could be read. *)
Theorem unreadable_file_gives_bare_record (src : source) (e1 e2 : exn) :
  flat_tags src = Raise e1 → ifd_tree src = Raise e2 →
  match extract_one src with
  | Ok r =>
      path_resolved src = Ok (path r)
      ∧ exifread r = ∅ ∧ piexif r = ∅
      ∧ exifread_raw r = None ∧ exifread_error r = Some e1 ∧ piexif_error r = None
      ∧ highlights r !! "notes" = Some four_notes
      ∧ ∀ k, is_Some (highlights r !! k) → k ∈ ["dimensions"; "file_size"; "notes"]
  | Raise e => path_resolved src = Raise e
  end.
Proof.
  intros Hflat Htree.
  assert (Hp : flat_of src = ∅) by (unfold flat_of; by rewrite Hflat).
  assert (Ht : structured_of src = ∅) by (unfold structured_of; by rewrite Htree).
  pose proof (extract_one_fields src) as Hf.
  pose proof (extract_one_cases src) as Hc.
  destruct (path_resolved src) as [resolved | e0] eqn:Hres; [| by rewrite Hf].
  rewrite Hp, Ht in Hf. cbn in Hf. destruct Hf as [r Hr]. rewrite Hr in Hc |- *.
  destruct Hc as (_ & Hpath & Hex & Hpi & _ & Herr & Hraw & Hperr & Hb).
  rewrite Hflat in Herr, Hraw. rewrite Htree in Hperr. cbn in Hperr.
  rewrite Hp, Ht in *.
  do 6 (split; [done |]).
  pose proof (build_highlights_fields ∅ ∅ (width r) (height r) (size_human r)) as Hfields.
  cbn [andb] in Hfields.
  destruct Hfields as (hl & Hhl & Hdevice & Hauthor & Hsoft & Hdate & Hdec & Hgps
                       & _ & _ & _ & Hkeys); [done | done |].
  rewrite Hb in Hhl. injection Hhl as <-.
  apply build_highlights_lookup in Hb as (_ & _ & _ & Hnotes).
  split.
  - rewrite Hnotes. unfold notes_of_absent, absent.
    rewrite Hgps, Hauthor, Hdevice, Hdate. done.
  - intros k Hk. specialize (Hkeys k Hk). unfold highlight_keys in Hkeys.
    rewrite !elem_of_cons, elem_of_nil in Hkeys. rewrite !elem_of_cons.
    destruct Hkeys as [-> | [-> | [-> | [-> | [-> | [-> | Hrest]]]]]].
    + rewrite Hdevice in Hk. by destruct Hk.
    + rewrite Hauthor in Hk. by destruct Hk.
    + rewrite Hsoft in Hk. by destruct Hk.
    + rewrite Hdate in Hk. by destruct Hk.
    + rewrite Hdec in Hk. by destruct Hk.
    + rewrite Hgps in Hk. by destruct Hk.
    + tauto.
Qed.

(** X11. When the tree that the structured reader returns has an entry
    that is no mapping, the record loses the whole structured result, the
    directories that are mappings included: its tree is empty, the error is
    kept as [piexif_error], and the author, the device, the software and
    the date and time are those of the flat result or absent. The record
    is there unless the path cannot be resolved, in which case the
    exception of the resolution goes on. *)
Theorem non_mapping_entry_drops_structured (src : source)
    (ex : list (string * ifd_entry)) (ifd : string) :
  ifd_tree src = Ok ex → ifd ∈ ex.*1 → not_a_mapping ex ifd = true →
  match extract_one src with
  | Ok r =>
      piexif r = ∅ ∧ piexif_error r = Some AttributeError
      ∧ Forall (λ '(k, field),
                  highlights r !! k =
                    if truthy (dict_get (exifread r) field)
                    then Some (dict_get (exifread r) field) else None)
          [("author", "artist"); ("software", "software");
           ("datetime_original", "datetime_original")]
      ∧ highlights r !! "device" =
          (if truthy (dict_get (exifread r) "make")
              || truthy (dict_get (exifread r) "model")
           then Some (VStr (device_text (text_of (dict_get (exifread r) "make"))
                                        (text_of (dict_get (exifread r) "model"))))
           else None)
  | Raise e => path_resolved src = Raise e
  end.
Proof.
  intros Htree Hin Hnot.
  assert (Hraise : parse_piexif (ifd_tree src) = Raise AttributeError).
  { rewrite Htree. by apply (parse_piexif_non_mapping ex ifd). }
  assert (Ht : structured_of src = ∅) by (unfold structured_of; by rewrite Hraise).
  pose proof (extract_one_fields src) as Hf.
  pose proof (extract_one_cases src) as Hc.
  destruct (path_resolved src) as [resolved | e0] eqn:Hres; [| by rewrite Hf].
  pose proof (build_highlights_fields (flat_of src) (structured_of src)) as Hfields.
  assert (Hsame : ∀ a, text_or_none a = true →
            truthy (py_or a VNone) = truthy a
            ∧ text_of (py_or a VNone) = text_of a
            ∧ text_or_falsy (py_or a VNone) = true
            ∧ (truthy a = true → py_or a VNone = a)).
  { intros a Ha. destruct (truthy a) eqn:E.
    - rewrite (py_or_left _ _ E), E. repeat split; try done. by destruct a.
    - rewrite (py_or_right _ _ E). repeat split; try done.
      destruct a as [| | | | s | | | | |]; try done.
      cbn in E. apply negb_false_iff, String.eqb_eq in E. by subst s. }
  assert (Hgroup : ∀ name, dict_get (group (structured_of src) "0th") name = VNone).
  { intros name. rewrite Ht. unfold group, dict_get. by rewrite !lookup_empty. }
  assert (Hexif : ∀ name, dict_get (group (structured_of src) "Exif") name = VNone).
  { intros name. rewrite Ht. unfold group, dict_get. by rewrite !lookup_empty. }
  pose proof (Hsame _ (flat_of_text src "make" ltac:(done))) as (Hmk1 & Hmk2 & Hmk3 & _).
  pose proof (Hsame _ (flat_of_text src "model" ltac:(done))) as (Hmd1 & Hmd2 & Hmd3 & _).
  pose proof (Hsame _ (flat_of_text src "artist" ltac:(done))) as (Har1 & _ & _ & Har4).
  pose proof (Hsame _ (flat_of_text src "software" ltac:(done))) as (Hso1 & _ & _ & Hso4).
  pose proof (Hsame _ (flat_of_text src "datetime_original" ltac:(done)))
    as (Hdt1 & _ & _ & Hdt4).
  unfold make_of, model_of in Hf, Hfields. rewrite !Hgroup in Hf.
  rewrite Hmk3, Hmd3 in Hf. cbn [andb] in Hf. destruct Hf as [r Hr].
  rewrite Hr in Hc |- *. destruct Hc as (_ & _ & Hex & Hpi & _ & _ & _ & Hperr & Hb).
  specialize (Hfields (width r) (height r) (size_human r)
                (structured_of_no_bytes src) (flat_of_gps_items src)).
  rewrite !Hgroup, Hmk3, Hmd3 in Hfields. cbn [andb] in Hfields.
  destruct Hfields as (hl & Hhl & Hdevice & Hauthor & Hsoft & Hdate & _).
  rewrite Hb in Hhl. injection Hhl as <-.
  unfold author_of in Hauthor. unfold software_of in Hsoft. unfold datetime_of in Hdate.
  rewrite !Hgroup in Hauthor, Hsoft, Hdate. rewrite Hexif in Hdate.
  change (py_or VNone VNone) with VNone in Hdate.
  rewrite Hmk1, Hmk2, Hmd1, Hmd2 in Hdevice. rewrite Har1 in Hauthor.
  rewrite Hso1 in Hsoft. rewrite Hdt1 in Hdate.
  rewrite Hex, Hpi, Hperr, Hraise, Ht.
  split; [done |]. split; [done |]. split; [| done].
  repeat constructor.
  - rewrite Hauthor. destruct (truthy (dict_get (flat_of src) "artist")) eqn:E; [| done].
    by rewrite Har4.
  - rewrite Hsoft. destruct (truthy (dict_get (flat_of src) "software")) eqn:E; [| done].
    by rewrite Hso4.
  - rewrite Hdate.
    destruct (truthy (dict_get (flat_of src) "datetime_original")) eqn:E; [| done].
    by rewrite Hdt4.
Qed.

(** X12. No highlight of a record is a bytes object. *)
Theorem highlights_hold_no_bytes (src : source) (r : result) (k : string) (v : value) :
  extract_one src = Ok r → highlights r !! k = Some v → is_bytes v = false.
Proof.
  intros Hr Hv. pose proof (extract_one_cases src) as Hc.
  pose proof (extract_one_joinable src r Hr) as Hf. rewrite Hr in Hc.
  destruct Hc as (_ & _ & _ & _ & Hsize & _ & _ & _ & Hb).
  pose proof (build_highlights_fields (flat_of src) (structured_of src)
                (width r) (height r) (size_human r)
                (structured_of_no_bytes src) (flat_of_gps_items src)) as Hfields.
  rewrite Hf in Hfields.
  destruct Hfields as (hl & Hhl & Hdevice & Hauthor & Hsoft & Hdate & Hdec & Hgps
                       & Hdim & Hfs & [notes Hnotes] & Hkeys).
  rewrite Hb in Hhl. injection Hhl as <-.
  assert (Hor : ∀ a b, is_bytes a = false → is_bytes b = false →
                       is_bytes (py_or a b) = false).
  { intros a b ??. unfold py_or. by destruct (truthy a). }
  assert (Hflat : ∀ field, field ≠ "gps" → is_bytes (dict_get (flat_of src) field) = false).
  { intros field Hne. by apply text_or_none_not_bytes, flat_of_text. }
  specialize (Hkeys k (mk_is_Some _ _ Hv)). unfold highlight_keys in Hkeys.
  rewrite !elem_of_cons, elem_of_nil in Hkeys.
  destruct Hkeys as [-> | [-> | [-> | [-> | [-> | [-> | [-> | [-> | [-> | []]]]]]]]]].
  - rewrite Hdevice in Hv. destruct (_ || _); by simplify_eq.
  - rewrite Hauthor in Hv. destruct (truthy _); simplify_eq.
    apply Hor; [by apply Hflat | apply structured_of_no_bytes].
  - rewrite Hsoft in Hv. destruct (truthy _); simplify_eq.
    apply Hor; [by apply Hflat | apply structured_of_no_bytes].
  - rewrite Hdate in Hv. destruct (truthy _); simplify_eq.
    apply Hor; [by apply Hflat |]. apply Hor; apply structured_of_no_bytes.
  - rewrite Hdec in Hv. destruct (truthy _); by simplify_eq.
  - rewrite Hgps in Hv. destruct (truthy _) eqn:Ht; simplify_eq.
    unfold dict_get in *.
    destruct (flat_of_gps src) as [Hg | (x & y & r1 & r2 & Hg)]; by rewrite Hg in *.
  - rewrite Hdim in Hv. destruct (_ && _); by simplify_eq.
  - rewrite Hfs in Hv. destruct (truthy _); simplify_eq.
    by apply text_or_none_not_bytes.
  - rewrite Hnotes in Hv. by simplify_eq.
Qed.

End RecordOfSource.

(** ** The summary and the command line *)

Lemma bind_ok {A B : Type} (m : io A) (f : A → io B) (a : A) :
  outcome m = Ok a →
  trace (m ≫= f) = trace m ++ trace (f a) ∧ outcome (m ≫= f) = outcome (f a).
Proof. unfold mbind, io_bind. by intros ->. Qed.

Lemma bind_raise {A B : Type} (m : io A) (f : A → io B) (e : exn) :
  outcome m = Raise e → m ≫= f = Run (trace m) (Raise e).
Proof. unfold mbind, io_bind. by intros ->. Qed.

Lemma prints_bind (m k : io unit) : prints m → prints k → prints (_ ← m; k).
Proof.
  intros [Hm Htm] [Hk Htk]. destruct (bind_ok m (λ _, k) tt Hm) as [Ht Ho].
  split; [by rewrite Ho |]. rewrite Ht, forallb_app, Htm, Htk. done.
Qed.

Lemma prints_print (line : string) : prints (print line).
Proof. done. Qed.

Lemma prints_ret : prints (mret tt).
Proof. done. Qed.

Lemma prints_for_each {A : Type} (l : list A) (body : A → io unit) :
  (∀ a, prints (body a)) → prints (for_each l body).
Proof.
  intros Hbody. induction l as [| a l IH]; [apply prints_ret |].
  cbn [for_each]. by apply prints_bind.
Qed.

Section Summary.
Context `{Builtins}.

Lemma prints_print_if (h : gmap string value) (test label key : string) :
  (truthy (dict_get h test) = true → is_Some (h !! key)) →
  prints (print_if h test label key).
Proof.
  intros Hkey. unfold print_if. destruct (truthy (dict_get h test)); [| apply prints_ret].
  destruct (Hkey eq_refl) as [v Hv]. unfold dict_item. rewrite Hv. apply prints_print.
Qed.

Lemma truthy_dict_get (h : gmap string value) (k : string) :
  truthy (dict_get h k) = true → is_Some (h !! k).
Proof. unfold dict_get. destruct (h !! k); [eauto | done]. Qed.

Lemma prints_summary_body (item : result) :
  (truthy (dict_get (highlights item) "gps") = true →
   is_Some (highlights item !! "gps_decimal")) →
  (∃ notes, highlights item !! "notes" = Some (VList notes)) →
  ∃ body,
    trace (print_summary item)
      = [Stdout rule; Stdout ("File: " +:+ file item)] ++ body ++ [Stdout rule; Stdout ""]
    ∧ forallb is_stdout body = true
    ∧ outcome (print_summary item) = Ok tt.
Proof.
  intros Hgps [notes Hnotes]. unfold print_summary.
  set (fmt := if truthy (format item) then _ else _).
  set (blk := if truthy (dict_get (highlights item) "notes") then _ else _).
  assert (Hfmt : prints fmt).
  { unfold fmt. destruct (truthy (format item)); [apply prints_print | apply prints_ret]. }
  assert (Hblk : prints blk).
  { unfold blk. destruct (truthy (dict_get (highlights item) "notes"));
      [| apply prints_ret].
    apply prints_bind; [apply prints_print |].
    unfold dict_item. rewrite Hnotes. cbn.
    apply (prints_for_each notes). intros n. apply prints_print. }
  pose proof (prints_print_if (highlights item) "dimensions" " Dimensions: " "dimensions"
                (truthy_dict_get _ _)) as H1.
  pose proof (prints_print_if (highlights item) "file_size" " Size: " "file_size"
                (truthy_dict_get _ _)) as H2.
  pose proof (prints_print_if (highlights item) "device" " Device: " "device"
                (truthy_dict_get _ _)) as H3.
  pose proof (prints_print_if (highlights item) "author" " Author: " "author"
                (truthy_dict_get _ _)) as H4.
  pose proof (prints_print_if (highlights item) "software" " Software: " "software"
                (truthy_dict_get _ _)) as H5.
  pose proof (prints_print_if (highlights item) "datetime_original" " Taken: "
                "datetime_original" (truthy_dict_get _ _)) as H6.
  pose proof (prints_print_if (highlights item) "gps" " GPS (decimal): " "gps_decimal"
                Hgps) as H7.
  revert Hfmt Hblk H1 H2 H3 H4 H5 H6 H7.
  generalize fmt blk
    (print_if (highlights item) "dimensions" " Dimensions: " "dimensions")
    (print_if (highlights item) "file_size" " Size: " "file_size")
    (print_if (highlights item) "device" " Device: " "device")
    (print_if (highlights item) "author" " Author: " "author")
    (print_if (highlights item) "software" " Software: " "software")
    (print_if (highlights item) "datetime_original" " Taken: " "datetime_original")
    (print_if (highlights item) "gps" " GPS (decimal): " "gps_decimal").
  intros [t0 o0] [t9 o9] [t1 o1] [t2 o2] [t3 o3] [t4 o4] [t5 o5] [t6 o6] [t7 o7].
  unfold prints. cbn. intros [-> F0] [-> F9] [-> F1] [-> F2] [-> F3] [-> F4] [-> F5]
    [-> F6] [-> F7]. cbn.
  exists (t0 ++ t1 ++ t2 ++ t3 ++ t4 ++ t5 ++ t6 ++ t7 ++ t9).
  split; [by rewrite <- !app_assoc |]. split; [| done].
  rewrite !forallb_app, F0, F1, F2, F3, F4, F5, F6, F7, F9. done.
Qed.

Lemma record_can_be_shown (src : source) (r : result) :
  extract_one src = Ok r →
  file r = path_name src
  ∧ (truthy (dict_get (highlights r) "gps") = true →
     is_Some (highlights r !! "gps_decimal"))
  ∧ ∃ notes, highlights r !! "notes" = Some (VList notes).
Proof.
  intros Hr. pose proof (extract_one_cases src) as Hc.
  pose proof (extract_one_joinable src r Hr) as Hf. rewrite Hr in Hc.
  destruct Hc as (Hfile & _ & _ & _ & _ & _ & _ & _ & Hb).
  pose proof (build_highlights_fields (flat_of src) (structured_of src)
                (width r) (height r) (size_human r)
                (structured_of_no_bytes src) (flat_of_gps_items src)) as Hfields.
  rewrite Hf in Hfields.
  destruct Hfields as (hl & Hhl & _ & _ & _ & _ & Hdec & Hgps & _ & _ & [notes Hnotes] & _).
  rewrite Hb in Hhl. injection Hhl as <-.
  split; [done |]. split; [| eauto].
  unfold dict_get at 1. rewrite Hgps, Hdec.
  destruct (truthy (dict_get (flat_of src) "gps")); [eauto | done].
Qed.


End Summary.

Lemma filter_csv_stdout (t : list event) :
  forallb is_stdout t = true → List.filter is_csv t = [].
Proof.
  induction t as [| ev t IH]; [done |]. cbn. intros Ht.
  apply andb_true_iff in Ht as [Hev Ht]. rewrite (IH Ht). by destruct ev.
Qed.

Lemma bind_ok_eq {A B : Type} (m : io A) (f : A → io B) (a : A) :
  outcome m = Ok a → m ≫= f = Run (trace m ++ trace (f a)) (outcome (f a)).
Proof. unfold mbind, io_bind. by intros ->. Qed.



Section CommandLine.
Context `{Builtins} `{Messages}.

Lemma write_sidecar_run (im : image) (res : result) (outp : string) :
  img_sidecar im = Ok outp →
  outcome (write_sidecar im res) = Ok tt
  ∧ List.filter is_csv (trace (write_sidecar im res)) = [].
Proof.
  intros Hp. unfold write_sidecar. rewrite Hp.
  rewrite (bind_ok_eq (lift (Ok outp)) _ outp eq_refl). cbn [trace outcome lift app].
  unfold io_try, with_open, write.
  destruct (img_json_open im) as [[] |]; [| done].
  destruct (img_json_dump im res) as [[] |], (img_json_close im) as [[] |]; done.
Qed.

Lemma main_loop_missing (with_json : bool) (pre post : list image)
    (results : list result) :
  Forall (λ im, img_exists im = Ok false) pre →
  main_loop with_json (pre ++ post) results
    = Run ((not_found <$> pre) ++ trace (main_loop with_json post results))
          (outcome (main_loop with_json post results)).
Proof.
  induction 1 as [| im pre Him _ IH].
  { cbn [app fmap list_fmap]. by destruct (main_loop with_json post results). }
  change ((im :: pre) ++ post) with (im :: (pre ++ post)).
  cbn [main_loop]. rewrite Him.
  rewrite (bind_ok_eq (lift (Ok false)) _ false eq_refl). cbn [negb trace outcome lift app].
  rewrite (bind_ok_eq (print_err _) _ tt eq_refl). rewrite IH. done.
Qed.

(** X14. An image for which [exists()] returns false costs one line on the
    standard error and nothing else. When this is so for every image of
    the command line, [main] writes these lines, in order, and ends
    without an error: no summary, no sidecar and, even with [--csv], no
    summary file. When [exists()] raises for an image and the images before
    it do not exist, [main] ends with that exception after the lines of
    the images before, and the images after it are not looked at. *)
Theorem main_reports_missing_images (args : arguments) (pre post : list image) :
  images args = pre ++ post →
  Forall (λ im, img_exists im = Ok false) pre →
  (post = [] → main args = Run (not_found <$> pre) (Ok tt))
  ∧ (∀ im post' e, post = im :: post' → img_exists im = Raise e →
       main args = Run (not_found <$> pre) (Raise e)).
Proof.
  intros Himgs Hall. unfold main. rewrite Himgs, (main_loop_missing _ _ _ _ Hall).
  split.
  - intros ->. cbn [main_loop]. unfold mbind, io_bind. cbn.
    rewrite andb_false_r. cbn. by rewrite !app_nil_r.
  - intros im post' e -> Him. cbn [main_loop]. rewrite Him.
    rewrite (bind_raise (lift (Raise e)) _ e eq_refl). cbn [trace outcome lift].
    unfold mbind, io_bind. cbn. by rewrite app_nil_r.
Qed.

Lemma main_loop_step (with_json : bool) (im : image) (imgs : list image)
    (results : list result) (r : result) :
  img_exists im = Ok true → extract_one (img_source im) = Ok r →
  (with_json = true → raises (img_sidecar im) = false) →
  let t := trace (print_summary r)
           ++ trace (if with_json then write_sidecar im r else mret tt) in
  List.filter is_csv t = []
  ∧ trace (main_loop with_json (im :: imgs) results)
      = t ++ trace (main_loop with_json imgs (results ++ [r]))
  ∧ outcome (main_loop with_json (im :: imgs) results)
      = outcome (main_loop with_json imgs (results ++ [r])).
Proof.
  intros Hex Hr Hside. cbn [main_loop]. rewrite Hex, Hr.
  rewrite (bind_ok_eq (lift (Ok true)) _ true eq_refl). cbn [negb trace outcome lift app].
  destruct (record_can_be_shown _ r Hr) as (_ & Hgps & Hnotes).
  destruct (prints_summary_body r Hgps Hnotes) as (body & Ht & Hbody & Ho).
  set (side := if with_json then write_sidecar im r else mret tt).
  assert (Hs : outcome side = Ok tt ∧ List.filter is_csv (trace side) = []).
  { unfold side. destruct with_json; [| done].
    destruct (img_sidecar im) as [outp |] eqn:Hp; [| by specialize (Hside eq_refl)].
    by apply (write_sidecar_run im r outp). }
  destruct Hs as [Hso Hst]. cbn zeta. split.
  - rewrite List.filter_app, Hst, app_nil_r. apply filter_csv_stdout.
    rewrite Ht, !forallb_app, Hbody. done.
  - rewrite (bind_ok_eq (lift (Ok r)) _ r eq_refl). cbn beta.
    rewrite (bind_ok_eq (print_summary r) _ tt Ho). cbn beta.
    rewrite (bind_ok_eq side _ tt Hso). cbn [trace outcome lift].
    by rewrite <- !app_assoc.
Qed.

Lemma passes_cases (with_json : bool) (im : image) :
  passes with_json im = true →
  img_exists im = Ok false
  ∨ (img_exists im = Ok true
     ∧ (∃ r, extract_one (img_source im) = Ok r)
     ∧ (with_json = true → raises (img_sidecar im) = false)).
Proof.
  unfold passes, processable. destruct (img_exists im) as [[] |]; [| by left | done].
  rewrite andb_true_iff. intros [Hr Hs]. right. split; [done |]. split.
  - destruct (extract_one (img_source im)); [eauto | done].
  - intros ->. cbn in Hs. by apply negb_true_iff in Hs.
Qed.

Lemma records_of_cons (im : image) (imgs : list image) :
  records_of (im :: imgs) =
    if existing im
    then match extract_one (img_source im) with
         | Ok r => r :: records_of imgs
         | Raise _ => records_of imgs
         end
    else records_of imgs.
Proof.
  unfold records_of. cbn [List.filter]. destruct (existing im); [| done].
  change (omap ?f (?a :: ?l))
    with (match f a with Some y => y :: omap f l | None => omap f l end).
  cbn beta. by destruct (extract_one (img_source im)).
Qed.

Lemma main_loop_run (with_json : bool) (imgs : list image) (results : list result) :
  Forall (λ im, passes with_json im = true) imgs →
  outcome (main_loop with_json imgs results) = Ok (results ++ records_of imgs)
  ∧ List.filter is_csv (trace (main_loop with_json imgs results)) = [].
Proof.
  intros Hall. revert results.
  induction Hall as [| im imgs Him _ IH]; intros results.
  { cbn. by rewrite app_nil_r. }
  destruct (passes_cases _ _ Him) as [Hex | (Hex & [r Hr] & Hside)].
  - pose proof (main_loop_missing with_json [im] imgs results
                  ltac:(by repeat constructor)) as Hm.
    change ([im] ++ imgs) with (im :: imgs) in Hm. rewrite Hm.
    cbn [trace outcome]. destruct (IH results) as [-> Hrest]. split.
    + rewrite records_of_cons. unfold existing. by rewrite Hex.
    + by rewrite List.filter_app, Hrest.
  - destruct (main_loop_step with_json im imgs results r Hex Hr Hside)
      as (Hcsv & -> & ->).
    destruct (IH (results ++ [r])) as [-> Hrest]. split.
    + rewrite records_of_cons. unfold existing. by rewrite Hex, Hr, <- app_assoc.
    + by rewrite List.filter_app, Hcsv, Hrest.
Qed.




Lemma main_loop_abort (with_json : bool) (pre post : list image) (im : image)
    (results : list result) (e : exn) :
  Forall (λ im, passes with_json im = true) pre →
  img_exists im = Ok true → extract_one (img_source im) = Raise e →
  main_loop with_json (pre ++ im :: post) results
    = Run (trace (main_loop with_json pre results)) (Raise e).
Proof.
  intros Hpre Hex He. revert results.
  induction Hpre as [| im0 pre Him0 _ IH]; intros results.
  { cbn [app main_loop]. by rewrite Hex, He. }
  change ((im0 :: pre) ++ im :: post) with (im0 :: (pre ++ im :: post)).
  destruct (passes_cases _ _ Him0) as [Hex0 | (Hex0 & [r Hr] & Hside)].
  - cbn [main_loop]. rewrite Hex0.
    rewrite !(bind_ok_eq (lift (Ok false)) _ false eq_refl).
    cbn [negb trace outcome lift app].
    rewrite !(bind_ok_eq (print_err _) _ tt eq_refl). by rewrite IH.
  - destruct (main_loop_step with_json im0 (pre ++ im :: post) results r Hex0 Hr Hside)
      as (_ & Ht & Ho).
    destruct (main_loop_step with_json im0 pre results r Hex0 Hr Hside)
      as (_ & Ht' & _).
    rewrite IH in Ht, Ho. cbn [trace outcome] in Ht, Ho.
    destruct (main_loop with_json (im0 :: pre ++ im :: post) results) as [t0 o0].
    cbn [trace outcome] in Ht, Ho. by rewrite Ht, Ho, Ht'.
Qed.

(** X16. An image whose record cannot be built stops the whole run:
    [main] ends with the error of [extract_one], the images after it are
    not looked at, and no summary file is written, although the records of
    the images before it were built and shown. *)
Theorem failing_image_aborts_the_run (args : arguments) (pre post : list image)
    (im : image) (e : exn) :
  images args = pre ++ im :: post →
  Forall (λ im, passes (json args) im = true) pre →
  img_exists im = Ok true → extract_one (img_source im) = Raise e →
  outcome (main args) = Raise e
  ∧ trace (main args) = trace (main_loop (json args) pre [])
  ∧ List.filter is_csv (trace (main args)) = [].
Proof.
  intros Himgs Hpre Hex He. unfold main.
  rewrite Himgs, (main_loop_abort _ _ _ _ _ _ Hpre Hex He).
  unfold mbind, io_bind. cbn. split; [done |]. split; [done |].
  by destruct (main_loop_run (json args) pre [] Hpre) as [_ ->].
Qed.

End CommandLine.

Section Basics.
Context `{Builtins}.

Lemma extract_one_basics (src : source) (r : result) :
  extract_one src = Ok r →
  size_bytes r = match stat_size src with
                 | Ok n => VInt n
                 | Raise _ => VNone
                 end
  ∧ size_human r = match stat_size src with
                   | Ok n => match human_size n with
                             | Ok s => VStr s
                             | Raise _ => VNone
                             end
                   | Raise _ => VNone
                   end
  ∧ (format r, width r, height r, pil_error r)
      = match image_info src with
        | Ok (fmt, w, h) => (fmt, VInt w, VInt h, None)
        | Raise e => (VNone, VNone, VNone, Some e)
        end.
Proof.
  unfold extract_one.
  destruct (path_resolved src) as [resolved |]; [cbn [mbind exc_bind] | done].
  destruct (stat_size src) as [n |]; [destruct (human_size n) |].
  all: destruct (image_info src) as [[[fmt w] h] |].
  all: destruct (flat_tags src) as [tags |]; [destruct (parse_exifread_tags tags) |].
  all: destruct (parse_piexif (ifd_tree src)).
  all: match goal with
       | |- context [build_highlights ?p ?t ?w ?h ?s] =>
           destruct (build_highlights p t w h s); cbn; [| done]
       end.
  all: by intros [= <-].
Qed.

Lemma extract_one_built (src : source) (r : result) :
  extract_one src = Ok r →
  ∃ hl,
    hl = highlights r
    ∧ hl !! "gps_decimal" =
        (if truthy (dict_get (flat_of src) "gps")
         then Some (VStr (gps_text (dict_get (flat_of src) "gps"))) else None)
    ∧ hl !! "gps" =
        (if truthy (dict_get (flat_of src) "gps") then Some (dict_get (flat_of src) "gps")
         else None)
    ∧ hl !! "dimensions" =
        (if truthy (width r) && truthy (height r)
         then Some (VStr (py_str (width r) +:+ "x" +:+ py_str (height r))) else None)
    ∧ hl !! "file_size" = (if truthy (size_human r) then Some (size_human r) else None).
Proof.
  intros Hr. pose proof (extract_one_cases src) as Hc.
  pose proof (extract_one_joinable src r Hr) as Hf. rewrite Hr in Hc.
  destruct Hc as (_ & _ & _ & _ & _ & _ & _ & _ & Hb).
  pose proof (build_highlights_fields (flat_of src) (structured_of src)
                (width r) (height r) (size_human r)
                (structured_of_no_bytes src) (flat_of_gps_items src)) as Hfields.
  rewrite Hf in Hfields.
  destruct Hfields as (hl & Hhl & _ & _ & _ & _ & Hdec & Hgps & Hdim & Hfs & _).
  rewrite Hb in Hhl. injection Hhl as <-. by exists (highlights r).
Qed.

(** X17. In a record the GPS entry and its text come together: either both
    are absent, or the entry holds two floats and the text is the two of
    them, as [str] renders them, with a comma and a space between. *)
Theorem gps_text_comes_with_gps_entry (src : source) (r : result) :
  extract_one src = Ok r →
  (highlights r !! "gps" = None ∧ highlights r !! "gps_decimal" = None)
  ∨ ∃ x y lat_ref lon_ref,
      highlights r !! "gps" = Some (gps_entry x y lat_ref lon_ref)
      ∧ highlights r !! "gps_decimal"
          = Some (VStr (py_str (VFloat x) +:+ ", " +:+ py_str (VFloat y))).
Proof.
  intros Hr. destruct (extract_one_built src r Hr) as (hl & -> & Hdec & Hgps & _).
  rewrite Hdec, Hgps. unfold dict_get.
  destruct (flat_of_gps src) as [-> | (x & y & r1 & r2 & ->)]; [by left |].
  right. by exists x, y, r1, r2.
Qed.

(** X18. The size and the dimensions of a record. A size the file system
    gives, from 0 up to 2^53, is kept as it is and shown with its unit,
    an empty file as "0.0B"; when the file system fails the record has
    neither. The dimensions are shown as width, "x", height when the image
    opens and neither is zero; an image that does not open, or one with a
    zero width or height, has none. *)
Theorem size_and_dimensions_of_record (src : source) (r : result) :
  extract_one src = Ok r →
  (∀ n, stat_size src = Ok n → 0 ≤ n < 2 ^ 53 →
     size_bytes r = VInt n
     ∧ highlights r !! "file_size" = Some (VStr (human_size_exact n)))
  ∧ (raises (stat_size src) = true →
     size_bytes r = VNone ∧ highlights r !! "file_size" = None)
  ∧ (∀ fmt w h, image_info src = Ok (fmt, w, h) →
     highlights r !! "dimensions" =
       if bool_decide (w ≠ 0 ∧ h ≠ 0)
       then Some (VStr (py_str (VInt w) +:+ "x" +:+ py_str (VInt h))) else None)
  ∧ (raises (image_info src) = true → highlights r !! "dimensions" = None).
Proof.
  intros Hr. destruct (extract_one_built src r Hr) as (hl & -> & _ & _ & Hdim & Hfs).
  destruct (extract_one_basics src r Hr) as (Hbytes & Hhuman & Himage).
  rewrite Hdim, Hfs, Hbytes, Hhuman. clear Hdim Hfs Hbytes Hhuman.
  split; [| split; [| split]].
  - intros n -> Hn. rewrite (human_size_is_exact n Hn). split; [done |].
    cbn [truthy].
    assert (Hne : human_size_exact n ≠ EmptyString).
    { unfold human_size_exact.
      destruct (pretty (F.div_half_even (10 * n) (1024 ^ Z.of_nat (unit_index 5 n)) / 10));
        cbn; [by destruct (pretty _) | done]. }
    apply String.eqb_neq in Hne. by rewrite Hne.
  - destruct (stat_size src); [done |]. done.
  - intros fmt w h Hinfo. rewrite Hinfo in Himage. injection Himage as _ -> -> _.
    cbn [truthy].
    destruct (Z.eqb_spec w 0) as [-> | Hw]; cbn [negb andb].
    { rewrite bool_decide_false; [done | tauto]. }
    destruct (Z.eqb_spec h 0) as [-> | Hh]; cbn [negb].
    { rewrite bool_decide_false; [done | tauto]. }
    by rewrite bool_decide_true.
  - destruct (image_info src); [done |]. intros _.
    injection Himage as _ -> -> _. done.
Qed.

(** X19. The flat result always has the five plain fields, each a text or
    [None], and no key besides them but [gps]. *)
Theorem flat_result_has_five_fields (tags : gmap string tag) :
  ∃ out,
    parse_exifread_tags tags = Ok out
    ∧ Forall (λ k, ∃ v, out !! k = Some v ∧ text_or_none v = true) plain_fields
    ∧ ∀ k, is_Some (out !! k) → k ∈ plain_fields ∨ k = "gps".
Proof.
  eexists. split; [apply parse_exifread_tags_eq |].
  set (out := match gps_of tags with Some g => _ | None => _ end).
  assert (Hother : ∀ k, k ≠ "gps" → out !! k = base_fields tags !! k).
  { intros k Hk. unfold out. destruct (gps_of tags); [by rewrite lookup_insert_ne | done]. }
  assert (Hfield : ∀ k, k ∈ plain_fields →
            ∃ v, base_fields tags !! k = Some v ∧ text_or_none v = true).
  { intros k Hk. pose proof (base_fields_text_or_none tags k) as Ht.
    unfold dict_get in Ht. unfold plain_fields in Hk.
    rewrite !elem_of_cons, elem_of_nil in Hk.
    assert (Hs : is_Some (base_fields tags !! k)).
    { unfold base_fields.
      destruct Hk as [-> | [-> | [-> | [-> | [-> | []]]]]];
        rewrite ?lookup_insert_ne by done; rewrite lookup_insert_eq; eauto. }
    destruct Hs as [v Hv]. rewrite Hv in Ht |- *. eauto. }
  split.
  - apply Forall_forall. intros k Hk. rewrite Hother; [by apply Hfield |].
    intros ->. unfold plain_fields in Hk. rewrite !elem_of_cons, elem_of_nil in Hk.
    by destruct Hk as [? | [? | [? | [? | [? | []]]]]].
  - intros k Hk. destruct (decide (k = "gps")) as [-> | Hne]; [by right | left].
    rewrite Hother in Hk by done. unfold base_fields in Hk.
    unfold plain_fields. rewrite !elem_of_cons.
    destruct (decide (k = "artist")) as [-> | ?]; [tauto |].
    destruct (decide (k = "software")) as [-> | ?]; [tauto |].
    destruct (decide (k = "datetime_original")) as [-> | ?]; [tauto |].
    destruct (decide (k = "model")) as [-> | ?]; [tauto |].
    destruct (decide (k = "make")) as [-> | ?]; [tauto |].
    rewrite !lookup_insert_ne, lookup_empty in Hk by done. by destruct Hk.
Qed.

End Basics.

(** ** The further statements on examples *)

Lemma flat_field_first_nonempty_alias_witness :
  ("make"%string, ["Image Make"%string] ++ "Make"%string :: []) ∈ aliases
  ∧ Forall (λ k', truthy (get Cases.empty_image_make k') = false) ["Image Make"%string]
  ∧ Cases.empty_image_make !! "Make" = Some (Examples.text_tag "Nikon")
  ∧ tag_str (Examples.text_tag "Nikon") ≠ EmptyString
  ∧ ∃ out, parse_exifread_tags (H := Sample.builtins) Cases.empty_image_make = Ok out
           ∧ out !! "make" = Some (VStr "Nikon").
Proof.
  assert (H1 : ("make"%string, ["Image Make"%string] ++ "Make"%string :: []) ∈ aliases)
    by (vm_compute; left).
  assert (H2 : Forall (λ k', truthy (get Cases.empty_image_make k') = false)
                 ["Image Make"%string])
    by (repeat constructor).
  assert (H3 : Cases.empty_image_make !! "Make" = Some (Examples.text_tag "Nikon"))
    by (vm_compute; reflexivity).
  assert (H4 : tag_str (Examples.text_tag "Nikon") ≠ EmptyString) by (vm_compute; congruence).
  split; [exact H1 |]. split; [exact H2 |]. split; [exact H3 |]. split; [exact H4 |].
  destruct (flat_field_first_nonempty_alias (H := Sample.builtins)
              Cases.empty_image_make "make" ["Image Make"%string] [] "Make"
              (Examples.text_tag "Nikon") H1 H2 H3 H4) as (out & Hout & Hmake & _).
  exists out. split; [exact Hout | exact Hmake].
Defined.

Lemma gps_entry_reads_gps_tags_only_witness :
  Forall (λ k, Examples.pittsburgh_tags !! k
               = delete "Image Make" Examples.pittsburgh_tags !! k) gps_keys
  ∧ ∃ out1 out2,
      parse_exifread_tags (H := Sample.builtins) Examples.pittsburgh_tags = Ok out1
      ∧ parse_exifread_tags (H := Sample.builtins)
          (delete "Image Make" Examples.pittsburgh_tags) = Ok out2
      ∧ out1 !! "gps" = out2 !! "gps".
Proof.
  assert (H1 : Forall (λ k, Examples.pittsburgh_tags !! k
                            = delete "Image Make" Examples.pittsburgh_tags !! k) gps_keys)
    by (repeat constructor).
  split; [exact H1 |].
  exact (gps_entry_reads_gps_tags_only (H := Sample.builtins)
           Examples.pittsburgh_tags (delete "Image Make" Examples.pittsburgh_tags) H1).
Defined.

Lemma zero_denominators_give_zero_coordinates_witness :
  values_at Cases.zero_denominator_tags "GPS GPSLatitude"
    = Some (VList [Ratio 40 0; Ratio 26 0; Ratio 46 0])
  ∧ values_at Cases.zero_denominator_tags "GPS GPSLongitude"
      = Some (VList [Ratio 79 0; Ratio 56 0; Ratio 55 0])
  ∧ ∃ out,
      parse_exifread_tags (H := Sample.builtins) Cases.zero_denominator_tags = Ok out
      ∧ out !! "gps" = Some (gps_entry (S754_zero true) (S754_zero false) "S" "").
Proof.
  assert (H1 : values_at Cases.zero_denominator_tags "GPS GPSLatitude"
               = Some (VList [Ratio 40 0; Ratio 26 0; Ratio 46 0]))
    by (vm_compute; reflexivity).
  assert (H2 : values_at Cases.zero_denominator_tags "GPS GPSLongitude"
               = Some (VList [Ratio 79 0; Ratio 56 0; Ratio 55 0]))
    by (vm_compute; reflexivity).
  split; [exact H1 |]. split; [exact H2 |].
  destruct (zero_denominators_give_zero_coordinates (H := Sample.builtins)
              Cases.zero_denominator_tags 40 26 46 79 56 55 H1 H2) as (out & Hout & Hgps).
  exists out. split; [exact Hout |]. rewrite Hgps. vm_compute. reflexivity.
Defined.

Lemma cleaned_tree_holds_no_bytes_witness :
  parse_piexif (H := Sample.builtins) (Ok Examples.zeroth_artist_B)
    = Ok {["0th"%string := {["Artist"%string := VStr "B"]}]}
  ∧ ({["0th"%string := {["Artist"%string := VStr "B"]}]}
       : gmap string (gmap string value)) !! "0th"
      = Some {["Artist"%string := VStr "B"]}
  ∧ ({["Artist"%string := VStr "B"]} : gmap string value) !! "Artist" = Some (VStr "B")
  ∧ is_bytes (VStr "B") = false.
Proof.
  assert (H1 : parse_piexif (H := Sample.builtins) (Ok Examples.zeroth_artist_B)
               = Ok {["0th"%string := {["Artist"%string := VStr "B"]}]})
    by (vm_compute; reflexivity).
  assert (H2 : ({["0th"%string := {["Artist"%string := VStr "B"]}]}
                  : gmap string (gmap string value)) !! "0th"
               = Some {["Artist"%string := VStr "B"]})
    by (vm_compute; reflexivity).
  assert (H3 : ({["Artist"%string := VStr "B"]} : gmap string value) !! "Artist"
               = Some (VStr "B"))
    by (vm_compute; reflexivity).
  split; [exact H1 |]. split; [exact H2 |]. split; [exact H3 |].
  exact (proj1 (cleaned_tree_holds_no_bytes (H := Sample.builtins)
                  (Ok Examples.zeroth_artist_B) _ "0th" "Artist" _ (VStr "B") H1 H2 H3)).
Defined.

Lemma null_terminated_ascii_is_its_text_witness :
  is_ascii_text (list_byte_of_string "Canon") = true
  ∧ clean_value (VBytes (list_byte_of_string "Canon" ++ replicate 1 Byte.x00))
      = Ok (VStr (text_of_bytes (list_byte_of_string "Canon"))).
Proof.
  assert (H1 : is_ascii_text (list_byte_of_string "Canon") = true)
    by (vm_compute; reflexivity).
  split; [exact H1 |].
  exact (null_terminated_ascii_is_its_text (list_byte_of_string "Canon") 1 H1).
Defined.

Lemma device_joins_make_and_model_witness :
  raises (extract_one (H := Sample.builtins) Cases.canon_eos) = false
  ∧ highlights_of (extract_one (H := Sample.builtins) Cases.canon_eos) !! "device"
      = Some (VStr "Canon EOS").
Proof.
  assert (Hok : raises (extract_one (H := Sample.builtins) Cases.canon_eos) = false)
    by (vm_compute; reflexivity).
  split; [exact Hok |].
  assert (Hparts : match extract_one (H := Sample.builtins) Cases.canon_eos with
                   | Ok r => make_of (exifread r) (piexif r) = VStr "Canon"
                             ∧ model_of (exifread r) (piexif r) = VStr "EOS"
                   | Raise _ => False
                   end) by (vm_compute; split; reflexivity).
  destruct (extract_one (H := Sample.builtins) Cases.canon_eos) as [r |] eqn:Hr;
    [| discriminate Hok].
  destruct Hparts as [Hmake Hmodel]. cbn [highlights_of].
  rewrite (device_joins_make_and_model (H := Sample.builtins) Cases.canon_eos r Hr).
  rewrite Hmake, Hmodel. reflexivity.
Defined.

Lemma datetime_resolution_order_witness :
  raises (extract_one (H := Sample.builtins) Cases.canon_eos) = false
  ∧ highlights_of (extract_one (H := Sample.builtins) Cases.canon_eos)
      !! "datetime_original" = Some (VStr "2020:01:02 03:04:05").
Proof.
  assert (Hok : raises (extract_one (H := Sample.builtins) Cases.canon_eos) = false)
    by (vm_compute; reflexivity).
  split; [exact Hok |].
  assert (Hparts : match extract_one (H := Sample.builtins) Cases.canon_eos with
                   | Ok r => datetime_of (exifread r) (piexif r)
                             = VStr "2020:01:02 03:04:05"
                   | Raise _ => False
                   end) by (vm_compute; reflexivity).
  destruct (extract_one (H := Sample.builtins) Cases.canon_eos) as [r |] eqn:Hr;
    [| discriminate Hok].
  cbn [highlights_of].
  rewrite (proj1 (datetime_resolution_order (H := Sample.builtins) Cases.canon_eos r Hr)).
  rewrite Hparts. reflexivity.
Defined.

Lemma unreadable_file_gives_bare_record_witness :
  flat_tags Examples.unreadable = Raise OSError
  ∧ ifd_tree Examples.unreadable = Raise (LibraryError "no exif")
  ∧ raises (extract_one (H := Sample.builtins) Examples.unreadable) = false
  ∧ match extract_one (H := Sample.builtins) Examples.unreadable with
    | Ok r => exifread_error r = Some OSError ∧ piexif_error r = None
              ∧ highlights r !! "notes" = Some four_notes
    | Raise _ => False
    end.
Proof.
  assert (H1 : flat_tags Examples.unreadable = Raise OSError) by reflexivity.
  assert (H2 : ifd_tree Examples.unreadable = Raise (LibraryError "no exif"))
    by reflexivity.
  assert (Hok : raises (extract_one (H := Sample.builtins) Examples.unreadable) = false)
    by (vm_compute; reflexivity).
  split; [exact H1 |]. split; [exact H2 |]. split; [exact Hok |].
  pose proof (unreadable_file_gives_bare_record (H := Sample.builtins)
                Examples.unreadable OSError (LibraryError "no exif") H1 H2) as Hrec.
  destruct (extract_one (H := Sample.builtins) Examples.unreadable) as [r |];
    [| discriminate Hok].
  destruct Hrec as (_ & _ & _ & _ & Herr & Hperr & Hnotes & _).
  split; [exact Herr |]. split; [exact Hperr | exact Hnotes].
Defined.

Lemma non_mapping_entry_drops_structured_witness :
  ifd_tree Cases.thumbnail_source = Ok Examples.with_thumbnail
  ∧ "thumbnail"%string ∈ Examples.with_thumbnail.*1
  ∧ not_a_mapping Examples.with_thumbnail "thumbnail" = true
  ∧ raises (extract_one (H := Sample.builtins) Cases.thumbnail_source) = false
  ∧ match extract_one (H := Sample.builtins) Cases.thumbnail_source with
    | Ok r => piexif r = ∅ ∧ piexif_error r = Some AttributeError
    | Raise _ => False
    end.
Proof.
  assert (H1 : ifd_tree Cases.thumbnail_source = Ok Examples.with_thumbnail) by reflexivity.
  assert (H2 : "thumbnail"%string ∈ Examples.with_thumbnail.*1)
    by (vm_compute; right; left).
  assert (H3 : not_a_mapping Examples.with_thumbnail "thumbnail" = true)
    by (vm_compute; reflexivity).
  assert (Hok : raises (extract_one (H := Sample.builtins) Cases.thumbnail_source) = false)
    by (vm_compute; reflexivity).
  split; [exact H1 |]. split; [exact H2 |]. split; [exact H3 |]. split; [exact Hok |].
  pose proof (non_mapping_entry_drops_structured (H := Sample.builtins)
                Cases.thumbnail_source Examples.with_thumbnail "thumbnail" H1 H2 H3)
    as Hrec.
  destruct (extract_one (H := Sample.builtins) Cases.thumbnail_source) as [r |];
    [| discriminate Hok].
  destruct Hrec as (Hpi & Hperr & _). split; [exact Hpi | exact Hperr].
Defined.

Lemma highlights_hold_no_bytes_witness :
  raises (extract_one (H := Sample.builtins) Examples.structured_only) = false
  ∧ highlights_of (extract_one (H := Sample.builtins) Examples.structured_only)
      !! "author" = Some (VStr "B")
  ∧ is_bytes (VStr "B") = false.
Proof.
  assert (Hok : raises (extract_one (H := Sample.builtins) Examples.structured_only)
                = false) by (vm_compute; reflexivity).
  assert (Hauthor : highlights_of
                      (extract_one (H := Sample.builtins) Examples.structured_only)
                      !! "author" = Some (VStr "B")) by (vm_compute; reflexivity).
  split; [exact Hok |]. split; [exact Hauthor |].
  destruct (extract_one (H := Sample.builtins) Examples.structured_only) as [r |] eqn:Hr;
    [| discriminate Hok].
  exact (highlights_hold_no_bytes (H := Sample.builtins) Examples.structured_only r
           "author" (VStr "B") Hr Hauthor).
Defined.


Lemma main_reports_missing_images_witness :
  (images Cases.none_found = images Cases.none_found ++ []
   ∧ Forall (λ im, img_exists im = Ok false) (images Cases.none_found)
   ∧ main (H := Sample.builtins) (H0 := Cases.messages) Cases.none_found
       = Run [Stderr "Not found: x.jpg"; Stderr "Not found: y.jpg"] (Ok tt))
  ∧ (images Cases.name_refused
       = [Cases.missing "x.jpg"]
         ++ Cases.refused "z.jpg" :: [Cases.present "a.jpg" Examples.pittsburgh]
     ∧ Forall (λ im, img_exists im = Ok false) [Cases.missing "x.jpg"]
     ∧ img_exists (Cases.refused "z.jpg") = Raise OSError
     ∧ main (H := Sample.builtins) (H0 := Cases.messages) Cases.name_refused
         = Run [Stderr "Not found: x.jpg"] (Raise OSError)).
Proof.
  split.
  - assert (H1 : images Cases.none_found = images Cases.none_found ++ [])
      by reflexivity.
    assert (H2 : Forall (λ im, img_exists im = Ok false) (images Cases.none_found))
      by (repeat constructor).
    split; [exact H1 |]. split; [exact H2 |].
    exact (proj1 (main_reports_missing_images (H := Sample.builtins)
                    (H0 := Cases.messages) Cases.none_found _ [] H1 H2) eq_refl).
  - assert (H1 : images Cases.name_refused
                 = [Cases.missing "x.jpg"]
                   ++ Cases.refused "z.jpg"
                      :: [Cases.present "a.jpg" Examples.pittsburgh]) by reflexivity.
    assert (H2 : Forall (λ im, img_exists im = Ok false) [Cases.missing "x.jpg"])
      by (repeat constructor).
    assert (H3 : img_exists (Cases.refused "z.jpg") = Raise OSError) by reflexivity.
    split; [exact H1 |]. split; [exact H2 |]. split; [exact H3 |].
    exact (proj2 (main_reports_missing_images (H := Sample.builtins)
                    (H0 := Cases.messages) Cases.name_refused _ _ H1 H2)
             _ _ OSError eq_refl H3).
Defined.


Lemma failing_image_aborts_the_run_witness :
  images Cases.aborted
    = [Cases.present "a.jpg" Examples.pittsburgh]
      ++ Cases.present "c.jpg" Cases.numeric_make
         :: [Cases.present "d.jpg" Examples.origin]
  ∧ Forall (λ im, passes (H := Sample.builtins) (json Cases.aborted) im = true)
           [Cases.present "a.jpg" Examples.pittsburgh]
  ∧ img_exists (Cases.present "c.jpg" Cases.numeric_make) = Ok true
  ∧ extract_one (H := Sample.builtins)
      (img_source (Cases.present "c.jpg" Cases.numeric_make)) = Raise TypeError
  ∧ outcome (main (H := Sample.builtins) (H0 := Cases.messages) Cases.aborted)
      = Raise TypeError
  ∧ List.filter is_csv
      (trace (main (H := Sample.builtins) (H0 := Cases.messages) Cases.aborted)) = [].
Proof.
  assert (H1 : images Cases.aborted
               = [Cases.present "a.jpg" Examples.pittsburgh]
                 ++ Cases.present "c.jpg" Cases.numeric_make
                    :: [Cases.present "d.jpg" Examples.origin]) by reflexivity.
  assert (H2 : Forall (λ im, passes (H := Sample.builtins) (json Cases.aborted) im = true)
                 [Cases.present "a.jpg" Examples.pittsburgh]).
  { repeat constructor; vm_compute; reflexivity. }
  assert (H3 : img_exists (Cases.present "c.jpg" Cases.numeric_make) = Ok true)
    by reflexivity.
  assert (H4 : extract_one (H := Sample.builtins)
                 (img_source (Cases.present "c.jpg" Cases.numeric_make))
               = Raise TypeError) by (vm_compute; reflexivity).
  split; [exact H1 |]. split; [exact H2 |]. split; [exact H3 |]. split; [exact H4 |].
  destruct (failing_image_aborts_the_run (H := Sample.builtins) (H0 := Cases.messages)
              Cases.aborted _ _ _ TypeError H1 H2 H3 H4) as (Ho & _ & Hcsv).
  split; [exact Ho | exact Hcsv].
Defined.

Lemma gps_text_comes_with_gps_entry_witness :
  raises (extract_one (H := Sample.builtins) Examples.pittsburgh) = false
  ∧ ((highlights_of (extract_one (H := Sample.builtins) Examples.pittsburgh) !! "gps"
        = None
      ∧ highlights_of (extract_one (H := Sample.builtins) Examples.pittsburgh)
          !! "gps_decimal" = None)
     ∨ ∃ x y lat_ref lon_ref,
         highlights_of (extract_one (H := Sample.builtins) Examples.pittsburgh) !! "gps"
           = Some (gps_entry x y lat_ref lon_ref)
         ∧ highlights_of (extract_one (H := Sample.builtins) Examples.pittsburgh)
             !! "gps_decimal"
             = Some (VStr (py_str (Builtins := Sample.builtins) (VFloat x) +:+ ", "
                           +:+ py_str (Builtins := Sample.builtins) (VFloat y)))).
Proof.
  assert (Hok : raises (extract_one (H := Sample.builtins) Examples.pittsburgh) = false)
    by (vm_compute; reflexivity).
  split; [exact Hok |].
  destruct (extract_one (H := Sample.builtins) Examples.pittsburgh) as [r |] eqn:Hr;
    [| discriminate Hok].
  exact (gps_text_comes_with_gps_entry (H := Sample.builtins) Examples.pittsburgh r Hr).
Defined.

Lemma size_and_dimensions_of_record_witness :
  raises (extract_one (H := Sample.builtins) Examples.pittsburgh) = false
  ∧ stat_size Examples.pittsburgh = Ok 1536
  ∧ image_info Examples.pittsburgh = Ok (VStr "JPEG", 640, 480)
  ∧ highlights_of (extract_one (H := Sample.builtins) Examples.pittsburgh) !! "file_size"
      = Some (VStr "1.5KB")
  ∧ highlights_of (extract_one (H := Sample.builtins) Examples.pittsburgh) !! "dimensions"
      = Some (VStr "640x480").
Proof.
  assert (Hok : raises (extract_one (H := Sample.builtins) Examples.pittsburgh) = false)
    by (vm_compute; reflexivity).
  assert (H1 : stat_size Examples.pittsburgh = Ok 1536) by reflexivity.
  assert (H2 : image_info Examples.pittsburgh = Ok (VStr "JPEG", 640, 480)) by reflexivity.
  split; [exact Hok |]. split; [exact H1 |]. split; [exact H2 |].
  destruct (extract_one (H := Sample.builtins) Examples.pittsburgh) as [r |] eqn:Hr;
    [| discriminate Hok].
  destruct (size_and_dimensions_of_record (H := Sample.builtins) Examples.pittsburgh r Hr)
    as (Hsize & _ & Hdim & _).
  cbn [highlights_of]. split.
  - destruct (Hsize 1536 H1 ltac:(lia)) as [_ ->]. reflexivity.
  - rewrite (Hdim _ _ _ H2). reflexivity.
Defined.

Lemma structured_extractor_raises_on_thumbnail_witness :
  assoc "thumbnail" Cases.loaded_tree = Some (IfdOther VNone)
  ∧ parse_piexif (H := Sample.builtins) (Ok Cases.loaded_tree) = Raise AttributeError
  ∧ parse_piexif (H := Sample.builtins) (Raise OSError) = Ok ∅.
Proof.
  assert (H1 : assoc "thumbnail" Cases.loaded_tree = Some (IfdOther VNone))
    by reflexivity.
  split; [exact H1 |].
  exact (structured_extractor_raises_on_thumbnail (H := Sample.builtins)
           Cases.loaded_tree VNone OSError H1).
Defined.

(** The make of the tree that the reader returns for a file never reaches
    the record: the tree is dropped for its thumbnail entry. *)
Example loaded_tree_is_dropped :
  (λ r, (piexif r, piexif_error r, highlights r !! "device"))
    <$> extract_one (H := Sample.builtins)
          (Examples.source_of (Ok ∅) (Ok Cases.loaded_tree))
    = Ok (∅, Some AttributeError, None).
Proof. vm_compute. reflexivity. Qed.

(** A path that cannot be resolved: no record, whatever the readers would
    give. *)
Example unresolvable_path_raises :
  extract_one (H := Sample.builtins) Cases.unresolvable = Raise ValueError.
Proof. reflexivity. Qed.

(** The summary file on a disk that fills up at the second row: the file,
    its header and the first row stay, the failure is reported last, and
    the run ends without an error. *)
Example summary_file_cut_short :
  (λ m, ((λ ev, match ev with
                | CsvOpen p => (p, 0%nat)
                | CsvHeader p header => (p, length header)
                | CsvRow p row => (p, length row)
                | _ => (EmptyString, 0%nat)
                end) <$> List.filter is_csv (trace m),
         last (trace m), outcome m))
    (main (H := Sample.builtins) (H0 := Cases.messages) Cases.disk_full)
    = ([("out.csv"%string, 0%nat); ("out.csv"%string, 11%nat);
        ("out.csv"%string, 11%nat)],
       Some (Stderr "Failed to write CSV: "), Ok tt).
Proof. vm_compute. reflexivity. Qed.

(** A structured make that is a number cannot be joined: the record is not
    built. *)
Example numeric_make_raises :
  extract_one (H := Sample.builtins) Cases.numeric_make = Raise TypeError.
Proof. vm_compute. reflexivity. Qed.

(** A sidecar that cannot be opened is reported and the run goes on; the
    summary of a file that no reader could read shows the four notes. *)
Example sidecar_failure_is_reported :
  List.filter (λ ev, negb (is_stdout ev))
    (trace (write_sidecar (H := Sample.builtins) (H0 := Cases.messages)
              (Cases.read_only "b.jpg" Examples.unreadable)
              {| file := "b.jpg"; path := "/photos/b.jpg"; size_bytes := VNone;
                 size_human := VNone; width := VNone; height := VNone; format := VNone;
                 pil_error := Some OSError; exifread := ∅; piexif := ∅;
                 exifread_raw := None; exifread_error := Some OSError;
                 piexif_error := None; highlights := {["notes"%string := four_notes]} |}))
    = [Stderr "Failed to write JSON for b.jpg: "]
  ∧ trace (print_summary (H := Sample.builtins)
             {| file := "b.jpg"; path := "/photos/b.jpg"; size_bytes := VNone;
                size_human := VNone; width := VNone; height := VNone; format := VNone;
                pil_error := Some OSError; exifread := ∅; piexif := ∅;
                exifread_raw := None; exifread_error := Some OSError;
                piexif_error := None; highlights := {["notes"%string := four_notes]} |})
    = [Stdout rule; Stdout "File: b.jpg"; Stdout " Notes:";
       Stdout ("  - " +:+ note_gps); Stdout ("  - " +:+ note_author);
       Stdout ("  - " +:+ note_device); Stdout ("  - " +:+ note_datetime);
       Stdout rule; Stdout ""].
Proof. split; vm_compute; reflexivity. Qed.
